(** * The task scheduler of [src/scheduler/task_scheduler.py]

    A shallow embedding of the [Task] entity and of [TaskScheduler], and
    the properties of the scheduler that hold of it.

    Conventions of the embedding.
    - A naive [datetime] is a [Z]: microseconds on the time line.  The range
      limit of Python's datetimes (years 1 to 9999) is not modelled.
    - Python objects that the code stores in dictionaries and returns from
      work-units are values of [pyval].
    - A method is a computation in a state-and-exception monad: the state
      it mutates survives an exception, as in Python.
    - [datetime.datetime.now()] reads the clock of the world.  The clock
      moves while a work-unit runs and while the loop sleeps (and between
      two calls of the public interface, where the caller supplies the
      world).
    - The [schedule] package and the [datetime] string functions are not
      part of the repository: they are interfaces ([ScheduleLib],
      [Datetime]), and the results hold for every implementation.
    - The order in which a Python dict is iterated is not modelled: the
      registry is a finite map.
    - [json.dump] and [json.load] are the identity on the records of the
      tasks, whose values are [None], booleans, integers and strings: the
      file [tasks.json] is the list of the records. *)

From Stdlib Require Import ZArith Ascii String List Bool Lia.
From stdpp Require Import base option gmap strings list fin_maps pretty.

Local Open Scope string_scope.
Local Open Scope Z_scope.

(** ** Python values, exceptions and the world *)

(** An instance of a subclass of [Exception]: class name and [str(e)]. *)
Inductive exn := Exn (cls : string) (msg : string).

Definition str_exn (e : exn) : string := let 'Exn _ msg := e in msg.

Inductive outcome (A : Type) :=
| Returned (a : A)
| Raised (e : exn).
Arguments Returned {A} _.
Arguments Raised {A} _.

(** A Python value.  [PyFunc] is a callable: called when the clock reads
    [now], after the invocations [calls], it returns or raises, and the
    clock reads its second component when it is done. *)
#[warnings="-register-all"]
Inductive pyval :=
| PyNone
| PyBool (b : bool)
| PyInt (n : Z)
| PyStr (s : string)
| PyFunc (f : Z -> list string -> outcome pyval * Z).

Abbreviation WorkUnit := (Z -> list string -> outcome pyval * Z).
Abbreviation pydict := (gmap string pyval).

(** What lies outside the scheduler object: the clock, the invocations of
    work-units so far (instrumentation: one entry, the task id, per
    invocation), the records of the logger, the job list of the [schedule]
    module with its next fresh job handle, and the file [tasks.json]
    ([disk_ok] is false when opening it fails). *)
Record world := mkWorld {
  now : Z;
  calls : list string;
  logs : list (string * string);
  jobs : list nat;
  fresh : nat;
  tasks_json : option (list pydict);
  disk_ok : bool
}.

Definition is_callable (v : pyval) : bool :=
  match v with PyFunc _ => true | _ => false end.

(** Truth value of a Python object in a condition. *)
Definition truthy (v : pyval) : bool :=
  match v with
  | PyNone => false
  | PyBool b => b
  | PyInt n => negb (n =? 0)
  | PyStr s => negb (String.eqb s "")
  | PyFunc _ => true
  end.

(** ** The state-and-exception monad *)

Definition M (S A : Type) : Type := S -> outcome A * S.

Global Instance M_ret S : MRet (M S) := fun A a s => (Returned a, s).
Global Instance M_bind S : MBind (M S) := fun A B f m s =>
  match m s with
  | (Returned a, s') => f a s'
  | (Raised e, s') => (Raised e, s')
  end.

Definition raise {S A} (e : exn) : M S A := fun s => (Raised e, s).
Definition modify {S} (f : S -> S) : M S unit := fun s => (Returned tt, f s).

(** [try: body except Exception as e: handler e] *)
Definition try_except {S A} (body : M S A) (handler : exn -> M S A) : M S A :=
  fun s =>
    match body s with
    | (Returned a, s') => (Returned a, s')
    | (Raised e, s') => handler e s'
    end.

(** A value that must be present ([d[k]], an attribute of [None], ...). *)
Definition expect {S A} (e : exn) (o : option A) : M S A :=
  match o with Some a => mret a | None => raise e end.

(** ** Task *)

Record Task := mkTask {
  task_id : string;
  name : string;
  function : WorkUnit;   (* the callable applied to its stored arguments *)
  schedule_type : string;
  interval : Z;
  cron : option string;
  start_time : option Z;
  end_time : option Z;
  max_runs : option Z;
  enabled : bool;
  run_count : Z;
  last_run : option Z;
  next_run : option Z;
  job : option nat
}.

(** [Task.__init__] *)
Definition Task_init (task_id name : string) (function : WorkUnit)
    (schedule_type : string) (interval : Z) (cron : option string)
    (start_time end_time : option Z) (max_runs : option Z) (enabled : bool) : Task :=
  {| task_id := task_id; name := name; function := function;
     schedule_type := schedule_type; interval := interval; cron := cron;
     start_time := start_time; end_time := end_time; max_runs := max_runs;
     enabled := enabled; run_count := 0; last_run := None; next_run := None;
     job := None |}.

Definition set_enabled (b : bool) (t : Task) : Task :=
  mkTask (task_id t) (name t) (function t) (schedule_type t) (interval t) (cron t)
    (start_time t) (end_time t) (max_runs t) b (run_count t) (last_run t)
    (next_run t) (job t).
Definition set_run_count (n : Z) (t : Task) : Task :=
  mkTask (task_id t) (name t) (function t) (schedule_type t) (interval t) (cron t)
    (start_time t) (end_time t) (max_runs t) (enabled t) n (last_run t)
    (next_run t) (job t).
Definition set_last_run (d : option Z) (t : Task) : Task :=
  mkTask (task_id t) (name t) (function t) (schedule_type t) (interval t) (cron t)
    (start_time t) (end_time t) (max_runs t) (enabled t) (run_count t) d
    (next_run t) (job t).
Definition set_next_run (d : option Z) (t : Task) : Task :=
  mkTask (task_id t) (name t) (function t) (schedule_type t) (interval t) (cron t)
    (start_time t) (end_time t) (max_runs t) (enabled t) (run_count t) (last_run t)
    d (job t).
Definition set_job (j : option nat) (t : Task) : Task :=
  mkTask (task_id t) (name t) (function t) (schedule_type t) (interval t) (cron t)
    (start_time t) (end_time t) (max_runs t) (enabled t) (run_count t) (last_run t)
    (next_run t) j.

(** [datetime.timedelta(seconds=n)], in microseconds. *)
Definition timedelta_seconds (n : Z) : Z := n * 1000000.
Definition timedelta_days (n : Z) : Z := n * 86400000000.

(** The world after a work-unit has run: the clock has moved and the
    invocation is on record. *)
Definition after_call (tid : string) (finish : Z) (w : world) : world :=
  mkWorld finish (calls w ++ [tid]) (logs w) (jobs w) (fresh w)
    (tasks_json w) (disk_ok w).
Definition add_log (lvl msg : string) (w : world) : world :=
  mkWorld (now w) (calls w) (logs w ++ [(lvl, msg)]) (jobs w) (fresh w)
    (tasks_json w) (disk_ok w).
Definition set_jobs (js : list nat) (n : nat) (w : world) : world :=
  mkWorld (now w) (calls w) (logs w) js n (tasks_json w) (disk_ok w).
Definition set_tasks_json (f : option (list pydict)) (w : world) : world :=
  mkWorld (now w) (calls w) (logs w) (jobs w) (fresh w) f (disk_ok w).

(** Methods of a task run on the task object and the world. *)
Abbreviation TaskM := (M (Task * world)).

Definition self : TaskM Task := fun s => (Returned (fst s), s).
Definition update (f : Task -> Task) : TaskM unit :=
  fun s => (Returned tt, (f (fst s), snd s)).
Definition datetime_now : TaskM Z := fun s => (Returned (now (snd s)), s).
Definition logger (lvl msg : string) : TaskM unit :=
  fun s => (Returned tt, (fst s, add_log lvl msg (snd s))).

(** The call of [self.function] on the stored arguments. *)
Definition call_function : TaskM pyval :=
  fun s =>
    let (r, finish) := function (fst s) (now (snd s)) (calls (snd s)) in
    (r, (fst s, after_call (task_id (fst s)) finish (snd s))).

Definition label (t : Task) : string :=
  (task_id t ++ " (" ++ name t ++ ")")%string.

(** ** Strings *)

(** White space for [str.split()], on ASCII. *)
Definition is_space (c : ascii) : bool :=
  let n := nat_of_ascii c in
  ((9 <=? n)%nat && (n <=? 13)%nat) || ((28 <=? n)%nat && (n <=? 32)%nat).

(** [s.split()]: the maximal runs without white space.  [cur] is the run
    being read, in reverse. *)
Fixpoint split_from (cur : option string) (s : string) : list string :=
  match s with
  | EmptyString =>
      match cur with Some w => [String.rev w] | None => [] end
  | String c s' =>
      if is_space c then
        match cur with
        | Some w => String.rev w :: split_from None s'
        | None => split_from None s'
        end
      else
        split_from (Some (String c (default EmptyString cur))) s'
  end.
Definition split (s : string) : list string := split_from None s.

(** [s.zfill(2)] *)
Definition zfill2 (s : string) : string :=
  match s with
  | EmptyString => "00"
  | String c EmptyString =>
      if Ascii.eqb c "+" || Ascii.eqb c "-" then String c "0" else String "0" s
  | _ => s
  end.

Definition digit_of (c : ascii) : option Z :=
  let n := nat_of_ascii c in
  if ((48 <=? n)%nat && (n <=? 57)%nat) then Some (Z.of_nat n - 48) else None.

(** The digits of [int(s)] after the sign: decimal digits, single
    underscores allowed between two digits.  [acc] is the value read;
    [after_digit] tells whether the last character was a digit. *)
Fixpoint int_digits (acc : Z) (after_digit : bool) (s : string) : option Z :=
  match s with
  | EmptyString => if after_digit then Some acc else None
  | String c s' =>
      match digit_of c with
      | Some d => int_digits (10 * acc + d) true s'
      | None =>
          if Ascii.eqb c "_" && after_digit then int_digits acc false s'
          else None
      end
  end.

(** [int(s)] on a string without white space; [None] is [ValueError]. *)
Definition py_int (s : string) : option Z :=
  match s with
  | String c s' =>
      if Ascii.eqb c "-" then Z.opp <$> int_digits 0 false s'
      else if Ascii.eqb c "+" then int_digits 0 false s'
      else int_digits 0 false s
  | EmptyString => None
  end.

(** ** The interfaces of the libraries *)

(** The functions of [datetime] that work on calendar fields and on
    strings.  [dt_replace d minute hour day month] is [d.replace(...)] with
    the given fields ([None]: the field of [d] itself); it and
    [fromisoformat] are [None] where Python raises [ValueError]. *)
Class Datetime := {
  isoformat : Z -> string;
  fromisoformat : string -> option Z;
  dt_replace : Z -> option Z -> option Z -> option Z -> option Z -> option Z
}.

(** What the documentation of [datetime] promises of them. *)
Class DatetimeLaws (D : Datetime) : Prop := {
  fromisoformat_isoformat : forall d, fromisoformat (isoformat d) = Some d;
  isoformat_nonempty : forall d, isoformat d <> ""%string
}.

(** The job builder of the [schedule] package: [every n] (with [n] in
    microseconds), the properties that select a unit or a weekday
    ([job_attr "seconds"], [job_attr "monday"], ...), [at], and whether
    [do] accepts the finished job.  [None] and [false] stand for the
    exceptions of the package. *)
Class ScheduleLib := {
  jobspec : Type;
  every : Z -> jobspec;
  job_attr : string -> jobspec -> option jobspec;
  job_at : string -> jobspec -> option jobspec;
  job_do_ok : jobspec -> bool
}.

Section Scheduler.

Context {D : Datetime} {L : ScheduleLib}.

(** *** Serialisation *)

Definition iso_or_none (d : option Z) : pyval :=
  match d with Some x => PyStr (isoformat x) | None => PyNone end.
Definition str_or_none (s : option string) : pyval :=
  match s with Some x => PyStr x | None => PyNone end.
Definition int_or_none (n : option Z) : pyval :=
  match n with Some x => PyInt x | None => PyNone end.

(** [Task.to_dict] *)
Definition to_dict (t : Task) : pydict :=
  list_to_map [
    ("task_id", PyStr (task_id t));
    ("name", PyStr (name t));
    ("schedule_type", PyStr (schedule_type t));
    ("interval", PyInt (interval t));
    ("cron", str_or_none (cron t));
    ("start_time", iso_or_none (start_time t));
    ("end_time", iso_or_none (end_time t));
    ("max_runs", int_or_none (max_runs t));
    ("enabled", PyBool (enabled t));
    ("run_count", PyInt (run_count t));
    ("last_run", iso_or_none (last_run t));
    ("next_run", iso_or_none (next_run t))
  ].

(** [data[k]] *)
Definition getitem {S} (data : pydict) (k : string) : M S pyval :=
  expect (Exn "KeyError" k) (data !! k).

(** The fields of [Task] carry the types of the constructor's annotations.
    A record with a value of another type has no task in this model:
    the conversions below raise [Untyped] there. *)
Definition untyped (k : string) : exn := Exn "Untyped" k.

Definition as_str {S} (k : string) (v : pyval) : M S string :=
  match v with PyStr s => mret s | _ => raise (untyped k) end.
Definition as_int {S} (k : string) (v : pyval) : M S Z :=
  match v with PyInt n => mret n | _ => raise (untyped k) end.
Definition as_bool {S} (k : string) (v : pyval) : M S bool :=
  match v with PyBool b => mret b | _ => raise (untyped k) end.
Definition as_opt_str {S} (k : string) (v : pyval) : M S (option string) :=
  match v with
  | PyStr s => mret (Some s)
  | PyNone => mret None
  | _ => raise (untyped k)
  end.
Definition as_opt_int {S} (k : string) (v : pyval) : M S (option Z) :=
  match v with
  | PyInt n => mret (Some n)
  | PyNone => mret None
  | _ => raise (untyped k)
  end.

(** [datetime.datetime.fromisoformat(v) if v else None] *)
Definition parse_iso_or_none {S} (k : string) (v : pyval) : M S (option Z) :=
  if truthy v then
    match v with
    | PyStr s =>
        d ← expect (Exn "ValueError" s) (fromisoformat s); mret (Some d)
    | _ => raise (Exn "TypeError" k)
    end
  else mret None.

(** [Task.from_dict] *)
Definition from_dict {S} (data : pydict) (function : WorkUnit) : M S Task :=
  v_task_id ← getitem data "task_id";
  v_name ← getitem data "name";
  v_schedule_type ← getitem data "schedule_type";
  v_interval ← getitem data "interval";
  v_cron ← getitem data "cron";
  v_start ← getitem data "start_time";
  start_time ← parse_iso_or_none "start_time" v_start;
  v_end ← getitem data "end_time";
  end_time ← parse_iso_or_none "end_time" v_end;
  v_max_runs ← getitem data "max_runs";
  v_enabled ← getitem data "enabled";
  task_id ← as_str "task_id" v_task_id;
  name ← as_str "name" v_name;
  schedule_type ← as_str "schedule_type" v_schedule_type;
  interval ← as_int "interval" v_interval;
  cron ← as_opt_str "cron" v_cron;
  max_runs ← as_opt_int "max_runs" v_max_runs;
  enabled ← as_bool "enabled" v_enabled;
  let task := Task_init task_id name function schedule_type interval cron
                start_time end_time max_runs enabled in
  v_run_count ← getitem data "run_count";
  run_count ← as_int "run_count" v_run_count;
  let task := set_run_count run_count task in
  v_last ← getitem data "last_run";
  last_run ← parse_iso_or_none "last_run" v_last;
  let task := set_last_run last_run task in
  v_next ← getitem data "next_run";
  next_run ← parse_iso_or_none "next_run" v_next;
  let task := set_next_run next_run task in
  mret task.

(** *** Execution *)

Definition max_runs_reached (t : Task) : bool :=
  match max_runs t with Some m => m <=? run_count t | None => false end.
Definition end_time_passed (t : Task) (now : Z) : bool :=
  match end_time t with Some e => e <? now | None => false end.

(** [Task.run] *)
Definition run : TaskM pyval :=
  t ← self;
  if negb (enabled t) then
    logger "INFO" ("Task " ++ label t ++ " is disabled");;
    mret PyNone
  else if max_runs_reached t then
    logger "INFO" ("Task " ++ label t ++ " has reached its maximum number of runs");;
    update (set_enabled false);;
    mret PyNone
  else
    n ← datetime_now;
    if end_time_passed t n then
      logger "INFO" ("Task " ++ label t ++ " has reached its end time");;
      update (set_enabled false);;
      mret PyNone
    else
      logger "INFO" ("Running task " ++ label t);;
      try_except
        (result ← call_function;
         update (fun t => set_run_count (run_count t + 1) t);;
         n ← datetime_now;
         update (set_last_run (Some n));;
         t ← self;
         (if String.eqb (schedule_type t) "interval" then
            last ← expect (Exn "TypeError" "last_run") (last_run t);
            update (set_next_run (Some (last + timedelta_seconds (interval t))))
          else if String.eqb (schedule_type t) "cron" then
            mret tt
          else if String.eqb (schedule_type t) "once" then
            update (set_next_run None);;
            update (set_enabled false)
          else mret tt);;
         logger "INFO" ("Task " ++ label t ++ " completed successfully");;
         mret result)
        (fun e =>
           t ← self;
           logger "ERROR" ("Error running task " ++ label t ++ ": " ++ str_exn e);;
           mret PyNone).

(** *** Scheduling *)

Definition schedule_error : exn := Exn "ScheduleError" "".

(** [schedule.cancel_job(job)] *)
Definition cancel_job (h : nat) : TaskM unit :=
  fun s =>
    let w := snd s in
    (Returned tt,
     (fst s, set_jobs (filter (fun k => negb (Nat.eqb k h)) (jobs w)) (fresh w) w)).

(** A step of the job builder that may raise. *)
Definition building (j : option jobspec) : TaskM jobspec :=
  expect schedule_error j.

(** [job.do(task.run)]: the job joins the job list of the module. *)
Definition job_do (j : jobspec) : TaskM nat :=
  fun s =>
    let w := snd s in
    if job_do_ok j then
      (Returned (fresh w), (fst s, set_jobs (jobs w ++ [fresh w]) (S (fresh w)) w))
    else (Raised schedule_error, s).

(** A count of one, in the millionths that [every] counts in. *)
Definition one : Z := 1000000.

Definition days : list string :=
  ["monday"; "tuesday"; "wednesday"; "thursday"; "friday"; "saturday"; "sunday"].

(** [int(field) if field != "*" else now.field], as an argument of
    [replace]: [None] keeps the field of [now]. *)
Definition cron_field (field : string) : TaskM (option Z) :=
  if negb (String.eqb field "*") then
    n ← expect (Exn "ValueError" field) (py_int field); mret (Some n)
  else mret None.

Definition scheduled : TaskM bool :=
  t ← self;
  logger "INFO" ("Scheduled task " ++ label t);;
  mret true.

Definition schedule_interval : TaskM bool :=
  t ← self;
  j ← building (job_attr "seconds" (every (interval t * one)));
  h ← job_do j;
  update (set_job (Some h));;
  n ← datetime_now;
  update (set_next_run (Some (n + timedelta_seconds (interval t))));;
  scheduled.

Definition schedule_cron : TaskM bool :=
  t ← self;
  c ← expect (Exn "AttributeError" "split") (cron t);
  match split c with
  | [minute; hour; day; month; day_of_week] =>
      let hm := (zfill2 hour ++ ":" ++ zfill2 minute)%string in
      j ← (if negb (String.eqb minute "*") then
             building (job_at hm (every one))
           else
             h ← building (job_attr "hour" (every one));
             building (job_at (":" ++ zfill2 minute) h));
      j ← (if negb (String.eqb day "*") then
             d ← building (job_attr "day" j);
             building (job_at hm d)
           else mret j);
      (* month: not supported by the package, nothing is done *)
      j ← (if negb (String.eqb day_of_week "*") then
             i ← expect (Exn "ValueError" day_of_week) (py_int day_of_week);
             let day_index := i `mod` 7 in
             d ← expect (Exn "IndexError" "days") (days !! Z.to_nat day_index);
             wd ← building (job_attr d (every one));
             building (job_at hm wd)
           else mret j);
      h ← job_do j;
      update (set_job (Some h));;
      n ← datetime_now;
      mi ← cron_field minute;
      ho ← cron_field hour;
      da ← cron_field day;
      mo ← cron_field month;
      r ← expect (Exn "ValueError" "replace") (dt_replace n mi ho da mo);
      let next := if r <=? n then r + timedelta_days 1 else r in
      update (set_next_run (Some next));;
      scheduled
  | _ =>
      logger "ERROR" ("Invalid cron expression: " ++ c);;
      mret false
  end.

Definition schedule_once : TaskM bool :=
  t ← self;
  n ← datetime_now;
  if match start_time t with Some st => n <? st | None => false end then
    st ← expect (Exn "TypeError" "start_time") (start_time t);
    n ← datetime_now;
    let delay := st - n in
    j ← building (job_attr "seconds" (every delay));
    h ← job_do j;
    update (set_job (Some h));;
    update (set_next_run (Some st));;
    scheduled
  else
    run;;
    update (set_next_run None);;
    update (set_enabled false);;
    scheduled.

(** [TaskScheduler._schedule_task] *)
Definition _schedule_task : TaskM bool :=
  try_except
    (t ← self;
     match job t with
     | Some h => cancel_job h;; update (set_job None)
     | None => mret tt
     end;;
     t ← self;
     if negb (enabled t) then
       logger "INFO" ("Task " ++ label t ++ " is disabled, skipping scheduling");;
       mret true
     else if String.eqb (schedule_type t) "interval" then schedule_interval
     else if String.eqb (schedule_type t) "cron" then schedule_cron
     else if String.eqb (schedule_type t) "once" then schedule_once
     else scheduled)
    (fun e =>
       logger "ERROR" ("Error scheduling task: " ++ str_exn e);;
       mret false).

(** ** TaskScheduler *)

Record TaskScheduler := mkScheduler {
  tasks : gmap string Task;
  running : bool
}.

Definition set_tasks (m : gmap string Task) (s : TaskScheduler) : TaskScheduler :=
  mkScheduler m (running s).
Definition set_running (b : bool) (s : TaskScheduler) : TaskScheduler :=
  mkScheduler (tasks s) b.

(** Methods of the scheduler run on the scheduler object and the world. *)
Abbreviation SchedM := (M (TaskScheduler * world)).

Definition this : SchedM TaskScheduler := fun s => (Returned (fst s), s).
Definition the_world : SchedM world := fun s => (Returned (snd s), s).
Definition assign_tasks (f : gmap string Task -> gmap string Task) : SchedM unit :=
  fun s => (Returned tt, (set_tasks (f (tasks (fst s))) (fst s), snd s)).
Definition assign_running (b : bool) : SchedM unit :=
  fun s => (Returned tt, (set_running b (fst s), snd s)).
Definition slogger (lvl msg : string) : SchedM unit :=
  fun s => (Returned tt, (fst s, add_log lvl msg (snd s))).

(** A method of the task object [self.tasks[tid]], called from a method
    of the scheduler: the object in the registry is the one mutated. *)
Definition on_task {A} (tid : string) (m : TaskM A) : SchedM A :=
  fun s =>
    match tasks (fst s) !! tid with
    | Some t =>
        let '(r, (t', w')) := m (t, snd s) in
        (r, (set_tasks (<[tid := t']> (tasks (fst s))) (fst s), w'))
    | None => (Raised (Exn "KeyError" tid), s)
    end.

(** [for x in l: body x] *)
Fixpoint for_each {S A} (l : list A) (body : A -> M S unit) : M S unit :=
  match l with
  | [] => mret tt
  | x :: l' => body x;; for_each l' body
  end.

(** [open(config_file, mode)] *)
Definition open_config : SchedM unit :=
  w ← the_world;
  if disk_ok w then mret tt else raise (Exn "OSError" "tasks.json").

(** The body of the loop of [_load_tasks]. *)
Definition load_record (task_data : pydict) : SchedM unit :=
  key ← getitem task_data "task_id";
  s ← this;
  match key with
  | PyStr tid =>
      match tasks s !! tid with
      | None => mret tt    (* continue *)
      | Some _ =>
          v ← getitem task_data "enabled";
          b ← as_bool "enabled" v;
          on_task tid (update (set_enabled b));;
          v ← getitem task_data "run_count";
          n ← as_int "run_count" v;
          on_task tid (update (set_run_count n));;
          v ← getitem task_data "last_run";
          d ← parse_iso_or_none "last_run" v;
          on_task tid (update (set_last_run d));;
          v ← getitem task_data "next_run";
          d ← parse_iso_or_none "next_run" v;
          on_task tid (update (set_next_run d))
      end
  | _ => mret tt           (* no key of the registry is equal to it: continue *)
  end.

(** [TaskScheduler._load_tasks] *)
Definition _load_tasks : SchedM unit :=
  w ← the_world;
  match tasks_json w with
  | Some tasks_data =>
      try_except
        (open_config;;
         for_each tasks_data load_record;;
         slogger "INFO"
           ("Loaded " ++ pretty (length tasks_data) ++ " tasks from configuration"))
        (fun e => slogger "ERROR" ("Error loading tasks: " ++ str_exn e))
  | None => mret tt
  end.

(** [TaskScheduler._save_tasks] *)
Definition _save_tasks : SchedM unit :=
  try_except
    (s ← this;
     let tasks_data := to_dict <$> (snd <$> map_to_list (tasks s)) in
     open_config;;
     modify (fun s => (fst s, set_tasks_json (Some tasks_data) (snd s)));;
     slogger "INFO"
       ("Saved " ++ pretty (length tasks_data) ++ " tasks to configuration"))
    (fun e => slogger "ERROR" ("Error saving tasks: " ++ str_exn e)).

(** [TaskScheduler.__init__]: the state of the new scheduler, in a world. *)
Definition __init__ (w : world) : outcome unit * (TaskScheduler * world) :=
  (_load_tasks;; slogger "INFO" "Initialized task scheduler")
    (mkScheduler ∅ false, w).

(** [TaskScheduler.add_task] *)
Definition add_task (task : Task) : SchedM bool :=
  try_except
    (s ← this;
     if bool_decide (is_Some (tasks s !! task_id task)) then
       slogger "WARNING" ("Task " ++ task_id task ++ " already exists");;
       mret false
     else
       assign_tasks (insert (task_id task) task);;
       on_task (task_id task) _schedule_task;;
       _save_tasks;;
       slogger "INFO" ("Added task " ++ label task);;
       mret true)
    (fun e =>
       slogger "ERROR" ("Error adding task: " ++ str_exn e);;
       mret false).

(** [TaskScheduler.remove_task] *)
Definition remove_task (tid : string) : SchedM bool :=
  try_except
    (s ← this;
     match tasks s !! tid with
     | None =>
         slogger "WARNING" ("Task " ++ tid ++ " does not exist");;
         mret false
     | Some task =>
         match job task with
         | Some h => on_task tid (cancel_job h)
         | None => mret tt
         end;;
         assign_tasks (delete tid);;
         _save_tasks;;
         slogger "INFO" ("Removed task " ++ tid ++ " (" ++ name task ++ ")");;
         mret true
     end)
    (fun e =>
       slogger "ERROR" ("Error removing task: " ++ str_exn e);;
       mret false).

(** [TaskScheduler.get_task] *)
Definition get_task (s : TaskScheduler) (tid : string) : option Task :=
  tasks s !! tid.

(** [TaskScheduler.get_tasks] *)
Definition get_tasks (s : TaskScheduler) : list Task :=
  snd <$> map_to_list (tasks s).

(** [TaskScheduler.enable_task] *)
Definition enable_task (tid : string) : SchedM bool :=
  try_except
    (s ← this;
     match tasks s !! tid with
     | None =>
         slogger "WARNING" ("Task " ++ tid ++ " does not exist");;
         mret false
     | Some task =>
         on_task tid (update (set_enabled true));;
         on_task tid _schedule_task;;
         _save_tasks;;
         slogger "INFO" ("Enabled task " ++ tid ++ " (" ++ name task ++ ")");;
         mret true
     end)
    (fun e =>
       slogger "ERROR" ("Error enabling task: " ++ str_exn e);;
       mret false).

(** [TaskScheduler.disable_task] *)
Definition disable_task (tid : string) : SchedM bool :=
  try_except
    (s ← this;
     match tasks s !! tid with
     | None =>
         slogger "WARNING" ("Task " ++ tid ++ " does not exist");;
         mret false
     | Some task =>
         on_task tid (update (set_enabled false));;
         match job task with
         | Some h =>
             on_task tid (cancel_job h);;
             on_task tid (update (set_job None))
         | None => mret tt
         end;;
         _save_tasks;;
         slogger "INFO" ("Disabled task " ++ tid ++ " (" ++ name task ++ ")");;
         mret true
     end)
    (fun e =>
       slogger "ERROR" ("Error disabling task: " ++ str_exn e);;
       mret false).

(** [TaskScheduler.run_task] *)
Definition run_task (tid : string) : SchedM pyval :=
  try_except
    (s ← this;
     match tasks s !! tid with
     | None =>
         slogger "WARNING" ("Task " ++ tid ++ " does not exist");;
         mret PyNone
     | Some _ =>
         result ← on_task tid run;
         _save_tasks;;
         mret result
     end)
    (fun e =>
       slogger "ERROR" ("Error running task: " ++ str_exn e);;
       mret PyNone).

(** [self._schedule_task(task)], for the task under [tid]. *)
Definition schedule_registered (tid : string) : SchedM unit :=
  on_task tid _schedule_task;; mret tt.

(** [TaskScheduler.start].  The thread that it starts is the loop whose
    turns are [_run_scheduler_turn] below. *)
Definition start : SchedM unit :=
  s ← this;
  if running s then
    slogger "WARNING" "Scheduler is already running"
  else
    assign_running true;;
    for_each (fst <$> map_to_list (tasks s)) schedule_registered;;
    slogger "INFO" "Started scheduler".

(** [TaskScheduler.stop] *)
Definition stop : SchedM unit :=
  s ← this;
  if negb (running s) then
    slogger "WARNING" "Scheduler is not running"
  else
    assign_running false;;
    _save_tasks;;
    slogger "INFO" "Stopped scheduler".

(** [time.sleep(n)] *)
Definition sleep (n : Z) : SchedM unit :=
  fun s =>
    let w := snd s in
    (Returned tt,
     (fst s, mkWorld (now w + timedelta_seconds n) (calls w) (logs w) (jobs w)
               (fresh w) (tasks_json w) (disk_ok w))).

(** The job of task [tid], run by [schedule.run_pending()]: the package
    calls the job function, [task.run], of a job that is on its list (and
    that it finds due: when that is, is its own business). *)
Definition run_job (tid : string) : SchedM unit :=
  s ← this;
  w ← the_world;
  match tasks s !! tid with
  | Some task =>
      match job task with
      | Some h =>
          if bool_decide (h ∈ jobs w) then on_task tid run;; mret tt
          else mret tt
      | None => mret tt
      end
  | None => mret tt
  end.

(** One turn of [while self.running: ...] in
    [TaskScheduler._run_scheduler], where the jobs of the tasks [due] are
    the pending ones. *)
Definition _run_scheduler_turn (due : list string) : SchedM unit :=
  s ← this;
  if running s then
    try_except
      (for_each due run_job;;
       sleep 1)
      (fun e =>
         slogger "ERROR" ("Error in scheduler loop: " ++ str_exn e);;
         sleep 5)
  else mret tt.

(** *** The scheduler in use

    What happens to a scheduler: the calls of its public interface, and the
    turns of its background loop. *)
Inductive Op :=
| OpAdd (task : Task)
| OpRemove (tid : string)
| OpEnable (tid : string)
| OpDisable (tid : string)
| OpRunTask (tid : string)
| OpStart
| OpStop
| OpLoopTurn (due : list string).

Definition exec (op : Op) : SchedM unit :=
  match op with
  | OpAdd task => add_task task;; mret tt
  | OpRemove tid => remove_task tid;; mret tt
  | OpEnable tid => enable_task tid;; mret tt
  | OpDisable tid => disable_task tid;; mret tt
  | OpRunTask tid => run_task tid;; mret tt
  | OpStart => start
  | OpStop => stop
  | OpLoopTurn due => _run_scheduler_turn due
  end.

Definition exec_all (ops : list Op) : SchedM unit := for_each ops exec.

End Scheduler.

(** ** The callers of the scheduler *)

Abbreviation SchedM := (M (TaskScheduler * world)).

Section Callers.

Context {D : Datetime} {L : ScheduleLib}.

(** [BrowserAgent.schedule_task] of [src/level3/agent.py]: the closure
    [execute_actions] over the actions is the work-unit of a task that is
    built enabled and handed to [add_task]. *)
Definition schedule_task (task_id name : string) (execute_actions : WorkUnit)
    (schedule_type : string) (interval : Z) (cron : option string)
    (start_time end_time : option Z) (max_runs : option Z) : SchedM bool :=
  let task := Task_init task_id name execute_actions schedule_type interval
                cron start_time end_time max_runs true in
  add_task task.

(** [BrowserAgent.get_scheduled_tasks] *)
Definition get_scheduled_tasks (s : TaskScheduler) : list pydict :=
  to_dict <$> get_tasks s.

(** [HTTPException(status_code, detail)]; its [str] is the code, a colon
    and the detail. *)
Definition http_exception (status_code : nat) (detail : string) : exn :=
  Exn "HTTPException" (pretty status_code ++ ": " ++ detail).

Definition is_http_exception (e : exn) : bool :=
  let 'Exn cls _ := e in String.eqb cls "HTTPException".

(** [delete_task] of [src/api/level3_api.py], on the scheduler of the
    agent. *)
Definition delete_task (task_id : string) : SchedM pydict :=
  try_except
    (slogger "INFO" ("Received request to delete task " ++ task_id);;
     success ← remove_task task_id;
     if negb success then
       raise (http_exception 404 ("Task " ++ task_id ++ " not found"))
     else
       mret (list_to_map [("task_id", PyStr task_id); ("success", PyBool true)]))
    (fun e =>
       if is_http_exception e then raise e
       else
         slogger "ERROR" ("Error deleting task: " ++ str_exn e);;
         raise (http_exception 500 (str_exn e))).

End Callers.

(** ** Reference implementations of the interfaces

    They make the examples below run.  A datetime is written as a signed
    binary numeral; only the time of day can be replaced.  The job builder
    accepts every job. *)

Fixpoint stamp_bits (p : positive) : string :=
  match p with
  | xH => EmptyString
  | xO q => String "0" (stamp_bits q)
  | xI q => String "1" (stamp_bits q)
  end.

Fixpoint stamp_of_bits (s : string) : positive :=
  match s with
  | EmptyString => xH
  | String c s' =>
      if Ascii.eqb c "1" then xI (stamp_of_bits s') else xO (stamp_of_bits s')
  end.

Definition stamp_isoformat (d : Z) : string :=
  match d with
  | Z0 => "="
  | Zpos p => String "+" (stamp_bits p)
  | Zneg p => String "-" (stamp_bits p)
  end.

Definition stamp_fromisoformat (s : string) : option Z :=
  match s with
  | EmptyString => None
  | String c s' =>
      if Ascii.eqb c "=" then (if String.eqb s' "" then Some Z0 else None)
      else if Ascii.eqb c "+" then Some (Zpos (stamp_of_bits s'))
      else if Ascii.eqb c "-" then Some (Zneg (stamp_of_bits s'))
      else None
  end.

(** [d.replace(minute=.., hour=..)] on the time line, for [0 <= d]. *)
Definition stamp_replace (d : Z) (minute hour day month : option Z) : option Z :=
  match day, month with
  | None, None =>
      let us_minute := 60000000 in
      let us_hour := 3600000000 in
      let h := (d `div` us_hour) `mod` 24 in
      let m := (d `div` us_minute) `mod` 60 in
      let h' := default h hour in
      let m' := default m minute in
      if (0 <=? h') && (h' <? 24) && (0 <=? m') && (m' <? 60) then
        Some (d + (h' - h) * us_hour + (m' - m) * us_minute)
      else None
  | _, _ => None
  end.

Definition stamp_datetime : Datetime :=
  {| isoformat := stamp_isoformat;
     fromisoformat := stamp_fromisoformat;
     dt_replace := stamp_replace |}.

Definition lenient_schedule : ScheduleLib :=
  {| jobspec := unit;
     every := fun _ => tt;
     job_attr := fun _ j => Some j;
     job_at := fun _ j => Some j;
     job_do_ok := fun _ => true |}.

(** A world at a quarter past midnight, with nothing on record. *)
Definition quiet_world : world :=
  mkWorld 900000000 [] [] [] 0 None true.

(** A work-unit that returns 42 after five seconds, and one that raises. *)
Definition answer : WorkUnit :=
  fun now _ => (Returned (PyInt 42), now + 5000000).
Definition failing : WorkUnit :=
  fun now _ => (Raised (Exn "RuntimeError" "boom"), now + 5000000).

(** The scheduler under the reference implementations. *)
Definition empty_scheduler : TaskScheduler := mkScheduler ∅ false.

Definition ref_add_task (task : Task) :=
  add_task (D := stamp_datetime) (L := lenient_schedule) task.
Definition ref_run_task (tid : string) :=
  run_task (D := stamp_datetime) tid.
Definition ref_disable_task (tid : string) :=
  disable_task (D := stamp_datetime) tid.
Definition ref_exec_all (ops : list Op) :=
  exec_all (D := stamp_datetime) (L := lenient_schedule) ops.

(** An interval task of sixty seconds, and the scheduler that has it. *)
Definition every_minute (f : WorkUnit) (enabled : bool) : Task :=
  Task_init "t1" "demo" f "interval" 60 None None None None enabled.

Definition holding (t : Task) : TaskScheduler :=
  mkScheduler {[ task_id t := t ]} false.

(** A task with a cap of one run. *)
Definition once_capped : Task :=
  Task_init "t1" "demo" answer "interval" 60 None None None (Some 1) true.

(** A cron task for 09:00 on the first of the month and on Tuesdays. *)
Definition cron_both : Task :=
  Task_init "t1" "demo" answer "cron" 60 (Some "0 9 1 * 1") None None None true.

(** The same task after its one run. *)
Definition worn_out : Task :=
  mkTask "t1" "demo" answer "interval" 60 None None None (Some 1) true 1
    (Some 100000000) (Some 160000000) None.

(** The scheduler and the world after [add_task] in the quiet world. *)
Definition registered (t : Task) : TaskScheduler * world :=
  (ref_add_task t (empty_scheduler, quiet_world)).2.

(** The same after [start] as well. *)
Definition started (t : Task) : TaskScheduler * world :=
  (ref_exec_all [OpAdd t; OpStart] (empty_scheduler, quiet_world)).2.

(** A task as a former process left it, and the world with its record in
    [tasks.json]. *)
Definition veteran : Task :=
  mkTask "t1" "demo" answer "interval" 60 None None None None true 3
    (Some 100000000) (Some 160000000) None.
Definition world_with_file : world :=
  mkWorld 900000000 [] [] [] 0
    (Some [to_dict (D := stamp_datetime) veteran]) true.

(** More operations under the reference implementations, and more tasks
    and worlds. *)
Definition ref_remove_task (tid : string) :=
  remove_task (D := stamp_datetime) tid.
Definition ref_enable_task (tid : string) :=
  enable_task (D := stamp_datetime) (L := lenient_schedule) tid.
Definition ref_schedule_task (t : Task) (w : world) :=
  _schedule_task (D := stamp_datetime) (L := lenient_schedule) (t, w).

(** The quiet world with a file that cannot be opened. *)
Definition broken_disk : world :=
  mkWorld 900000000 [] [] [] 0 None false.

(** A world at ten o'clock. *)
Definition ten_oclock : world :=
  mkWorld 36000000000 [] [] [] 0 None true.

(** An interval task that ends at a quarter past midnight. *)
Definition until_quarter_past : Task :=
  Task_init "t1" "demo" answer "interval" 60 None None (Some 900000000) None true.

(** One-shot tasks: for midnight, for one o'clock. *)
Definition one_shot (f : WorkUnit) (start_time : option Z) : Task :=
  Task_init "t1" "demo" f "once" 60 None start_time None None true.

(** A cron task for 09:00 every day, and one with a field missing. *)
Definition cron_daily : Task :=
  Task_init "t1" "demo" answer "cron" 60 (Some "0 9 * * *") None None None true.
Definition cron_short : Task :=
  Task_init "t1" "demo" answer "cron" 60 (Some "0 9 * *") None None None true.

(** A second task, disabled. *)
Definition sleeper : Task :=
  Task_init "t2" "sleeper" answer "interval" 60 None None None None false.

(** ** Vocabulary of the properties *)

Section Vocabulary.

Context {D : Datetime} {L : ScheduleLib}.

(** The task is enabled, below its cap of runs and before its end time. *)
Definition within_limits (t : Task) (w : world) : bool :=
  enabled t && negb (max_runs_reached t) && negb (end_time_passed t (now w)).

(** The task after a firing whose work-unit returned when the clock read
    [finish]. *)
Definition fired (t : Task) (finish : Z) : Task :=
  let t1 := set_last_run (Some finish) (set_run_count (run_count t + 1) t) in
  if String.eqb (schedule_type t) "interval" then
    set_next_run (Some (finish + timedelta_seconds (interval t))) t1
  else if String.eqb (schedule_type t) "cron" then t1
  else if String.eqb (schedule_type t) "once" then
    set_enabled false (set_next_run None t1)
  else t1.

(** The four ways a firing can go. *)
Inductive run_case (t : Task) (w : world) :
    outcome pyval * (Task * world) -> Prop :=
| RunDisabled :
    enabled t = false ->
    run_case t w
      (Returned PyNone, (t, add_log "INFO" ("Task " ++ label t ++ " is disabled") w))
| RunLimit msg :
    enabled t = true ->
    max_runs_reached t || end_time_passed t (now w) = true ->
    run_case t w (Returned PyNone, (set_enabled false t, add_log "INFO" msg w))
| RunError e finish :
    within_limits t w = true ->
    function t (now w) (calls w) = (Raised e, finish) ->
    run_case t w
      (Returned PyNone,
       (t,
        add_log "ERROR" ("Error running task " ++ label t ++ ": " ++ str_exn e)
          (after_call (task_id t) finish
             (add_log "INFO" ("Running task " ++ label t) w))))
| RunDone v finish :
    within_limits t w = true ->
    function t (now w) (calls w) = (Returned v, finish) ->
    run_case t w
      (Returned v,
       (fired t finish,
        add_log "INFO" ("Task " ++ label t ++ " completed successfully")
          (after_call (task_id t) finish
             (add_log "INFO" ("Running task " ++ label t) w)))).

(** The world after [_save_tasks]. *)
Definition saved (s : TaskScheduler) (w : world) : world :=
  if disk_ok w then
    add_log "INFO"
      ("Saved " ++ pretty (length (map_to_list (tasks s))) ++ " tasks to configuration")
      (set_tasks_json (Some (to_dict <$> (snd <$> map_to_list (tasks s)))) w)
  else add_log "ERROR" "Error saving tasks: tasks.json" w.

(** The scheduler after a method has left the object [t] under [tid]. *)
Definition with_task (tid : string) (t : Task) (s : TaskScheduler) : TaskScheduler :=
  set_tasks (<[tid := t]> (tasks s)) s.

(** The fields that no method assigns after the construction. *)
Definition same_config (t t' : Task) : Prop :=
  task_id t' = task_id t /\ name t' = name t /\ function t' = function t /\
  schedule_type t' = schedule_type t /\ interval t' = interval t /\
  cron t' = cron t /\ start_time t' = start_time t /\
  end_time t' = end_time t /\ max_runs t' = max_runs t.

(** The number of runs is within the cap, when there is one. *)
Definition cap_respected (t : Task) : Prop :=
  forall m, max_runs t = Some m -> run_count t <= m.

(** What every method of a task guarantees of the state it leaves: the
    configuration is the same, the cap stays respected, a task that has
    used up its runs is not run (no invocation joins the record and
    [run_count] stays), and the invocations that join the record are those
    of this task. *)
Definition task_step (st st' : Task * world) : Prop :=
  same_config st.1 st'.1 /\
  (cap_respected st.1 -> cap_respected st'.1) /\
  (max_runs_reached st.1 = true ->
   calls st'.2 = calls st.2 /\ run_count st'.1 = run_count st.1) /\
  (exists n, calls st'.2 = (calls st.2 ++ replicate n (task_id st.1))%list).

(** Every run of the method [m] is a [task_step]. *)
Definition keeps {A} (m : TaskM A) : Prop :=
  forall st r st', m st = (r, st') -> task_step st st'.

(** The task that [from_dict] builds from the record of [t] and a
    work-unit: the fields of [t], the work-unit, and no job. *)
Definition reloaded (t : Task) (function : WorkUnit) : Task :=
  mkTask (task_id t) (name t) function (schedule_type t) (interval t) (cron t)
    (start_time t) (end_time t) (max_runs t) (enabled t) (run_count t)
    (last_run t) (next_run t) None.

(** The registered task [t] after [_load_tasks] has read the record of
    [t0]: the run-state of [t0] on the task [t]. *)
Definition restored (t0 t : Task) : Task :=
  set_next_run (next_run t0)
    (set_last_run (last_run t0)
       (set_run_count (run_count t0) (set_enabled (enabled t0) t))).

(** The scheduler after the records of the tasks [saved] have been read,
    in their order. *)
Definition load_all (saved : list Task) (s : TaskScheduler) : TaskScheduler :=
  foldl
    (fun s t0 =>
       match tasks s !! task_id t0 with
       | Some t => with_task (task_id t0) (restored t0 t) s
       | None => s
       end)
    s saved.

(** Every task of the registry is stored under its own id. *)
Definition keys_ok (s : TaskScheduler) : Prop :=
  forall k t, tasks s !! k = Some t -> task_id t = k.

(** Every task of the registry respects its cap. *)
Definition caps_ok (s : TaskScheduler) : Prop :=
  forall k t, tasks s !! k = Some t -> cap_respected t.

(** The steps that the operations are made of: a method of a registered
    task, a change of the world that leaves the record of invocations
    alone, the entry of a task into the registry, the removal of one, the
    scheduler going on or off.
    [addable] and [removable] say which tasks enter and which ids leave. *)
Inductive sched_step (addable : Task -> Prop) (removable : string -> Prop) :
    TaskScheduler * world -> TaskScheduler * world -> Prop :=
| StepRefl st : sched_step addable removable st st
| StepTrans st1 st2 st3 :
    sched_step addable removable st1 st2 ->
    sched_step addable removable st2 st3 ->
    sched_step addable removable st1 st3
| StepTask s w k t t' w' :
    tasks s !! k = Some t ->
    task_step (t, w) (t', w') ->
    sched_step addable removable (s, w) (with_task k t' s, w')
| StepWorld s w w' :
    calls w' = calls w ->
    sched_step addable removable (s, w) (s, w')
| StepInsert s w task :
    tasks s !! task_id task = None ->
    addable task ->
    sched_step addable removable (s, w) (with_task (task_id task) task s, w)
| StepDelete s w k :
    removable k ->
    sched_step addable removable (s, w) (set_tasks (delete k (tasks s)) s, w)
| StepRunning s w b :
    sched_step addable removable (s, w) (set_running b s, w).

Definition op_ok (addable : Task -> Prop) (removable : string -> Prop)
    (op : Op) : Prop :=
  match op with
  | OpAdd task => addable task
  | OpRemove tid => removable tid
  | _ => True
  end.

(** A property of the scheduler and the world that every step keeps. *)
Record stable (addable : Task -> Prop) (removable : string -> Prop)
    (P : TaskScheduler * world -> Prop) : Prop := {
  stable_task : forall s w k t t' w',
    P (s, w) -> tasks s !! k = Some t -> task_step (t, w) (t', w') ->
    P (with_task k t' s, w');
  stable_world : forall s w w',
    P (s, w) -> calls w' = calls w -> P (s, w');
  stable_insert : forall s w task,
    P (s, w) -> tasks s !! task_id task = None -> addable task ->
    P (with_task (task_id task) task s, w);
  stable_delete : forall s w k,
    P (s, w) -> removable k -> P (set_tasks (delete k (tasks s)) s, w);
  stable_running : forall s w b,
    P (s, w) -> P (set_running b s, w)
}.

(** The registry is well-formed: keys and caps. *)
Definition registry_ok (st : TaskScheduler * world) : Prop :=
  keys_ok st.1 /\ caps_ok st.1.

(** The number of invocations of the work-unit of task [tid] on record. *)
Definition invocations (tid : string) (w : world) : nat :=
  count_occ String.string_dec (calls w) tid.

(** The task under [tid] has used up its runs: [rc] of them, [c]
    invocations on record. *)
Definition spent (tid : string) (rc : Z) (c : nat)
    (st : TaskScheduler * world) : Prop :=
  keys_ok st.1 /\ invocations tid st.2 = c /\
  exists t, tasks st.1 !! tid = Some t /\ max_runs_reached t = true /\
            run_count t = rc.

End Vocabulary.

(** ** More vocabulary *)

Section MoreVocabulary.

Context {D : Datetime} {L : ScheduleLib}.

(** The file [tasks.json] is the same, and as easy to open. *)
Definition same_disk (w w' : world) : Prop :=
  disk_ok w' = disk_ok w /\ tasks_json w' = tasks_json w.

(** The method [m] of a task takes every world to one that [R] relates to
    it. *)
Definition moves {A} (R : world -> world -> Prop) (m : TaskM A) : Prop :=
  forall t w r t' w', m (t, w) = (r, (t', w')) -> R w w'.

(** [tasks.json] holds the records of the tasks of the registry. *)
Definition file_current (st : TaskScheduler * world) : Prop :=
  tasks_json st.2 = Some (to_dict <$> get_tasks st.1).

(** The [next_run] that [_schedule_task] computes for a cron task from the
    first four fields of its expression, when the clock reads [n]. *)
Definition cron_next_run (n : Z) (minute hour day month : string) : option Z :=
  let field f := if negb (String.eqb f "*") then Some <$> py_int f else Some None in
  mi ← field minute;
  ho ← field hour;
  da ← field day;
  mo ← field month;
  r ← dt_replace n mi ho da mo;
  Some (if r <=? n then r + timedelta_days 1 else r).

(** The scheduler after the task under [tid] has been removed. *)
Definition without_task (tid : string) (s : TaskScheduler) : TaskScheduler :=
  set_tasks (delete tid (tasks s)) s.

(** The world after [schedule.cancel_job] on the job of the task. *)
Definition cancelled (t : Task) (w : world) : world :=
  match job t with
  | Some h => set_jobs (filter (fun k => negb (Nat.eqb k h)) (jobs w)) (fresh w) w
  | None => w
  end.

(** The same ids are registered, each with the same configuration, and
    the scheduler is on or off as before. *)
Definition same_tasks (s s' : TaskScheduler) : Prop :=
  running s' = running s /\
  forall k,
    match tasks s !! k, tasks s' !! k with
    | Some t, Some t' => same_config t t'
    | None, None => True
    | _, _ => False
    end.

(** The method [m] of the scheduler leaves the world alone and the
    registry with the same tasks. *)
Definition tidy {A} (m : SchedM A) : Prop :=
  forall s w r s' w', m (s, w) = (r, (s', w')) -> same_tasks s s' /\ w' = w.

(** The method [m] of a task keeps the configuration, puts on record
    only invocations of the task, and does not wake a disabled task: it
    stays disabled and no invocation goes on record. *)
Definition quiet {A} (m : TaskM A) : Prop :=
  forall t w r t' w',
    m (t, w) = (r, (t', w')) ->
    same_config t t' /\
    (exists n, calls w' = (calls w ++ replicate n (task_id t))%list) /\
    (enabled t = false -> enabled t' = false /\ calls w' = calls w).

(** The task under [tid] is disabled, with [c] invocations on record. *)
Definition idle (tid : string) (c : nat) (st : TaskScheduler * world) : Prop :=
  keys_ok st.1 /\ invocations tid st.2 = c /\
  exists t, tasks st.1 !! tid = Some t /\ enabled t = false.

(** The operations that do not enable or remove the task under [tid]. *)
Definition lets_sleep (tid : string) (op : Op) : Prop :=
  match op with
  | OpEnable k | OpRemove k => k <> tid
  | _ => True
  end.

End MoreVocabulary.

(** Unfolds the operations of the monad in the goal. *)
Ltac monad_unfold :=
  cbv beta iota zeta delta
    [mbind M_bind mret M_ret raise expect modify try_except
     self update datetime_now logger this the_world assign_tasks
     assign_running slogger open_config fst snd].

(** The same for a method of the scheduler: the methods of the task that
    it calls through [on_task] stay folded. *)
Ltac sched_unfold :=
  cbv beta iota zeta delta
    [mbind M_bind mret M_ret raise expect try_except this the_world
     assign_tasks assign_running slogger fst snd].

(** ** The string functions on examples *)

Example split_cron : split "0 9  * * 1 " = ["0"; "9"; "*"; "*"; "1"].
Proof. reflexivity. Qed.

Example split_four_fields : length (split "0 9 * *") = 4%nat.
Proof. reflexivity. Qed.

Example zfill2_samples :
  (zfill2 "9", zfill2 "10", zfill2 "*", zfill2 "-", zfill2 "") =
  ("09", "10", "0*", "-0", "00").
Proof. reflexivity. Qed.

Example py_int_samples :
  (py_int "09", py_int "-12", py_int "1_0", py_int "1__0", py_int "*") =
  (Some 9, Some (-12), Some 10, None, None).
Proof. reflexivity. Qed.

(** ** Properties *)

Section Properties.

Context {D : Datetime} {L : ScheduleLib}.

Lemma run_disabled (t : Task) (w : world) :
  enabled t = false ->
  run (t, w) =
    (Returned PyNone, (t, add_log "INFO" ("Task " ++ label t ++ " is disabled") w)).
Proof.
  intros H. unfold run, mbind, M_bind, self. simpl. rewrite H. reflexivity.
Qed.

Lemma run_max_runs_reached (t : Task) (w : world) :
  enabled t = true -> max_runs_reached t = true ->
  run (t, w) =
    (Returned PyNone,
     (set_enabled false t,
      add_log "INFO"
        ("Task " ++ label t ++ " has reached its maximum number of runs") w)).
Proof.
  intros H1 H2. unfold run, mbind, M_bind, self. simpl. rewrite H1, H2. reflexivity.
Qed.

Lemma run_end_time_passed (t : Task) (w : world) :
  enabled t = true -> max_runs_reached t = false ->
  end_time_passed t (now w) = true ->
  run (t, w) =
    (Returned PyNone,
     (set_enabled false t,
      add_log "INFO" ("Task " ++ label t ++ " has reached its end time") w)).
Proof.
  intros H1 H2 H3. unfold run, mbind, M_bind, self. simpl.
  rewrite H1, H2. simpl. rewrite H3. reflexivity.
Qed.

Lemma run_raises (t : Task) (w : world) (e : exn) (finish : Z) :
  within_limits t w = true ->
  function t (now w) (calls w) = (Raised e, finish) ->
  run (t, w) =
    (Returned PyNone,
     (t,
      add_log "ERROR" ("Error running task " ++ label t ++ ": " ++ str_exn e)
        (after_call (task_id t) finish
           (add_log "INFO" ("Running task " ++ label t) w)))).
Proof.
  unfold within_limits. intros H Hf.
  apply andb_prop in H as [H H3]. apply andb_prop in H as [H1 H2].
  apply negb_true_iff in H2, H3.
  unfold run, mbind, M_bind, self. simpl.
  rewrite H1, H2. simpl. rewrite H3. simpl.
  unfold try_except, call_function. simpl. rewrite Hf. reflexivity.
Qed.

Lemma run_returns (t : Task) (w : world) (v : pyval) (finish : Z) :
  within_limits t w = true ->
  function t (now w) (calls w) = (Returned v, finish) ->
  run (t, w) =
    (Returned v,
     (fired t finish,
      add_log "INFO" ("Task " ++ label t ++ " completed successfully")
        (after_call (task_id t) finish
           (add_log "INFO" ("Running task " ++ label t) w)))).
Proof.
  unfold within_limits. intros H Hf.
  apply andb_prop in H as [H H3]. apply andb_prop in H as [H1 H2].
  apply negb_true_iff in H2, H3.
  unfold run, mbind, M_bind, self. simpl.
  rewrite H1, H2. simpl. rewrite H3. simpl.
  unfold try_except, call_function, fired. simpl. rewrite Hf. simpl.
  destruct (String.eqb (schedule_type t) "interval"); [reflexivity|].
  destruct (String.eqb (schedule_type t) "cron"); [reflexivity|].
  destruct (String.eqb (schedule_type t) "once"); reflexivity.
Qed.

Lemma run_cases (t : Task) (w : world) : run_case t w (run (t, w)).
Proof.
  destruct (enabled t) eqn:He.
  2: { rewrite run_disabled by assumption. now constructor. }
  destruct (max_runs_reached t) eqn:Hm.
  { rewrite run_max_runs_reached by assumption.
    apply RunLimit; [assumption|]. now rewrite Hm. }
  destruct (end_time_passed t (now w)) eqn:Hp.
  { rewrite run_end_time_passed by assumption.
    apply RunLimit; [assumption|]. rewrite Hp. apply orb_true_r. }
  assert (Hl : within_limits t w = true)
    by (unfold within_limits; now rewrite He, Hm, Hp).
  destruct (function t (now w) (calls w)) as [[v|e] finish] eqn:Hf.
  - rewrite (run_returns _ _ _ _ Hl Hf). now apply RunDone.
  - rewrite (run_raises _ _ _ _ Hl Hf). now apply RunError.
Qed.

(** A firing never raises: what the work-unit raises stops in [run]. *)
Lemma run_never_raises (t : Task) (w : world) :
  exists v s', run (t, w) = (Returned v, s').
Proof.
  destruct (run_cases t w); eauto.
Qed.

(** *** The scheduler's plumbing *)

Lemma _save_tasks_eq (s : TaskScheduler) (w : world) :
  _save_tasks (s, w) = (Returned tt, (s, saved s w)).
Proof.
  unfold _save_tasks, saved. monad_unfold.
  destruct (disk_ok w); [|reflexivity].
  now rewrite !length_fmap.
Qed.

Lemma on_task_eq {A} (tid : string) (m : TaskM A) s w t r t' w' :
  tasks s !! tid = Some t ->
  m (t, w) = (r, (t', w')) ->
  on_task tid m (s, w) = (r, (with_task tid t' s, w')).
Proof.
  intros Ht Hm. unfold on_task. simpl. rewrite Ht, Hm. reflexivity.
Qed.

Lemma calls_saved s w : calls (saved s w) = calls w.
Proof. unfold saved. now destruct (disk_ok w). Qed.

Lemma jobs_saved s w : jobs (saved s w) = jobs w.
Proof. unfold saved. now destruct (disk_ok w). Qed.

(** [run_task] on a registered task is the firing, then the save. *)
Lemma run_task_registered (tid : string) s w t v t' w' :
  tasks s !! tid = Some t ->
  run (t, w) = (Returned v, (t', w')) ->
  run_task tid (s, w) =
    (Returned v, (with_task tid t' s, saved (with_task tid t' s) w')).
Proof.
  intros Ht Hr.
  unfold run_task, try_except, mbind, M_bind, this. simpl. rewrite Ht.
  rewrite (on_task_eq tid run s w t _ t' w' Ht Hr).
  rewrite _save_tasks_eq. reflexivity.
Qed.

Lemma run_task_unknown (tid : string) s w :
  tasks s !! tid = None ->
  run_task tid (s, w) =
    (Returned PyNone, (s, add_log "WARNING" ("Task " ++ tid ++ " does not exist") w)).
Proof.
  intros Ht. unfold run_task, try_except, mbind, M_bind, this. simpl.
  rewrite Ht. reflexivity.
Qed.

Lemma logs_saved s w x : In x (logs w) -> In x (logs (saved s w)).
Proof.
  unfold saved. destruct (disk_ok w); simpl; intros H; apply in_or_app; now left.
Qed.

(** *** Execution errors *)

(** C10. When the work-unit of an enabled task within its limits raises,
    [Task.run] returns [None] and the task is left as it was: [run_count],
    [last_run], [next_run] and [enabled] are unchanged. *)
Theorem run_error_keeps_state (t : Task) (w : world) (e : exn) (finish : Z) :
  within_limits t w = true ->
  function t (now w) (calls w) = (Raised e, finish) ->
  (run (t, w)).1 = Returned PyNone /\
  run_count (run (t, w)).2.1 = run_count t /\
  last_run (run (t, w)).2.1 = last_run t /\
  next_run (run (t, w)).2.1 = next_run t /\
  enabled (run (t, w)).2.1 = enabled t /\
  (run (t, w)).2.1 = t.
Proof.
  intros Hl Hf. rewrite (run_raises t w e finish Hl Hf). simpl. tauto.
Qed.

(** C2, as the code has it.  An exception of the work-unit stops in
    [Task.run], which logs it and returns [None], whoever fired the task:
    the turn of the background loop that runs the job goes on and returns,
    and [run_task] returns [None] to its caller.  [run_task] never
    raises. *)
Theorem work_unit_error_is_caught (tid : string) s w (t : Task) e finish h :
  tasks s !! tid = Some t ->
  running s = true ->
  job t = Some h -> h ∈ jobs w ->
  within_limits t w = true ->
  function t (now w) (calls w) = (Raised e, finish) ->
  let record := ("ERROR", "Error running task " ++ label t ++ ": " ++ str_exn e) in
  ((_run_scheduler_turn [tid] (s, w)).1 = Returned tt /\
   In record (logs (_run_scheduler_turn [tid] (s, w)).2.2)) /\
  ((run_task tid (s, w)).1 = Returned PyNone /\
   In record (logs (run_task tid (s, w)).2.2)) /\
  (forall tid' s' w' e', (run_task tid' (s', w')).1 <> Raised e').
Proof.
  intros Ht Hrun Hj Hh Hl Hf record.
  pose proof (run_raises t w e finish Hl Hf) as Hr.
  split; [|split].
  - unfold _run_scheduler_turn, for_each, run_job. monad_unfold.
    rewrite Hrun, Ht, Hj.
    rewrite bool_decide_eq_true_2 by assumption.
    rewrite (on_task_eq tid run s w t _ _ _ Ht Hr). simpl.
    split; [reflexivity|]. apply in_or_app. right. now left.
  - rewrite (run_task_registered tid s w t _ _ _ Ht Hr). simpl.
    split; [reflexivity|]. apply logs_saved. simpl.
    apply in_or_app. right. now left.
  - intros tid' s' w' e'.
    destruct (tasks s' !! tid') as [t'|] eqn:Ht'.
    + destruct (run_never_raises t' w') as (v & [t'' w''] & Hr').
      now rewrite (run_task_registered tid' s' w' t' _ _ _ Ht' Hr').
    + now rewrite (run_task_unknown tid' s' w' Ht').
Qed.

(** *** Manual execution *)

Lemma limit_not_within (t : Task) (w : world) :
  max_runs_reached t || end_time_passed t (now w) = true ->
  within_limits t w = false.
Proof.
  unfold within_limits.
  destruct (enabled t), (max_runs_reached t), (end_time_passed t (now w));
    simpl; congruence.
Qed.

(** What a firing does to the record of invocations. *)
Lemma run_calls (t : Task) (w : world) :
  calls (run (t, w)).2.2 =
    if within_limits t w then (calls w ++ [task_id t])%list else calls w.
Proof.
  destruct (run_cases t w) as [He|msg He Hlim|e finish Hl Hf|v finish Hl Hf]; simpl.
  - unfold within_limits. now rewrite He.
  - now rewrite (limit_not_within t w Hlim).
  - now rewrite Hl.
  - now rewrite Hl.
Qed.

(** C1, as the code has it.  [run_task] goes through [Task.run], which
    looks at the [enabled] flag first: the work-unit of a registered task is
    invoked exactly when the task is enabled and within its limits of
    [max_runs] and [end_time].  On a disabled task [run_task] returns [None]
    and leaves the registry as it was. *)
Theorem run_task_fires_within_limits (tid : string) s w (t : Task) :
  tasks s !! tid = Some t ->
  calls (run_task tid (s, w)).2.2 =
    (if within_limits t w then (calls w ++ [task_id t])%list else calls w) /\
  (enabled t = false ->
   (run_task tid (s, w)).1 = Returned PyNone /\
   calls (run_task tid (s, w)).2.2 = calls w /\
   tasks (run_task tid (s, w)).2.1 = tasks s).
Proof.
  intros Ht. split.
  - rewrite <- run_calls.
    destruct (run_never_raises t w) as (v & [t' w'] & Hr).
    rewrite (run_task_registered tid s w t _ _ _ Ht Hr), Hr. simpl.
    apply calls_saved.
  - intros He.
    rewrite (run_task_registered tid s w t _ _ _ Ht (run_disabled t w He)).
    simpl. rewrite calls_saved. simpl.
    repeat split. now apply insert_id.
Qed.

(** *** Registration *)

(** C4. [add_task] with a task whose id is already in the registry returns
    false; the scheduler is left as it was, so the registered task keeps
    every field and [get_tasks()] keeps its length. *)
Theorem add_task_duplicate (task : Task) s w :
  is_Some (tasks s !! task_id task) ->
  (add_task task (s, w)).1 = Returned false /\
  (add_task task (s, w)).2.1 = s /\
  get_task (add_task task (s, w)).2.1 (task_id task) = get_task s (task_id task) /\
  length (get_tasks (add_task task (s, w)).2.1) = length (get_tasks s).
Proof.
  intros Hin. unfold add_task. monad_unfold.
  rewrite bool_decide_eq_true_2 by assumption. simpl. tauto.
Qed.

(** *** Disabling *)

Lemma lookup_with_task (tid : string) (t : Task) s :
  tasks (with_task tid t s) !! tid = Some t.
Proof. unfold with_task. simpl. apply lookup_insert_eq. Qed.

Lemma with_task_twice (tid : string) (t1 t2 : Task) s :
  with_task tid t2 (with_task tid t1 s) = with_task tid t2 s.
Proof. unfold with_task, set_tasks. simpl. now rewrite insert_insert_eq. Qed.

Lemma update_on_task (tid : string) (f : Task -> Task) s w t :
  tasks s !! tid = Some t ->
  on_task tid (update f) (s, w) = (Returned tt, (with_task tid (f t) s, w)).
Proof. intros Ht. now apply on_task_eq with (t := t). Qed.

Lemma cancel_on_task (tid : string) (h : nat) s w t :
  tasks s !! tid = Some t ->
  on_task tid (cancel_job h) (s, w) =
    (Returned tt,
     (with_task tid t s,
      set_jobs (filter (fun k => negb (Nat.eqb k h)) (jobs w)) (fresh w) w)).
Proof. intros Ht. now apply on_task_eq with (t := t). Qed.

(** The task that [disable_task] leaves in the registry. *)
Lemma disable_task_registered (tid : string) s w (t : Task) :
  tasks s !! tid = Some t ->
  exists w',
    disable_task tid (s, w) =
      (Returned true, (with_task tid (set_job None (set_enabled false t)) s, w')) /\
    jobs w' =
      match job t with
      | Some h => filter (fun k => negb (Nat.eqb k h)) (jobs w)
      | None => jobs w
      end.
Proof.
  intros Ht. unfold disable_task. sched_unfold. rewrite Ht.
  rewrite (update_on_task tid _ s w t Ht).
  destruct (job t) as [h|] eqn:Hj.
  - rewrite (cancel_on_task tid h _ w _ (lookup_with_task _ _ _)).
    rewrite with_task_twice.
    rewrite (update_on_task tid _ _ _ _ (lookup_with_task _ _ _)).
    rewrite with_task_twice, _save_tasks_eq.
    eexists. split; [reflexivity|]. simpl. now rewrite jobs_saved.
  - rewrite _save_tasks_eq.
    replace (set_job None (set_enabled false t)) with (set_enabled false t)
      by (unfold set_job, set_enabled; simpl; now rewrite Hj).
    eexists. split; [reflexivity|]. simpl. now rewrite jobs_saved.
Qed.

(** C3, as the code has it.  [disable_task] on a registered task returns
    true, sets [enabled] to false, cancels the job of the task (it leaves
    the job list and the task forgets it) and keeps [run_count], [last_run]
    and also [next_run] as they were: [next_run] is not cleared. *)
Theorem disable_task_keeps_history (tid : string) s w (t : Task) :
  tasks s !! tid = Some t ->
  (disable_task tid (s, w)).1 = Returned true /\
  exists t',
    tasks (disable_task tid (s, w)).2.1 !! tid = Some t' /\
    enabled t' = false /\
    job t' = None /\
    (forall h, job t = Some h -> h ∉ jobs (disable_task tid (s, w)).2.2) /\
    run_count t' = run_count t /\
    last_run t' = last_run t /\
    next_run t' = next_run t.
Proof.
  intros Ht.
  destruct (disable_task_registered tid s w t Ht) as (w' & -> & Hjobs).
  split; [reflexivity|]. eexists. split; [apply lookup_with_task|].
  simpl. repeat split.
  intros h Hh. rewrite Hjobs, Hh. intros Hin.
  apply list_elem_of_filter in Hin as [Hne _].
  now rewrite Nat.eqb_refl in Hne.
Qed.

(** *** What the methods of a task keep *)

Lemma same_config_refl t : same_config t t.
Proof. unfold same_config. tauto. Qed.

Lemma same_config_trans t1 t2 t3 :
  same_config t1 t2 -> same_config t2 t3 -> same_config t1 t3.
Proof. unfold same_config. intuition congruence. Qed.

Lemma max_runs_reached_same (t t' : Task) :
  max_runs t' = max_runs t -> run_count t' = run_count t ->
  max_runs_reached t' = max_runs_reached t.
Proof. unfold max_runs_reached. now intros -> ->. Qed.

Lemma task_step_refl st : task_step st st.
Proof.
  unfold task_step. repeat split; auto using same_config_refl.
  exists 0%nat. simpl. now rewrite app_nil_r.
Qed.

Lemma task_step_trans st1 st2 st3 :
  task_step st1 st2 -> task_step st2 st3 -> task_step st1 st3.
Proof.
  intros (Hc1 & Hcap1 & Hx1 & n1 & Hn1) (Hc2 & Hcap2 & Hx2 & n2 & Hn2).
  split; [eauto using same_config_trans|]. split; [auto|]. split.
  - intros Hr. destruct (Hx1 Hr) as [Hcalls Hrc].
    assert (Hr2 : max_runs_reached st2.1 = true).
    { rewrite <- Hr. apply max_runs_reached_same; [apply Hc1 | exact Hrc]. }
    destruct (Hx2 Hr2). split; congruence.
  - exists (n1 + n2)%nat. rewrite Hn2, Hn1, replicate_add, app_assoc.
    destruct Hc1 as (-> & _). reflexivity.
Qed.

(** A step that assigns none of the fields [run_count] and the fixed ones,
    and leaves the record of invocations alone. *)
Lemma task_step_frame (t t' : Task) (w w' : world) :
  same_config t t' -> run_count t' = run_count t -> calls w' = calls w ->
  task_step (t, w) (t', w').
Proof.
  intros Hc Hrc Hcalls. split; [exact Hc|]. split; [|split; [auto|]].
  - unfold cap_respected. simpl. intros Hcap m Hm. rewrite Hrc. apply Hcap.
    destruct Hc as (_ & _ & _ & _ & _ & _ & _ & _ & <-). exact Hm.
  - exists 0%nat. simpl. now rewrite app_nil_r.
Qed.

Lemma keeps_ret {A} (a : A) : keeps (mret a).
Proof. intros st r st' [= <- <-]. apply task_step_refl. Qed.

Lemma keeps_raise {A} (e : exn) : keeps (raise e : TaskM A).
Proof. intros st r st' [= <- <-]. apply task_step_refl. Qed.

Lemma keeps_expect {A} (e : exn) (o : option A) : keeps (expect e o).
Proof. destruct o; [apply keeps_ret | apply keeps_raise]. Qed.

Lemma keeps_bind {A B} (m : TaskM A) (f : A -> TaskM B) :
  keeps m -> (forall a, keeps (f a)) -> keeps (m ≫= f).
Proof.
  intros Hm Hf st r st'. unfold mbind, M_bind.
  destruct (m st) as [[a|e] st1] eqn:E.
  - intros E2. eapply task_step_trans; [eapply Hm, E | eapply Hf, E2].
  - intros [= <- <-]. eapply Hm, E.
Qed.

Lemma keeps_try {A} (body : TaskM A) (handler : exn -> TaskM A) :
  keeps body -> (forall e, keeps (handler e)) -> keeps (try_except body handler).
Proof.
  intros Hm Hf st r st'. unfold try_except.
  destruct (body st) as [[a|e] st1] eqn:E.
  - intros [= <- <-]. eapply Hm, E.
  - intros E2. eapply task_step_trans; [eapply Hm, E | eapply Hf, E2].
Qed.

Lemma keeps_self : keeps self.
Proof. intros st r st' [= <- <-]. apply task_step_refl. Qed.

Lemma keeps_datetime_now : keeps datetime_now.
Proof. intros st r st' [= <- <-]. apply task_step_refl. Qed.

Lemma keeps_logger lvl msg : keeps (logger lvl msg).
Proof.
  intros [t w] r st' [= <- <-].
  apply task_step_frame; auto using same_config_refl.
Qed.

Lemma keeps_cancel_job h : keeps (cancel_job h).
Proof.
  intros [t w] r st' [= <- <-].
  apply task_step_frame; auto using same_config_refl.
Qed.

Lemma keeps_job_do j : keeps (job_do j).
Proof.
  intros [t w] r st'. unfold job_do. simpl.
  destruct (job_do_ok j); intros [= <- <-].
  - apply task_step_frame; auto using same_config_refl.
  - apply task_step_refl.
Qed.

Lemma keeps_set_job j : keeps (update (set_job j)).
Proof.
  intros [t w] r st' [= <- <-].
  apply task_step_frame; auto. now unfold same_config.
Qed.

Lemma keeps_set_next_run d : keeps (update (set_next_run d)).
Proof.
  intros [t w] r st' [= <- <-].
  apply task_step_frame; auto. now unfold same_config.
Qed.

Lemma keeps_set_enabled b : keeps (update (set_enabled b)).
Proof.
  intros [t w] r st' [= <- <-].
  apply task_step_frame; auto. now unfold same_config.
Qed.

Lemma same_config_fired t finish : same_config t (fired t finish).
Proof.
  unfold fired, same_config.
  destruct (String.eqb (schedule_type t) "interval"); [now simpl|].
  destruct (String.eqb (schedule_type t) "cron"); [now simpl|].
  destruct (String.eqb (schedule_type t) "once"); now simpl.
Qed.

Lemma run_count_fired t finish : run_count (fired t finish) = run_count t + 1.
Proof.
  unfold fired.
  destruct (String.eqb (schedule_type t) "interval"); [reflexivity|].
  destruct (String.eqb (schedule_type t) "cron"); [reflexivity|].
  destruct (String.eqb (schedule_type t) "once"); reflexivity.
Qed.

Lemma within_limits_not_reached t w :
  within_limits t w = true -> max_runs_reached t = false.
Proof.
  unfold within_limits. destruct (max_runs_reached t); [|reflexivity].
  rewrite andb_false_r. discriminate.
Qed.

Lemma keeps_run : keeps run.
Proof.
  intros [t w] r st' E.
  pose proof (run_cases t w) as Hc. rewrite E in Hc. clear E.
  inversion Hc as [He|msg He Hlim|e finish Hl Hf|v finish Hl Hf]; subst.
  - apply task_step_frame; auto using same_config_refl.
  - apply task_step_frame; auto. now unfold same_config.
  - pose proof (within_limits_not_reached t w Hl) as Hn.
    split; [apply same_config_refl|]. split; [auto|].
    split; [simpl; congruence|]. now exists 1%nat.
  - pose proof (within_limits_not_reached t w Hl) as Hn.
    split; [apply same_config_fired|].
    split; [|split; [simpl; congruence | now exists 1%nat]].
    unfold cap_respected. simpl. intros Hcap m Hm.
    destruct (same_config_fired t finish) as (_ & _ & _ & _ & _ & _ & _ & _ & Hmax).
    rewrite Hmax in Hm. rewrite run_count_fired.
    unfold max_runs_reached in Hn. rewrite Hm in Hn.
    apply Z.leb_gt in Hn. lia.
Qed.

Ltac keeps_step :=
  first
    [ apply keeps_ret | apply keeps_raise | apply keeps_expect
    | apply keeps_self | apply keeps_datetime_now | apply keeps_logger
    | apply keeps_cancel_job | apply keeps_job_do | apply keeps_set_job
    | apply keeps_set_next_run | apply keeps_set_enabled | apply keeps_run
    | apply keeps_bind; [|intros ?]
    | apply keeps_try; [|intros ?]
    | match goal with |- keeps (if ?b then _ else _) => destruct b end
    | match goal with |- keeps (match ?x with _ => _ end) => destruct x end ].

Lemma keeps_scheduled : keeps scheduled.
Proof. unfold scheduled. repeat keeps_step. Qed.

Lemma keeps_schedule_interval : keeps schedule_interval.
Proof.
  unfold schedule_interval, building.
  repeat first [apply keeps_scheduled | keeps_step].
Qed.

Lemma keeps_schedule_cron : keeps schedule_cron.
Proof.
  unfold schedule_cron, building, cron_field.
  repeat first [apply keeps_scheduled | keeps_step].
Qed.

Lemma keeps_schedule_once : keeps schedule_once.
Proof.
  unfold schedule_once, building.
  repeat first [apply keeps_scheduled | keeps_step].
Qed.

Lemma keeps__schedule_task : keeps _schedule_task.
Proof.
  unfold _schedule_task.
  repeat first
    [ apply keeps_scheduled | apply keeps_schedule_interval
    | apply keeps_schedule_cron | apply keeps_schedule_once | keeps_step ].
Qed.

(** [_schedule_task] returns true or false: it never raises. *)
Lemma _schedule_task_returns (t : Task) (w : world) :
  exists b t' w',
    _schedule_task (t, w) = (Returned b, (t', w')) /\ task_step (t, w) (t', w').
Proof.
  destruct (_schedule_task (t, w)) as [r [t' w']] eqn:E.
  pose proof (keeps__schedule_task _ _ _ E) as Hk.
  unfold _schedule_task, try_except in E.
  match type of E with
  | match ?body with _ => _ end = _ => destruct body as [[b|e] [t1 w1]]
  end.
  - injection E as <- <- <-. do 3 eexists. split; [reflexivity | exact Hk].
  - revert E Hk. monad_unfold. intros [= <- <- <-] Hk.
    do 3 eexists. split; [reflexivity | exact Hk].
Qed.

(** [add_task] with an id that is not in the registry: the task is
    stored, [_schedule_task] runs on it, whatever it returns, and the
    answer is true. *)
Lemma add_task_fresh (task : Task) s w :
  tasks s !! task_id task = None ->
  exists b t' w',
    _schedule_task (task, w) = (Returned b, (t', w')) /\
    task_step (task, w) (t', w') /\
    add_task task (s, w) =
      (Returned true,
       (with_task (task_id task) t' s,
        add_log "INFO" ("Added task " ++ label task)
          (saved (with_task (task_id task) t' s) w'))).
Proof.
  intros Hfresh.
  destruct (_schedule_task_returns task w) as (b & t' & w' & Hs & Hk).
  exists b, t', w'. split; [exact Hs|]. split; [exact Hk|].
  unfold add_task. sched_unfold.
  rewrite bool_decide_eq_false_2 by (rewrite Hfresh; apply is_Some_None).
  change (set_tasks (<[task_id task:=task]> (tasks s)) s)
    with (with_task (task_id task) task s).
  rewrite (on_task_eq _ _ _ _ _ _ _ _ (lookup_with_task _ _ _) Hs).
  rewrite with_task_twice, _save_tasks_eq. reflexivity.
Qed.

(** C5, as the code has it.  No cron expression is rejected at
    registration: [add_task] with a cron task whose id is not in the
    registry returns true and the task is in the registry afterwards,
    whatever its expression says and whatever the [schedule] package makes
    of it. *)
Theorem add_task_accepts_every_cron (task : Task) s w :
  schedule_type task = "cron" ->
  tasks s !! task_id task = None ->
  (add_task task (s, w)).1 = Returned true /\
  exists t',
    tasks (add_task task (s, w)).2.1 !! task_id task = Some t' /\
    same_config task t'.
Proof.
  intros _ Hfresh.
  destruct (add_task_fresh task s w Hfresh) as (b & t' & w' & _ & Hk & ->).
  split; [reflexivity|]. exists t'. split; [apply lookup_with_task|].
  apply Hk.
Qed.

(** *** Interval schedules *)



(** *** Persistence *)

(** The entries of the persisted record. *)
Lemma to_dict_entries (t : Task) (k : string) (v : pyval) :
  to_dict t !! k = Some v <->
  In (k, v)
    [ ("task_id", PyStr (task_id t));
      ("name", PyStr (name t));
      ("schedule_type", PyStr (schedule_type t));
      ("interval", PyInt (interval t));
      ("cron", str_or_none (cron t));
      ("start_time", iso_or_none (start_time t));
      ("end_time", iso_or_none (end_time t));
      ("max_runs", int_or_none (max_runs t));
      ("enabled", PyBool (enabled t));
      ("run_count", PyInt (run_count t));
      ("last_run", iso_or_none (last_run t));
      ("next_run", iso_or_none (next_run t)) ].
Proof.
  unfold to_dict. rewrite <- list_elem_of_In.
  symmetry. apply elem_of_list_to_map.
  simpl. apply (bool_decide_unpack _). vm_compute. exact I.
Qed.

Lemma parse_iso_or_none_iso {S} {HD : DatetimeLaws D} (k : string) (d : option Z) (s : S) :
  parse_iso_or_none k (iso_or_none d) s = (Returned d, s).
Proof.
  destruct d as [x|]; simpl; [|reflexivity].
  unfold parse_iso_or_none. simpl.
  destruct (String.eqb_spec (isoformat x) "") as [E|_].
  - now apply isoformat_nonempty in E.
  - simpl. monad_unfold. now rewrite fromisoformat_isoformat.
Qed.

Lemma as_opt_str_str_or_none {S} (k : string) (c : option string) (s : S) :
  as_opt_str k (str_or_none c) s = (Returned c, s).
Proof. now destruct c. Qed.

Lemma as_opt_int_int_or_none {S} (k : string) (n : option Z) (s : S) :
  as_opt_int k (int_or_none n) s = (Returned n, s).
Proof. now destruct n. Qed.

(** [from_dict] on the record of a task. *)
Lemma from_dict_to_dict {S} {HD : DatetimeLaws D} (t : Task) (f : WorkUnit) (s : S) :
  from_dict (to_dict t) f s = (Returned (reloaded t f), s).
Proof.
  unfold from_dict, getitem.
  rewrite (proj2 (to_dict_entries t "task_id" (PyStr (task_id t)))) by (simpl; tauto).
  rewrite (proj2 (to_dict_entries t "name" (PyStr (name t)))) by (simpl; tauto).
  rewrite (proj2 (to_dict_entries t "schedule_type" (PyStr (schedule_type t))))
    by (simpl; tauto).
  rewrite (proj2 (to_dict_entries t "interval" (PyInt (interval t)))) by (simpl; tauto).
  rewrite (proj2 (to_dict_entries t "cron" (str_or_none (cron t)))) by (simpl; tauto).
  rewrite (proj2 (to_dict_entries t "start_time" (iso_or_none (start_time t))))
    by (simpl; tauto).
  rewrite (proj2 (to_dict_entries t "end_time" (iso_or_none (end_time t))))
    by (simpl; tauto).
  rewrite (proj2 (to_dict_entries t "max_runs" (int_or_none (max_runs t))))
    by (simpl; tauto).
  rewrite (proj2 (to_dict_entries t "enabled" (PyBool (enabled t)))) by (simpl; tauto).
  rewrite (proj2 (to_dict_entries t "run_count" (PyInt (run_count t)))) by (simpl; tauto).
  rewrite (proj2 (to_dict_entries t "last_run" (iso_or_none (last_run t))))
    by (simpl; tauto).
  rewrite (proj2 (to_dict_entries t "next_run" (iso_or_none (next_run t))))
    by (simpl; tauto).
  unfold mbind, M_bind. simpl.
  rewrite !parse_iso_or_none_iso.
  rewrite as_opt_str_str_or_none, as_opt_int_int_or_none.
  rewrite !parse_iso_or_none_iso.
  reflexivity.
Qed.

(** C8. The record of a task, read back with any work-unit, gives a task
    with the same [run_count], [last_run], [next_run] and [enabled]; the
    record has no entry for the work-unit and none of its values is a
    callable. *)
Theorem persistence_round_trip {HD : DatetimeLaws D} (t : Task) (f : WorkUnit) :
  (exists t',
     (forall s : unit, from_dict (to_dict t) f s = (Returned t', s)) /\
     function t' = f /\
     run_count t' = run_count t /\
     last_run t' = last_run t /\
     next_run t' = next_run t /\
     enabled t' = enabled t) /\
  to_dict t !! "function" = None /\
  (forall k v, to_dict t !! k = Some v -> is_callable v = false).
Proof.
  split; [|split].
  - exists (reloaded t f). split; [intros s; apply from_dict_to_dict|].
    simpl. tauto.
  - destruct (to_dict t !! "function") as [v|] eqn:E; [|reflexivity].
    apply to_dict_entries in E. simpl in E.
    repeat (destruct E as [E|E]; [discriminate E|]). destruct E.
  - intros k v E. apply to_dict_entries in E. simpl in E.
    repeat (destruct E as [E|E];
            [injection E as <- <-;
             try reflexivity;
             match goal with
             | |- is_callable (_ ?o) = _ => now destruct o
             end|]).
    destruct E.
Qed.

(** *** Loading *)

Lemma load_record_to_dict {HD : DatetimeLaws D} (t0 : Task) s w :
  load_record (to_dict t0) (s, w) = (Returned tt, (load_all [t0] s, w)).
Proof.
  unfold load_record, getitem, load_all. simpl.
  rewrite (proj2 (to_dict_entries t0 "task_id" (PyStr (task_id t0)))) by (simpl; tauto).
  rewrite (proj2 (to_dict_entries t0 "enabled" (PyBool (enabled t0)))) by (simpl; tauto).
  rewrite (proj2 (to_dict_entries t0 "run_count" (PyInt (run_count t0)))) by (simpl; tauto).
  rewrite (proj2 (to_dict_entries t0 "last_run" (iso_or_none (last_run t0))))
    by (simpl; tauto).
  rewrite (proj2 (to_dict_entries t0 "next_run" (iso_or_none (next_run t0))))
    by (simpl; tauto).
  sched_unfold.
  destruct (tasks s !! task_id t0) as [t|] eqn:Ht; [|reflexivity].
  unfold as_bool, as_int. sched_unfold.
  rewrite (update_on_task _ _ s w t Ht).
  rewrite (update_on_task _ _ _ w _ (lookup_with_task _ _ _)), with_task_twice.
  rewrite parse_iso_or_none_iso.
  rewrite (update_on_task _ _ _ w _ (lookup_with_task _ _ _)), with_task_twice.
  rewrite parse_iso_or_none_iso.
  rewrite (update_on_task _ _ _ w _ (lookup_with_task _ _ _)), with_task_twice.
  reflexivity.
Qed.

Lemma for_each_load_record {HD : DatetimeLaws D} (saved : list Task) s w :
  for_each (to_dict <$> saved) load_record (s, w) =
    (Returned tt, (load_all saved s, w)).
Proof.
  revert s. induction saved as [|t0 saved IH]; intros s; [reflexivity|].
  simpl. unfold mbind, M_bind. rewrite load_record_to_dict. apply IH.
Qed.

(** Reading records adds no task to the registry. *)
Lemma load_all_unregistered (saved : list Task) s (tid : string) :
  tasks s !! tid = None -> tasks (load_all saved s) !! tid = None.
Proof.
  revert s. induction saved as [|t0 saved IH]; intros s Hs; [exact Hs|].
  simpl. apply IH.
  destruct (tasks s !! task_id t0) as [t|] eqn:Ht; [|exact Hs].
  unfold with_task. simpl. rewrite lookup_insert_ne; [exact Hs|].
  intros E. rewrite E in Ht. congruence.
Qed.

(** Records of other tasks leave a task alone. *)
Lemma load_all_other (saved : list Task) s (tid : string) :
  tid ∉ task_id <$> saved ->
  tasks (load_all saved s) !! tid = tasks s !! tid.
Proof.
  revert s. induction saved as [|t0 saved IH]; intros s Hnot; [reflexivity|].
  simpl. rewrite fmap_cons in Hnot. apply not_elem_of_cons in Hnot as [Hne Hnot].
  rewrite IH by exact Hnot.
  destruct (tasks s !! task_id t0) as [t|]; [|reflexivity].
  unfold with_task. simpl. now rewrite lookup_insert_ne.
Qed.

Lemma load_all_registered (saved : list Task) s (t0 t : Task) :
  NoDup (task_id <$> saved) ->
  t0 ∈ saved ->
  tasks s !! task_id t0 = Some t ->
  tasks (load_all saved s) !! task_id t0 = Some (restored t0 t).
Proof.
  revert s. induction saved as [|t1 saved IH]; intros s Hnd Hin Ht.
  - now apply elem_of_nil in Hin.
  - rewrite fmap_cons in Hnd. apply NoDup_cons in Hnd as [Hfresh Hnd].
    simpl. apply elem_of_cons in Hin as [->|Hin].
    + rewrite Ht. rewrite load_all_other by exact Hfresh.
      apply lookup_with_task.
    + apply IH; [exact Hnd | exact Hin |].
      assert (Hne : task_id t1 <> task_id t0).
      { intros E. apply Hfresh. rewrite E. now apply list_elem_of_fmap_2. }
      destruct (tasks s !! task_id t1) as [t'|]; [|exact Ht].
      unfold with_task. simpl. now rewrite lookup_insert_ne.
Qed.

(** [_load_tasks] on a file that [_save_tasks] wrote. *)
Lemma _load_tasks_eq {HD : DatetimeLaws D} (saved : list Task) s w :
  tasks_json w = Some (to_dict <$> saved) ->
  disk_ok w = true ->
  _load_tasks (s, w) =
    (Returned tt,
     (load_all saved s,
      add_log "INFO"
        ("Loaded " ++ pretty (length (to_dict <$> saved)) ++
         " tasks from configuration") w)).
Proof.
  intros Hfile Hdisk. unfold _load_tasks. monad_unfold. rewrite Hfile, Hdisk.
  pose proof (for_each_load_record saved s w) as E.
  unfold fmap in E. unfold fmap. rewrite E. reflexivity.
Qed.

(** The restore that [_load_tasks] is written to make, on a registry that
    has tasks: when it reads the file that [_save_tasks] wrote, a record
    whose task is in the registry puts its [enabled], [run_count],
    [last_run] and [next_run] on that task, and a record whose task is not
    in the registry is skipped.  The only caller, [__init__], calls it on
    the registry that it has just emptied, where every record is of the
    second kind. *)
Lemma load_tasks_restores_registered {HD : DatetimeLaws D}
    (saved : list Task) s w :
  tasks_json w = Some (to_dict <$> saved) ->
  disk_ok w = true ->
  NoDup (task_id <$> saved) ->
  (_load_tasks (s, w)).1 = Returned tt /\
  (forall t0 t,
     t0 ∈ saved -> tasks s !! task_id t0 = Some t ->
     exists t',
       tasks (_load_tasks (s, w)).2.1 !! task_id t0 = Some t' /\
       enabled t' = enabled t0 /\ run_count t' = run_count t0 /\
       last_run t' = last_run t0 /\ next_run t' = next_run t0 /\
       same_config t t') /\
  (forall tid,
     tasks s !! tid = None -> tasks (_load_tasks (s, w)).2.1 !! tid = None).
Proof.
  intros Hfile Hdisk Hnd. rewrite (_load_tasks_eq saved s w Hfile Hdisk). simpl.
  split; [reflexivity|]. split.
  - intros t0 t Hin Ht. exists (restored t0 t).
    split; [now apply load_all_registered|].
    unfold same_config. simpl. tauto.
  - intros tid. apply load_all_unregistered.
Qed.

(** *** The operations as steps *)

Section Steps.

Variable addable : Task -> Prop.
Variable removable : string -> Prop.

Local Abbreviation step := (sched_step addable removable).

Lemma step_log s w lvl msg : step (s, w) (s, add_log lvl msg w).
Proof. now apply StepWorld. Qed.

Lemma step_saved s w : step (s, w) (s, saved s w).
Proof. apply StepWorld, calls_saved. Qed.

(** A method of a task, called on a registered task, is a step. *)
Lemma on_task_step {A} (k : string) (m : TaskM A) s w t :
  keeps m ->
  tasks s !! k = Some t ->
  exists r t' w',
    on_task k m (s, w) = (r, (with_task k t' s, w')) /\
    task_step (t, w) (t', w').
Proof.
  intros Hm Ht. destruct (m (t, w)) as [r [t' w']] eqn:E.
  exists r, t', w'. split; [now apply on_task_eq with (t := t)|].
  eapply Hm, E.
Qed.

Lemma add_task_step (task : Task) s w :
  addable task ->
  exists b st', add_task task (s, w) = (Returned b, st') /\ step (s, w) st'.
Proof.
  intros Hadd. destruct (tasks s !! task_id task) as [t|] eqn:Ht.
  - exists false. eexists. split; [|apply step_log].
    unfold add_task. sched_unfold. rewrite Ht.
    rewrite bool_decide_eq_true_2 by eauto. reflexivity.
  - destruct (add_task_fresh task s w Ht) as (b & t' & w' & _ & Hk & ->).
    exists true. eexists. split; [reflexivity|].
    eapply StepTrans; [apply StepInsert; eassumption|].
    eapply StepTrans.
    { eapply StepTask; [apply lookup_with_task | exact Hk]. }
    rewrite with_task_twice.
    eapply StepTrans; [apply step_saved | apply step_log].
Qed.

Lemma remove_task_step (tid : string) s w :
  removable tid ->
  exists b st', remove_task tid (s, w) = (Returned b, st') /\ step (s, w) st'.
Proof.
  intros Hrem. unfold remove_task. sched_unfold.
  destruct (tasks s !! tid) as [t|] eqn:Ht.
  2: { exists false. eexists. split; [reflexivity | apply step_log]. }
  exists true.
  destruct (job t) as [h|].
  - rewrite (cancel_on_task tid h s w t Ht).
    unfold with_task at 1. simpl. rewrite delete_insert_eq, _save_tasks_eq.
    eexists. split; [reflexivity|].
    eapply StepTrans; [apply (StepDelete _ _ s w tid Hrem)|].
    eapply StepTrans; [apply StepWorld | eapply StepTrans;
                                          [apply step_saved | apply step_log]].
    reflexivity.
  - rewrite _save_tasks_eq. eexists. split; [reflexivity|].
    eapply StepTrans; [apply (StepDelete _ _ s w tid Hrem)|].
    eapply StepTrans; [apply step_saved | apply step_log].
Qed.

Lemma enable_task_step (tid : string) s w :
  exists b st', enable_task tid (s, w) = (Returned b, st') /\ step (s, w) st'.
Proof.
  unfold enable_task. sched_unfold.
  destruct (tasks s !! tid) as [t|] eqn:Ht.
  2: { exists false. eexists. split; [reflexivity | apply step_log]. }
  rewrite (update_on_task tid _ s w t Ht).
  destruct (_schedule_task_returns (set_enabled true t) w)
    as (b & t' & w' & Hs & Hk).
  rewrite (on_task_eq _ _ _ _ _ _ _ _ (lookup_with_task _ _ _) Hs).
  rewrite with_task_twice, _save_tasks_eq.
  exists true. eexists. split; [reflexivity|].
  eapply StepTrans.
  { eapply StepTask; [exact Ht|].
    eapply task_step_trans; [|exact Hk].
    now apply (keeps_set_enabled true (t, w) (Returned tt)). }
  eapply StepTrans; [apply step_saved | apply step_log].
Qed.

Lemma disable_task_step (tid : string) s w :
  exists b st', disable_task tid (s, w) = (Returned b, st') /\ step (s, w) st'.
Proof.
  unfold disable_task. sched_unfold.
  destruct (tasks s !! tid) as [t|] eqn:Ht.
  2: { exists false. eexists. split; [reflexivity | apply step_log]. }
  rewrite (update_on_task tid _ s w t Ht).
  exists true.
  assert (Hoff : task_step (t, w) (set_enabled false t, w))
    by now apply (keeps_set_enabled false (t, w) (Returned tt)).
  destruct (job t) as [h|].
  - rewrite (cancel_on_task tid h _ w _ (lookup_with_task _ _ _)).
    rewrite with_task_twice.
    rewrite (update_on_task tid _ _ _ _ (lookup_with_task _ _ _)).
    rewrite with_task_twice, _save_tasks_eq.
    eexists. split; [reflexivity|].
    eapply StepTrans.
    { eapply StepTask; [exact Ht|].
      eapply task_step_trans; [exact Hoff|].
      now apply (keeps_set_job None (set_enabled false t, w) (Returned tt)). }
    eapply StepTrans; [apply StepWorld | eapply StepTrans;
                                          [apply step_saved | apply step_log]].
    reflexivity.
  - rewrite _save_tasks_eq. eexists. split; [reflexivity|].
    eapply StepTrans; [eapply StepTask; [exact Ht | exact Hoff]|].
    eapply StepTrans; [apply step_saved | apply step_log].
Qed.

Lemma run_task_step (tid : string) s w :
  exists v st', run_task tid (s, w) = (Returned v, st') /\ step (s, w) st'.
Proof.
  destruct (tasks s !! tid) as [t|] eqn:Ht.
  - destruct (run_never_raises t w) as (v & [t' w'] & Hr).
    rewrite (run_task_registered tid s w t _ _ _ Ht Hr).
    exists v. eexists. split; [reflexivity|].
    eapply StepTrans; [|apply step_saved].
    eapply StepTask; [exact Ht | eapply keeps_run, Hr].
  - rewrite (run_task_unknown tid s w Ht).
    exists PyNone. eexists. split; [reflexivity | apply step_log].
Qed.

Lemma run_job_step (tid : string) s w :
  exists st', run_job tid (s, w) = (Returned tt, st') /\ step (s, w) st'.
Proof.
  unfold run_job. sched_unfold.
  destruct (tasks s !! tid) as [t|] eqn:Ht.
  2: { eexists. split; [reflexivity | apply StepRefl]. }
  destruct (job t) as [h|].
  2: { eexists. split; [reflexivity | apply StepRefl]. }
  destruct (bool_decide (h ∈ jobs w)).
  2: { eexists. split; [reflexivity | apply StepRefl]. }
  destruct (run_never_raises t w) as (v & [t' w'] & Hr).
  rewrite (on_task_eq tid run s w t _ _ _ Ht Hr).
  eexists. split; [reflexivity|].
  eapply StepTask; [exact Ht | eapply keeps_run, Hr].
Qed.

Lemma run_jobs_step (due : list string) s w :
  exists st', for_each due run_job (s, w) = (Returned tt, st') /\ step (s, w) st'.
Proof.
  revert s w. induction due as [|tid due IH]; intros s w.
  - eexists. split; [reflexivity | apply StepRefl].
  - simpl. unfold mbind, M_bind.
    destruct (run_job_step tid s w) as ([s1 w1] & -> & H1).
    destruct (IH s1 w1) as (st' & -> & H2).
    exists st'. split; [reflexivity|]. eapply StepTrans; eassumption.
Qed.

Lemma _run_scheduler_turn_step (due : list string) s w :
  exists st',
    _run_scheduler_turn due (s, w) = (Returned tt, st') /\ step (s, w) st'.
Proof.
  unfold _run_scheduler_turn, try_except, mbind, M_bind, this. cbn [fst snd].
  destruct (running s).
  - destruct (run_jobs_step due s w) as ([s1 w1] & -> & H1).
    eexists. split; [reflexivity|].
    eapply StepTrans; [exact H1|]. now apply StepWorld.
  - eexists. split; [reflexivity | apply StepRefl].
Qed.

(** Scheduling the registered tasks [ks], one after the other. *)
Lemma schedule_all_step (ks : list string) s w :
  (forall k, k ∈ ks -> is_Some (tasks s !! k)) ->
  exists st',
    for_each ks schedule_registered (s, w) = (Returned tt, st') /\
    step (s, w) st'.
Proof.
  revert s w. induction ks as [|k ks IH]; intros s w Hks.
  - eexists. split; [reflexivity | apply StepRefl].
  - destruct (Hks k (list_elem_of_here _ _)) as [t Ht].
    destruct (_schedule_task_returns t w) as (b & t' & w' & Hs & Hk).
    simpl. unfold mbind at 1, M_bind at 1. unfold schedule_registered at 1.
    unfold mbind at 1, M_bind at 1.
    rewrite (on_task_eq _ _ _ _ _ _ _ _ Ht Hs).
    unfold mret at 1, M_ret at 1. cbv beta iota.
    destruct (IH (with_task k t' s) w') as (st' & -> & Hstep).
    { intros k' Hk'. unfold with_task. simpl. apply lookup_insert_is_Some'.
      right. apply Hks. now apply list_elem_of_further. }
    exists st'. split; [reflexivity|].
    eapply StepTrans; [|exact Hstep]. eapply StepTask; eassumption.
Qed.

Lemma start_step s w :
  exists st', start (s, w) = (Returned tt, st') /\ step (s, w) st'.
Proof.
  unfold start.
  cbv beta iota zeta delta [mbind M_bind mret M_ret this assign_running slogger].
  cbn [fst snd]. destruct (running s); cbn [fst snd].
  { eexists. split; [reflexivity | apply step_log]. }
  match goal with
  | |- context [for_each ?ks schedule_registered ?st] =>
      destruct (schedule_all_step ks (set_running true s) w)
        as ([s1 w1] & E & Hstep); [|rewrite E]
  end.
  { intros k Hk. apply list_elem_of_fmap in Hk as ([k' t] & -> & Hk).
    apply elem_of_map_to_list in Hk. simpl. eauto. }
  eexists. split; [reflexivity|].
  eapply StepTrans; [apply StepRunning|].
  eapply StepTrans; [exact Hstep | apply step_log].
Qed.

Lemma stop_step s w :
  exists st', stop (s, w) = (Returned tt, st') /\ step (s, w) st'.
Proof.
  unfold stop. sched_unfold. destruct (running s); simpl.
  - rewrite _save_tasks_eq. eexists. split; [reflexivity|].
    eapply StepTrans; [apply StepRunning|].
    eapply StepTrans; [apply step_saved | apply step_log].
  - eexists. split; [reflexivity | apply step_log].
Qed.

(** Every operation returns, and is made of steps. *)
Lemma exec_step (op : Op) s w :
  op_ok addable removable op ->
  exists st', exec op (s, w) = (Returned tt, st') /\ step (s, w) st'.
Proof.
  destruct op as [task|tid|tid|tid|tid| | |due]; simpl; intros Hok;
    unfold mbind, M_bind.
  - destruct (add_task_step task s w Hok) as (b & st' & -> & H). eauto.
  - destruct (remove_task_step tid s w Hok) as (b & st' & -> & H). eauto.
  - destruct (enable_task_step tid s w) as (b & st' & -> & H). eauto.
  - destruct (disable_task_step tid s w) as (b & st' & -> & H). eauto.
  - destruct (run_task_step tid s w) as (b & st' & -> & H). eauto.
  - apply start_step.
  - apply stop_step.
  - apply _run_scheduler_turn_step.
Qed.

Lemma exec_all_step (ops : list Op) s w :
  Forall (op_ok addable removable) ops ->
  exists st', exec_all ops (s, w) = (Returned tt, st') /\ step (s, w) st'.
Proof.
  revert s w. induction ops as [|op ops IH]; intros s w Hok.
  - eexists. split; [reflexivity | apply StepRefl].
  - apply Forall_cons in Hok as [Hop Hok]. unfold exec_all. simpl.
    unfold mbind, M_bind.
    destruct (exec_step op s w Hop) as ([s1 w1] & -> & H1).
    destruct (IH s1 w1 Hok) as (st' & E & H2). unfold exec_all in E.
    rewrite E. exists st'. split; [reflexivity|]. eapply StepTrans; eassumption.
Qed.

(** A stable property holds after the steps if it held before. *)
Lemma sched_step_stable (P : TaskScheduler * world -> Prop) st st' :
  stable addable removable P -> step st st' -> P st -> P st'.
Proof.
  intros HP Hstep. induction Hstep; intros HPst; auto.
  - eapply stable_task; eauto.
  - eapply stable_world; eauto.
  - eapply stable_insert; eauto.
  - eapply stable_delete; eauto.
  - eapply stable_running; eauto.
Qed.

End Steps.

(** *** The cap of runs *)

Lemma keys_ok_with_task (k : string) (t t' : Task) s :
  keys_ok s -> tasks s !! k = Some t -> task_id t' = task_id t ->
  keys_ok (with_task k t' s).
Proof.
  intros Hkeys Ht Hid k' t1. unfold with_task. simpl.
  rewrite lookup_insert. case_decide as E.
  - intros [= <-]. subst k'. rewrite Hid. now apply Hkeys.
  - apply Hkeys.
Qed.

Lemma keys_ok_insert (task : Task) s :
  keys_ok s -> keys_ok (with_task (task_id task) task s).
Proof.
  intros Hkeys k' t1. unfold with_task. simpl.
  rewrite lookup_insert. case_decide as E.
  - now intros [= <-].
  - apply Hkeys.
Qed.

Lemma keys_ok_delete (k : string) s :
  keys_ok s -> keys_ok (set_tasks (delete k (tasks s)) s).
Proof.
  intros Hkeys k' t1. simpl. rewrite lookup_delete. case_decide; [discriminate|].
  apply Hkeys.
Qed.

Lemma registry_ok_stable :
  stable cap_respected (fun _ => True) registry_ok.
Proof.
  split.
  - intros s w k t t' w' [Hkeys Hcaps] Ht (Hc & Hcap & _). split.
    + eapply keys_ok_with_task; eauto. apply Hc.
    + intros k' t1. unfold with_task. simpl.
      rewrite lookup_insert. case_decide as E.
      * intros [= <-]. apply Hcap. simpl. eapply Hcaps, Ht.
      * apply Hcaps.
  - intros s w w' H _. exact H.
  - intros s w task [Hkeys Hcaps] _ Hadd. split.
    + now apply keys_ok_insert.
    + intros k' t1. unfold with_task. simpl.
      rewrite lookup_insert. case_decide as E.
      * now intros [= <-].
      * apply Hcaps.
  - intros s w k [Hkeys Hcaps] _. split.
    + now apply keys_ok_delete.
    + intros k' t1. simpl. rewrite lookup_delete. case_decide; [discriminate|].
      apply Hcaps.
  - intros s w b H. exact H.
Qed.

Lemma count_occ_replicate_other (k tid : string) (n : nat) :
  k <> tid -> count_occ String.string_dec (replicate n k) tid = 0%nat.
Proof.
  intros Hne. induction n as [|n IH]; [reflexivity|].
  simpl. destruct (String.string_dec k tid); [contradiction | exact IH].
Qed.

Lemma spent_stable (tid : string) (rc : Z) (c : nat) :
  stable (fun _ => True) (fun k => k <> tid) (spent tid rc c).
Proof.
  split.
  - intros s w k t t' w' (Hkeys & Hcount & t0 & Ht0 & Hreached & Hrc) Ht
      (Hc & _ & Hspent & n & Hn).
    simpl in *. split; [|split].
    + eapply keys_ok_with_task; eauto. apply Hc.
    + unfold invocations in *. simpl.
      destruct (decide (k = tid)) as [->|Hne].
      * rewrite Ht in Ht0. injection Ht0 as ->.
        destruct (Hspent Hreached) as [-> _]. exact Hcount.
      * rewrite Hn, count_occ_app, Hcount.
        rewrite count_occ_replicate_other; [lia|].
        now rewrite (Hkeys k t Ht).
    + unfold with_task. simpl. rewrite lookup_insert. case_decide as E.
      * subst k. rewrite Ht in Ht0. injection Ht0 as ->.
        destruct (Hspent Hreached) as [_ Hsame].
        exists t'. split; [reflexivity|]. split; [|congruence].
        rewrite <- Hreached. apply max_runs_reached_same; [apply Hc | exact Hsame].
      * eauto.
  - intros s w w' (Hkeys & Hcount & Ht) Hcalls. split; [exact Hkeys|].
    split; [|exact Ht]. unfold invocations in *. simpl in *. now rewrite Hcalls.
  - intros s w task (Hkeys & Hcount & t0 & Ht0 & Hreached & Hrc) Hfresh _.
    simpl in *. split; [now apply keys_ok_insert|]. split; [exact Hcount|].
    exists t0. split; [|auto]. unfold with_task. simpl.
    rewrite lookup_insert_ne; [exact Ht0|]. intros E. rewrite E in Hfresh.
    congruence.
  - intros s w k (Hkeys & Hcount & t0 & Ht0 & Hreached & Hrc) Hne.
    simpl in *. split; [now apply keys_ok_delete|]. split; [exact Hcount|].
    exists t0. split; [|auto]. simpl. now rewrite lookup_delete_ne.
  - intros s w b H. exact H.
Qed.

(** C6, as the code has it.  Whatever is done to a scheduler whose tasks
    respect their caps, the operations return and the tasks respect their
    caps afterwards: [run_count <= max_runs].  Once the task under [tid] has
    used up its runs, no operation invokes its work-unit again or changes
    its [run_count], as long as the task is not removed.  The operations
    are the calls of [add_task], [remove_task], [enable_task],
    [disable_task], [run_task], [start] and [stop], and the turns of the
    background loop.  [enabled] goes
    to false at the first firing that finds the cap reached, not at the run
    that reaches it. *)
Theorem max_runs_is_a_cap :
  (forall ops s w,
     registry_ok (s, w) ->
     Forall (op_ok cap_respected (fun _ => True)) ops ->
     (exec_all ops (s, w)).1 = Returned tt /\
     caps_ok (exec_all ops (s, w)).2.1) /\
  (forall ops s w tid t,
     keys_ok s ->
     tasks s !! tid = Some t ->
     max_runs_reached t = true ->
     Forall (op_ok (fun _ => True) (fun k => k <> tid)) ops ->
     invocations tid (exec_all ops (s, w)).2.2 = invocations tid w /\
     exists t',
       tasks (exec_all ops (s, w)).2.1 !! tid = Some t' /\
       run_count t' = run_count t) /\
  (forall t w,
     max_runs_reached t = true ->
     enabled (run (t, w)).2.1 = false /\
     calls (run (t, w)).2.2 = calls w).
Proof.
  split; [|split].
  - intros ops s w Hok Hops.
    destruct (exec_all_step _ _ ops s w Hops) as (st' & -> & Hstep).
    split; [reflexivity|].
    apply (sched_step_stable _ _ _ _ _ registry_ok_stable Hstep Hok).
  - intros ops s w tid t Hkeys Ht Hreached Hops.
    destruct (exec_all_step _ _ ops s w Hops) as (st' & -> & Hstep).
    assert (Hspent : spent tid (run_count t) (invocations tid w) (s, w)).
    { split; [exact Hkeys|]. split; [reflexivity|]. exists t. auto. }
    destruct (sched_step_stable _ _ _ _ _ (spent_stable _ _ _) Hstep Hspent)
      as (_ & Hcount & t' & Ht' & _ & Hrc).
    split; [exact Hcount|]. exists t'. auto.
  - intros t w Hreached. destruct (enabled t) eqn:He.
    + now rewrite (run_max_runs_reached t w He Hreached).
    + now rewrite (run_disabled t w He).
Qed.

End Properties.

(** ** More properties *)

Section MoreProperties.

Context {D : Datetime} {L : ScheduleLib}.

(** *** Unknown ids *)

(** X2. On an id that is not in the registry, [remove_task], [enable_task]
    and [disable_task] return false and [run_task] returns [None]; the
    scheduler is as it was and the world has one more record of the logger,
    a warning: no job, no file and no work-unit is touched. *)
Theorem unknown_id_is_refused (tid : string) s w :
  tasks s !! tid = None ->
  let warned := add_log "WARNING" ("Task " ++ tid ++ " does not exist") w in
  remove_task tid (s, w) = (Returned false, (s, warned)) /\
  enable_task tid (s, w) = (Returned false, (s, warned)) /\
  disable_task tid (s, w) = (Returned false, (s, warned)) /\
  run_task tid (s, w) = (Returned PyNone, (s, warned)).
Proof.
  intros Ht warned. repeat split.
  - unfold remove_task. sched_unfold. now rewrite Ht.
  - unfold enable_task. sched_unfold. now rewrite Ht.
  - unfold disable_task. sched_unfold. now rewrite Ht.
  - now apply run_task_unknown.
Qed.

(** *** Removal *)

Lemma remove_task_registered (tid : string) s w (t : Task) :
  tasks s !! tid = Some t ->
  remove_task tid (s, w) =
    (Returned true,
     (without_task tid s,
      add_log "INFO" ("Removed task " ++ tid ++ " (" ++ name t ++ ")")
        (saved (without_task tid s) (cancelled t w)))).
Proof.
  intros Ht. unfold remove_task, cancelled, without_task. sched_unfold.
  rewrite Ht. destruct (job t) as [h|].
  - rewrite (cancel_on_task tid h s w t Ht).
    unfold with_task at 1. simpl. rewrite delete_insert_eq, _save_tasks_eq.
    reflexivity.
  - rewrite _save_tasks_eq. reflexivity.
Qed.

(** X1. [remove_task] on a registered task returns true; the task is out
    of the registry, the other tasks are as they were, [get_tasks()] is one
    shorter, the job of the task is off the job list of the package, and no
    work-unit is invoked. *)
Theorem remove_task_removes (tid : string) s w (t : Task) :
  tasks s !! tid = Some t ->
  (remove_task tid (s, w)).1 = Returned true /\
  get_task (remove_task tid (s, w)).2.1 tid = None /\
  (forall k, k <> tid ->
     get_task (remove_task tid (s, w)).2.1 k = get_task s k) /\
  S (length (get_tasks (remove_task tid (s, w)).2.1)) = length (get_tasks s) /\
  (forall h, job t = Some h -> h ∉ jobs (remove_task tid (s, w)).2.2) /\
  calls (remove_task tid (s, w)).2.2 = calls w.
Proof.
  intros Ht. rewrite (remove_task_registered tid s w t Ht).
  unfold get_task, get_tasks, without_task. simpl.
  split; [reflexivity|]. split; [apply lookup_delete_eq|].
  split; [intros k Hk; now apply lookup_delete_ne|]. split.
  - rewrite !length_fmap, !length_map_to_list.
    rewrite <- (insert_delete_id (tasks s) tid t Ht) at 2.
    now rewrite map_size_insert_None by apply lookup_delete_eq.
  - rewrite jobs_saved, calls_saved. unfold cancelled. split.
    + intros h Hh. rewrite Hh. simpl. intros Hin.
      apply list_elem_of_filter in Hin as [Hne _].
      now rewrite Nat.eqb_refl in Hne.
    + now destruct (job t).
Qed.

(** *** What the methods of a task do to the world *)

Section WorldFrame.

(** A relation between worlds that the steps of the methods respect: it
    is a preorder, and new records of the logger, changes of the job list
    and the run of a work-unit stay within it. *)
Variable R : world -> world -> Prop.
Hypothesis R_refl : forall w, R w w.
Hypothesis R_trans : forall w1 w2 w3, R w1 w2 -> R w2 w3 -> R w1 w3.
Hypothesis R_log : forall w lvl msg, R w (add_log lvl msg w).
Hypothesis R_jobs : forall w js n, R w (set_jobs js n w).
Hypothesis R_call : forall w tid finish, R w (after_call tid finish w).

Lemma moves_ret {A} (a : A) : moves R (mret a : TaskM A).
Proof. intros t w r t' w' [= <- <- <-]. apply R_refl. Qed.

Lemma moves_raise {A} (e : exn) : moves R (raise e : TaskM A).
Proof. intros t w r t' w' [= <- <- <-]. apply R_refl. Qed.

Lemma moves_expect {A} (e : exn) (o : option A) : moves R (expect e o : TaskM A).
Proof. destruct o; [apply moves_ret | apply moves_raise]. Qed.

Lemma moves_bind {A B} (m : TaskM A) (f : A -> TaskM B) :
  moves R m -> (forall a, moves R (f a)) -> moves R (m ≫= f).
Proof.
  intros Hm Hf t w r t' w'. unfold mbind, M_bind.
  destruct (m (t, w)) as [[a|e] [t1 w1]] eqn:E.
  - intros E2. eapply R_trans; [eapply Hm, E | eapply Hf, E2].
  - intros [= <- <- <-]. eapply Hm, E.
Qed.

Lemma moves_try {A} (body : TaskM A) (handler : exn -> TaskM A) :
  moves R body -> (forall e, moves R (handler e)) ->
  moves R (try_except body handler).
Proof.
  intros Hm Hf t w r t' w'. unfold try_except.
  destruct (body (t, w)) as [[a|e] [t1 w1]] eqn:E.
  - intros [= <- <- <-]. eapply Hm, E.
  - intros E2. eapply R_trans; [eapply Hm, E | eapply Hf, E2].
Qed.

Lemma moves_self : moves R self.
Proof. intros t w r t' w' [= <- <- <-]. apply R_refl. Qed.

Lemma moves_datetime_now : moves R datetime_now.
Proof. intros t w r t' w' [= <- <- <-]. apply R_refl. Qed.

Lemma moves_update (f : Task -> Task) : moves R (update f).
Proof. intros t w r t' w' [= <- <- <-]. apply R_refl. Qed.

Lemma moves_logger lvl msg : moves R (logger lvl msg).
Proof. intros t w r t' w' [= <- <- <-]. apply R_log. Qed.

Lemma moves_cancel_job h : moves R (cancel_job h).
Proof. intros t w r t' w' [= <- <- <-]. apply R_jobs. Qed.

Lemma moves_job_do j : moves R (job_do j).
Proof.
  intros t w r t' w'. unfold job_do. simpl.
  destruct (job_do_ok j); intros [= <- <- <-]; [apply R_jobs | apply R_refl].
Qed.

Lemma moves_call_function : moves R call_function.
Proof.
  intros t w r t' w'. unfold call_function. simpl.
  destruct (function t (now w) (calls w)) as [r0 finish].
  intros [= <- <- <-]. apply R_call.
Qed.

Ltac moves_step :=
  first
    [ apply moves_ret | apply moves_raise | apply moves_expect
    | apply moves_self | apply moves_datetime_now | apply moves_logger
    | apply moves_cancel_job | apply moves_job_do | apply moves_update
    | apply moves_call_function
    | apply moves_bind; [|intros ?]
    | apply moves_try; [|intros ?]
    | match goal with |- moves R (if ?b then _ else _) => destruct b end
    | match goal with |- moves R (match ?x with _ => _ end) => destruct x end ].

Lemma moves_run : moves R run.
Proof. unfold run. repeat moves_step. Qed.

Lemma moves__schedule_task : moves R _schedule_task.
Proof.
  unfold _schedule_task, schedule_interval, schedule_cron, schedule_once,
    scheduled, building, cron_field.
  repeat first [apply moves_run | moves_step].
Qed.

End WorldFrame.

(** Neither [Task.run] nor [_schedule_task] touches [tasks.json]. *)
Lemma same_disk_run : moves same_disk run.
Proof. apply moves_run; unfold same_disk; intros; simpl; intuition congruence. Qed.

Lemma same_disk__schedule_task : moves same_disk _schedule_task.
Proof.
  apply moves__schedule_task; unfold same_disk; intros; simpl;
    intuition congruence.
Qed.

(** *** Registration and removal together *)

(** X3. [add_task] with an id that is not in the registry returns true; the
    task is in the registry under its id with the configuration it was
    built with, the other tasks are as they were, and [get_tasks()] is one
    longer. *)
Theorem add_task_registers (task : Task) s w :
  tasks s !! task_id task = None ->
  (add_task task (s, w)).1 = Returned true /\
  (exists t',
     get_task (add_task task (s, w)).2.1 (task_id task) = Some t' /\
     same_config task t') /\
  (forall k, k <> task_id task ->
     get_task (add_task task (s, w)).2.1 k = get_task s k) /\
  length (get_tasks (add_task task (s, w)).2.1) = S (length (get_tasks s)).
Proof.
  intros Hfresh.
  destruct (add_task_fresh task s w Hfresh) as (b & t' & w' & _ & Hk & ->).
  unfold get_task, get_tasks, with_task. simpl.
  split; [reflexivity|]. split; [|split].
  - exists t'. split; [apply lookup_insert_eq | apply Hk].
  - intros k Hk'. now apply lookup_insert_ne.
  - rewrite !length_fmap, !length_map_to_list.
    now apply map_size_insert_None.
Qed.

(** X4. [remove_task] after [add_task] of a new id, whatever the clock and
    the log have become in between, returns true and gives the registry
    back as it was before the two. *)
Theorem remove_task_undoes_add_task (task : Task) s w w2 :
  tasks s !! task_id task = None ->
  (remove_task (task_id task) ((add_task task (s, w)).2.1, w2)).1 =
    Returned true /\
  tasks (remove_task (task_id task) ((add_task task (s, w)).2.1, w2)).2.1 =
    tasks s.
Proof.
  intros Hfresh.
  destruct (add_task_fresh task s w Hfresh) as (b & t' & w' & _ & _ & ->).
  cbn [fst snd].
  rewrite (remove_task_registered _ _ w2 t' (lookup_with_task _ _ _)).
  split; [reflexivity|]. unfold without_task, with_task. simpl.
  rewrite delete_insert_eq. now apply delete_id.
Qed.

(** *** The file *)

Lemma enable_task_registered (tid : string) s w (t : Task) :
  tasks s !! tid = Some t ->
  exists b t' w',
    _schedule_task (set_enabled true t, w) = (Returned b, (t', w')) /\
    enable_task tid (s, w) =
      (Returned true,
       (with_task tid t' s,
        add_log "INFO" ("Enabled task " ++ tid ++ " (" ++ name t ++ ")")
          (saved (with_task tid t' s) w'))).
Proof.
  intros Ht.
  destruct (_schedule_task_returns (set_enabled true t) w)
    as (b & t' & w' & Hs & _).
  exists b, t', w'. split; [exact Hs|].
  unfold enable_task. sched_unfold. rewrite Ht.
  rewrite (update_on_task tid _ s w t Ht).
  rewrite (on_task_eq _ _ _ _ _ _ _ _ (lookup_with_task _ _ _) Hs).
  now rewrite with_task_twice, _save_tasks_eq.
Qed.

Lemma disable_task_eq (tid : string) s w (t : Task) :
  tasks s !! tid = Some t ->
  disable_task tid (s, w) =
    (Returned true,
     (with_task tid (set_job None (set_enabled false t)) s,
      add_log "INFO" ("Disabled task " ++ tid ++ " (" ++ name t ++ ")")
        (saved (with_task tid (set_job None (set_enabled false t)) s)
           (cancelled t w)))).
Proof.
  intros Ht. unfold disable_task, cancelled. sched_unfold. rewrite Ht.
  rewrite (update_on_task tid _ s w t Ht).
  destruct (job t) as [h|] eqn:Hj.
  - rewrite (cancel_on_task tid h _ w _ (lookup_with_task _ _ _)).
    rewrite with_task_twice.
    rewrite (update_on_task tid _ _ _ _ (lookup_with_task _ _ _)).
    now rewrite with_task_twice, _save_tasks_eq.
  - rewrite _save_tasks_eq.
    replace (set_job None (set_enabled false t)) with (set_enabled false t)
      by (unfold set_job, set_enabled; simpl; now rewrite Hj).
    reflexivity.
Qed.

Lemma stop_running s w :
  running s = true ->
  stop (s, w) =
    (Returned tt,
     (set_running false s,
      add_log "INFO" "Stopped scheduler" (saved (set_running false s) w))).
Proof.
  intros Hr. unfold stop. sched_unfold. rewrite Hr. simpl.
  now rewrite _save_tasks_eq.
Qed.

Lemma same_disk_cancelled (t : Task) (w : world) : same_disk w (cancelled t w).
Proof. unfold cancelled, same_disk. now destruct (job t). Qed.

(** The file after a save that could open it, and after one that could
    not. *)
Lemma file_after_save s w lvl msg :
  disk_ok w = true -> file_current (s, add_log lvl msg (saved s w)).
Proof.
  intros Hd. unfold file_current, saved, get_tasks. simpl. now rewrite Hd.
Qed.

Lemma file_after_failed_save s w lvl msg :
  disk_ok w = false ->
  tasks_json (add_log lvl msg (saved s w)) = tasks_json w /\
  In ("ERROR", "Error saving tasks: tasks.json")
    (logs (add_log lvl msg (saved s w))).
Proof.
  intros Hd. unfold saved. rewrite Hd. simpl. split; [reflexivity|].
  apply in_or_app. left. apply in_or_app. right. now left.
Qed.

(** The worlds that the mutating operations hand to [_save_tasks]: the
    file is as the operation found it. *)
Lemma run_task_saves (tid : string) s w (t : Task) :
  tasks s !! tid = Some t ->
  exists v t' w',
    same_disk w w' /\
    run_task tid (s, w) =
      (Returned v, (with_task tid t' s, saved (with_task tid t' s) w')).
Proof.
  intros Ht. destruct (run_never_raises t w) as (v & [t' w'] & Hr).
  exists v, t', w'. split; [eapply same_disk_run, Hr|].
  now apply run_task_registered with (t := t).
Qed.

(** X5. When [tasks.json] can be opened, it holds the records of the tasks
    of the registry after every operation that changes a task: [add_task]
    of a new id, and [remove_task], [enable_task], [disable_task] and
    [run_task] on a registered one, and after [stop] of a running
    scheduler. *)
Theorem mutations_are_persisted s w :
  disk_ok w = true ->
  (forall task, tasks s !! task_id task = None ->
     file_current (add_task task (s, w)).2) /\
  (forall tid, is_Some (tasks s !! tid) ->
     file_current (remove_task tid (s, w)).2 /\
     file_current (enable_task tid (s, w)).2 /\
     file_current (disable_task tid (s, w)).2 /\
     file_current (run_task tid (s, w)).2) /\
  (running s = true -> file_current (stop (s, w)).2).
Proof.
  intros Hd. split; [|split].
  - intros task Hfresh.
    destruct (add_task_fresh task s w Hfresh) as (b & t' & w' & Hs & _ & ->).
    apply file_after_save.
    destruct (same_disk__schedule_task _ _ _ _ _ Hs) as [-> _]. exact Hd.
  - intros tid [t Ht]. repeat split.
    + rewrite (remove_task_registered tid s w t Ht). apply file_after_save.
      destruct (same_disk_cancelled t w) as [-> _]. exact Hd.
    + destruct (enable_task_registered tid s w t Ht) as (b & t' & w' & Hs & ->).
      apply file_after_save.
      destruct (same_disk__schedule_task _ _ _ _ _ Hs) as [-> _]. exact Hd.
    + rewrite (disable_task_eq tid s w t Ht). apply file_after_save.
      destruct (same_disk_cancelled t w) as [-> _]. exact Hd.
    + destruct (run_task_saves tid s w t Ht) as (v & t' & w' & [Hd' _] & ->).
      unfold file_current, saved, get_tasks. simpl. now rewrite Hd', Hd.
  - intros Hr. rewrite (stop_running s w Hr). now apply file_after_save.
Qed.

(** X6. When [tasks.json] cannot be opened, the operations go on as
    before: [add_task] of a new id still returns true and registers the
    task, [remove_task], [enable_task] and [disable_task] on a registered
    task still return true; the file is left as it was and the failure is
    in the log. *)
Theorem save_failure_is_only_logged s w :
  disk_ok w = false ->
  let failure (l : list (string * string)) :=
    exists msg, In ("ERROR", "Error saving tasks: " ++ msg) l in
  (forall task, tasks s !! task_id task = None ->
     (add_task task (s, w)).1 = Returned true /\
     is_Some (tasks (add_task task (s, w)).2.1 !! task_id task) /\
     tasks_json (add_task task (s, w)).2.2 = tasks_json w /\
     failure (logs (add_task task (s, w)).2.2)) /\
  (forall tid, is_Some (tasks s !! tid) ->
     ((remove_task tid (s, w)).1 = Returned true /\
      tasks_json (remove_task tid (s, w)).2.2 = tasks_json w /\
      failure (logs (remove_task tid (s, w)).2.2)) /\
     ((enable_task tid (s, w)).1 = Returned true /\
      tasks_json (enable_task tid (s, w)).2.2 = tasks_json w /\
      failure (logs (enable_task tid (s, w)).2.2)) /\
     ((disable_task tid (s, w)).1 = Returned true /\
      tasks_json (disable_task tid (s, w)).2.2 = tasks_json w /\
      failure (logs (disable_task tid (s, w)).2.2))).
Proof.
  intros Hd failure. split.
  - intros task Hfresh.
    destruct (add_task_fresh task s w Hfresh) as (b & t' & w' & Hs & _ & ->).
    destruct (same_disk__schedule_task _ _ _ _ _ Hs) as [Hd' Hf].
    rewrite Hd in Hd'.
    destruct (file_after_failed_save (with_task (task_id task) t' s) w'
                "INFO" ("Added task " ++ label task) Hd') as [E Hin].
    cbn [fst snd]. rewrite E, Hf.
    split; [reflexivity|]. split; [|split; [reflexivity | eexists; exact Hin]].
    rewrite lookup_with_task. eauto.
  - intros tid [t Ht]. split; [|split].
    + rewrite (remove_task_registered tid s w t Ht). cbn [fst snd].
      destruct (same_disk_cancelled t w) as [Hd' Hf]. rewrite Hd in Hd'.
      destruct (file_after_failed_save (without_task tid s) (cancelled t w)
                  "INFO" ("Removed task " ++ tid ++ " (" ++ name t ++ ")") Hd')
        as [E Hin].
      rewrite E, Hf. repeat split; eexists; exact Hin.
    + destruct (enable_task_registered tid s w t Ht) as (b & t' & w' & Hs & ->).
      destruct (same_disk__schedule_task _ _ _ _ _ Hs) as [Hd' Hf].
      rewrite Hd in Hd'. cbn [fst snd].
      destruct (file_after_failed_save (with_task tid t' s) w'
                  "INFO" ("Enabled task " ++ tid ++ " (" ++ name t ++ ")") Hd')
        as [E Hin].
      rewrite E, Hf. repeat split; eexists; exact Hin.
    + rewrite (disable_task_eq tid s w t Ht). cbn [fst snd].
      destruct (same_disk_cancelled t w) as [Hd' Hf]. rewrite Hd in Hd'.
      destruct (file_after_failed_save
                  (with_task tid (set_job None (set_enabled false t)) s)
                  (cancelled t w)
                  "INFO" ("Disabled task " ++ tid ++ " (" ++ name t ++ ")") Hd')
        as [E Hin].
      rewrite E, Hf. repeat split; eexists; exact Hin.
Qed.

Lemma same_disk_refl w : same_disk w w.
Proof. now unfold same_disk. Qed.

Lemma same_disk_trans w1 w2 w3 :
  same_disk w1 w2 -> same_disk w2 w3 -> same_disk w1 w3.
Proof. unfold same_disk. intuition congruence. Qed.

Lemma same_disk_on_task {A} (k : string) (m : TaskM A) s w :
  moves same_disk m -> same_disk w (on_task k m (s, w)).2.2.
Proof.
  intros Hm. unfold on_task. cbn [fst snd].
  destruct (tasks s !! k) as [t|]; [|apply same_disk_refl].
  destruct (m (t, w)) as [r [t' w']] eqn:E. simpl. eapply Hm, E.
Qed.

Lemma same_disk_run_job (tid : string) s w :
  same_disk w (run_job tid (s, w)).2.2.
Proof.
  unfold run_job. sched_unfold.
  destruct (tasks s !! tid) as [t|]; [|apply same_disk_refl].
  destruct (job t) as [h|]; [|apply same_disk_refl].
  destruct (bool_decide (h ∈ jobs w)); [|apply same_disk_refl].
  pose proof (same_disk_on_task tid run s w same_disk_run) as H.
  destruct (on_task tid run (s, w)) as [[v|e] [s' w']]; exact H.
Qed.

Lemma same_disk_schedule_registered (tid : string) s w :
  same_disk w (schedule_registered tid (s, w)).2.2.
Proof.
  unfold schedule_registered. sched_unfold.
  pose proof (same_disk_on_task tid _schedule_task s w same_disk__schedule_task)
    as H.
  destruct (on_task tid _schedule_task (s, w)) as [[v|e] [s' w']]; exact H.
Qed.

Lemma same_disk_for_each {A} (body : A -> SchedM unit) (l : list A) :
  (forall a s w, same_disk w (body a (s, w)).2.2) ->
  forall s w, same_disk w (for_each l body (s, w)).2.2.
Proof.
  intros Hbody. induction l as [|a l IH]; intros s w; [apply same_disk_refl|].
  simpl. unfold mbind, M_bind.
  pose proof (Hbody a s w) as H1.
  destruct (body a (s, w)) as [[[]|e] [s1 w1]]; [|exact H1].
  eapply same_disk_trans; [exact H1 | apply IH].
Qed.

(** X7. A turn of the background loop and [start] never write
    [tasks.json]: the runs that the loop makes are in the file only after a
    later operation has saved. *)
Theorem loop_and_start_never_save (due : list string) s w :
  same_disk w (_run_scheduler_turn due (s, w)).2.2 /\
  same_disk w (start (s, w)).2.2.
Proof.
  split.
  - unfold _run_scheduler_turn, try_except, mbind, M_bind, this. cbn [fst snd].
    destruct (running s); [|apply same_disk_refl].
    pose proof (same_disk_for_each run_job due same_disk_run_job s w) as H.
    destruct (for_each due run_job (s, w)) as [[[]|e] [s1 w1]];
      unfold same_disk in *; simpl in *; exact H.
  - unfold start.
    cbv beta iota zeta delta [mbind M_bind mret M_ret this assign_running slogger].
    cbn [fst snd]. destruct (running s); cbn [fst snd];
      [unfold same_disk; simpl; auto|].
    match goal with
    | |- context [for_each ?ks schedule_registered ?st] =>
        pose proof (same_disk_for_each schedule_registered ks
                      same_disk_schedule_registered (set_running true s) w) as H;
        destruct (for_each ks schedule_registered st) as [[[]|e] [s1 w1]]
    end; unfold same_disk in *; simpl in *; exact H.
Qed.

(** *** Enabling *)

Lemma _schedule_task_interval_eq (t : Task) (w : world) j :
  enabled t = true ->
  schedule_type t = "interval" ->
  job_attr "seconds" (every (interval t * one)) = Some j ->
  job_do_ok j = true ->
  _schedule_task (t, w) =
    (Returned true,
     (set_next_run (Some (now w + timedelta_seconds (interval t)))
        (set_job (Some (fresh w)) t),
      add_log "INFO" ("Scheduled task " ++ label t)
        (set_jobs (jobs (cancelled t w) ++ [fresh w]) (S (fresh w))
           (cancelled t w)))).
Proof.
  intros He Ht Hj Hdo.
  unfold _schedule_task, schedule_interval, scheduled, building, job_do,
    cancel_job, cancelled.
  monad_unfold.
  destruct (job t) as [h|]; simpl;
    rewrite He, Ht; simpl; rewrite Hj, Hdo; reflexivity.
Qed.

(** X8. [enable_task] on a registered interval task, when the package
    takes the job, returns true and leaves the task enabled with a job on
    the job list and [next_run = now + interval] seconds, whatever
    [last_run] is; [run_count] and [last_run] are kept and no work-unit is
    invoked. *)
Theorem enable_task_restarts_interval (tid : string) s w (t : Task) j :
  tasks s !! tid = Some t ->
  schedule_type t = "interval" ->
  job_attr "seconds" (every (interval t * one)) = Some j ->
  job_do_ok j = true ->
  (enable_task tid (s, w)).1 = Returned true /\
  calls (enable_task tid (s, w)).2.2 = calls w /\
  exists t',
    tasks (enable_task tid (s, w)).2.1 !! tid = Some t' /\
    enabled t' = true /\
    next_run t' = Some (now w + timedelta_seconds (interval t)) /\
    run_count t' = run_count t /\
    last_run t' = last_run t /\
    exists h, job t' = Some h /\ h ∈ jobs (enable_task tid (s, w)).2.2.
Proof.
  intros Ht Hty Hj Hdo.
  destruct (enable_task_registered tid s w t Ht) as (b & t' & w' & Hs & ->).
  rewrite (_schedule_task_interval_eq (set_enabled true t) w j
             eq_refl Hty Hj Hdo) in Hs.
  injection Hs as <- <- <-. cbn [fst snd].
  split; [reflexivity|]. split.
  - simpl. rewrite calls_saved. simpl. unfold cancelled. simpl.
    now destruct (job t).
  - eexists. split; [apply lookup_with_task|]. simpl. repeat split.
    exists (fresh w). split; [reflexivity|].
    rewrite jobs_saved. simpl. apply elem_of_app. right.
    apply list_elem_of_here.
Qed.

Lemma enable_task_restarts_interval_aux (tid : string) s w (t : Task) j :
  tasks s !! tid = Some t ->
  schedule_type t = "interval" ->
  job_attr "seconds" (every (interval t * one)) = Some j ->
  job_do_ok j = true ->
  exists t',
    tasks (enable_task tid (s, w)).2.1 !! tid = Some t' /\
    enabled t' = true /\
    next_run t' = Some (now w + timedelta_seconds (interval t)) /\
    run_count t' = run_count t /\
    last_run t' = last_run t.
Proof.
  intros Ht Hty Hj Hdo.
  destruct (enable_task_registered tid s w t Ht) as (b & t' & w' & Hs & ->).
  rewrite (_schedule_task_interval_eq (set_enabled true t) w j
             eq_refl Hty Hj Hdo) in Hs.
  injection Hs as <- <- <-. cbn [fst snd].
  eexists. split; [apply lookup_with_task|]. simpl. repeat split.
Qed.

(** X9. [disable_task] and then [enable_task], at any later time: the
    interval task is enabled again with the [run_count] and [last_run] it
    had, and [next_run] is counted from the time of [enable_task]. *)
Theorem disable_then_enable_keeps_history (tid : string) s w w2 (t : Task) j :
  tasks s !! tid = Some t ->
  schedule_type t = "interval" ->
  job_attr "seconds" (every (interval t * one)) = Some j ->
  job_do_ok j = true ->
  exists t',
    tasks (enable_task tid ((disable_task tid (s, w)).2.1, w2)).2.1 !! tid =
      Some t' /\
    enabled t' = true /\
    run_count t' = run_count t /\
    last_run t' = last_run t /\
    next_run t' = Some (now w2 + timedelta_seconds (interval t)).
Proof.
  intros Ht Hty Hj Hdo. rewrite (disable_task_eq tid s w t Ht). cbn [fst snd].
  destruct (enable_task_restarts_interval_aux tid
              (with_task tid (set_job None (set_enabled false t)) s) w2
              (set_job None (set_enabled false t)) j)
    as (t' & Ht' & He & Hn & Hrc & Hl); try assumption.
  - apply lookup_with_task.
  - exists t'. auto.
Qed.

(** *** Firing *)

(** X10. The end time is the last moment at which a task fires.  An
    enabled task below its cap whose [end_time] is [e] is run when the clock
    reads [e] or less; when the clock reads more, [Task.run] returns [None]
    without invoking the work-unit, disables the task and keeps
    [run_count], [last_run] and [next_run]. *)
Theorem end_time_is_inclusive (t : Task) (w : world) (e : Z) :
  enabled t = true ->
  max_runs_reached t = false ->
  end_time t = Some e ->
  (now w <= e ->
   calls (run (t, w)).2.2 = (calls w ++ [task_id t])%list) /\
  (e < now w ->
   (run (t, w)).1 = Returned PyNone /\
   calls (run (t, w)).2.2 = calls w /\
   (run (t, w)).2.1 = set_enabled false t).
Proof.
  intros He Hm Hend.
  assert (Hp : end_time_passed t (now w) = (e <? now w))
    by (unfold end_time_passed; now rewrite Hend).
  split.
  - intros Hle. rewrite run_calls. unfold within_limits.
    rewrite He, Hm, Hp. simpl.
    now rewrite (proj2 (Z.ltb_ge e (now w)) Hle).
  - intros Hlt.
    rewrite (run_end_time_passed t w He Hm)
      by (rewrite Hp; now apply Z.ltb_lt).
    simpl. auto.
Qed.

(** X11. [run_task] on a registered task within its limits whose work-unit
    returns: the caller gets the result of the work-unit, the task has one
    more run and [last_run] is the time at which the work-unit was done;
    the configuration of the task and the other tasks are as before. *)
Theorem run_task_counts_the_run (tid : string) s w (t : Task) v finish :
  tasks s !! tid = Some t ->
  within_limits t w = true ->
  function t (now w) (calls w) = (Returned v, finish) ->
  (run_task tid (s, w)).1 = Returned v /\
  (exists t',
     tasks (run_task tid (s, w)).2.1 !! tid = Some t' /\
     run_count t' = run_count t + 1 /\
     last_run t' = Some finish /\
     same_config t t') /\
  (forall k, k <> tid ->
     tasks (run_task tid (s, w)).2.1 !! k = tasks s !! k).
Proof.
  intros Ht Hl Hf.
  rewrite (run_task_registered tid s w t _ _ _ Ht (run_returns t w v finish Hl Hf)).
  cbn [fst snd]. split; [reflexivity|]. split.
  - exists (fired t finish). split; [apply lookup_with_task|].
    split; [apply run_count_fired|]. split; [|apply same_config_fired].
    unfold fired.
    destruct (String.eqb (schedule_type t) "interval"); [reflexivity|].
    destruct (String.eqb (schedule_type t) "cron"); [reflexivity|].
    destruct (String.eqb (schedule_type t) "once"); reflexivity.
  - intros k Hk. unfold with_task. simpl. now apply lookup_insert_ne.
Qed.

(** X12. A firing never computes the next run of a cron task: whatever
    [Task.run] does, the [next_run] of a cron task is afterwards what it
    was before, so that it stays at the time that the registration
    computed. *)
Theorem cron_firing_keeps_next_run (t : Task) (w : world) :
  schedule_type t = "cron" ->
  next_run (run (t, w)).2.1 = next_run t.
Proof.
  intros Hty.
  destruct (run_cases t w) as [He|msg He Hlim|e finish Hl Hf|v finish Hl Hf];
    simpl; try reflexivity.
  unfold fired. now rewrite Hty.
Qed.

(** *** One-shot tasks *)

(** The one-shot branch of [_schedule_task], when [start_time] is absent
    or not after the clock: the task is run at once. *)
Lemma _schedule_task_once_now (t : Task) (w : world) :
  enabled t = true ->
  schedule_type t = "once" ->
  job t = None ->
  match start_time t with Some st => st <= now w | None => True end ->
  _schedule_task (t, w) =
    (Returned true,
     (set_enabled false (set_next_run None (run (t, w)).2.1),
      add_log "INFO" ("Scheduled task " ++ label t) (run (t, w)).2.2)).
Proof.
  intros He Hty Hjob Hst.
  assert (Hcmp : match start_time t with
                 | Some st => now w <? st
                 | None => false
                 end = false).
  { destruct (start_time t); [now apply Z.ltb_ge | reflexivity]. }
  destruct (run (t, w)) as [r [t1 w1]] eqn:Hr.
  pose proof (keeps_run _ _ _ Hr) as (Hc & _). simpl in Hc.
  destruct Hc as (Hid & Hname & _).
  destruct (run_never_raises t w) as (v & st' & Hv).
  rewrite Hr in Hv. injection Hv as -> _.
  unfold _schedule_task, schedule_once, scheduled. monad_unfold.
  rewrite Hjob, He, Hty. simpl. rewrite Hcmp, Hr. simpl.
  unfold label. simpl. rewrite Hid, Hname. reflexivity.
Qed.

(** X13. A one-shot task whose [start_time] is absent or not in the future
    is run by its registration: [add_task] returns true, the work-unit is
    invoked once if the task is within its limits, and the task ends
    disabled, without [next_run] and without a job, whether the work-unit
    returned or raised. *)
Theorem past_one_shot_runs_at_registration (task : Task) s w :
  tasks s !! task_id task = None ->
  enabled task = true ->
  schedule_type task = "once" ->
  job task = None ->
  match start_time task with Some st => st <= now w | None => True end ->
  (add_task task (s, w)).1 = Returned true /\
  calls (add_task task (s, w)).2.2 =
    (if within_limits task w then (calls w ++ [task_id task])%list
     else calls w) /\
  exists t',
    tasks (add_task task (s, w)).2.1 !! task_id task = Some t' /\
    enabled t' = false /\ next_run t' = None /\ job t' = None.
Proof.
  intros Hfresh He Hty Hjob Hst.
  destruct (add_task_fresh task s w Hfresh) as (b & t' & w' & Hs & _ & ->).
  rewrite (_schedule_task_once_now task w He Hty Hjob Hst) in Hs.
  injection Hs as <- <- <-. cbn [fst snd].
  split; [reflexivity|]. split.
  - simpl. rewrite calls_saved. simpl. apply run_calls.
  - eexists. split; [apply lookup_with_task|]. simpl.
    repeat split.
    destruct (run_cases task w); simpl; try assumption.
    unfold fired. rewrite Hty. simpl. assumption.
Qed.

(** X14. A one-shot task that has run can run again: [enable_task] on it,
    when its [start_time] is not in the future, runs the work-unit at once
    and leaves the task disabled again. *)
Theorem enable_task_reruns_one_shot (tid : string) s w (t : Task) :
  tasks s !! tid = Some t ->
  task_id t = tid ->
  schedule_type t = "once" ->
  job t = None ->
  max_runs_reached t = false ->
  end_time_passed t (now w) = false ->
  match start_time t with Some st => st <= now w | None => True end ->
  (enable_task tid (s, w)).1 = Returned true /\
  calls (enable_task tid (s, w)).2.2 = (calls w ++ [tid])%list /\
  exists t',
    tasks (enable_task tid (s, w)).2.1 !! tid = Some t' /\
    enabled t' = false.
Proof.
  intros Ht Hid Hty Hjob Hm Hp Hst.
  destruct (enable_task_registered tid s w t Ht) as (b & t' & w' & Hs & ->).
  rewrite (_schedule_task_once_now (set_enabled true t) w eq_refl Hty Hjob Hst)
    in Hs.
  injection Hs as <- <- <-. cbn [fst snd].
  split; [reflexivity|]. split.
  - simpl. rewrite calls_saved. simpl. rewrite run_calls.
    unfold within_limits. simpl.
    change (max_runs_reached (set_enabled true t)) with (max_runs_reached t).
    change (end_time_passed (set_enabled true t) (now w))
      with (end_time_passed t (now w)).
    rewrite Hm, Hp. simpl. now rewrite Hid.
  - eexists. split; [apply lookup_with_task | reflexivity].
Qed.

(** The one-shot branch when [start_time] is after the clock. *)
Lemma _schedule_task_once_later (t : Task) (w : world) (st : Z) j :
  enabled t = true ->
  schedule_type t = "once" ->
  start_time t = Some st ->
  now w < st ->
  job_attr "seconds" (every (st - now w)) = Some j ->
  job_do_ok j = true ->
  _schedule_task (t, w) =
    (Returned true,
     (set_next_run (Some st) (set_job (Some (fresh w)) t),
      add_log "INFO" ("Scheduled task " ++ label t)
        (set_jobs (jobs (cancelled t w) ++ [fresh w]) (S (fresh w))
           (cancelled t w)))).
Proof.
  intros He Hty Hst Hlt Hj Hdo.
  unfold _schedule_task, schedule_once, scheduled, building, job_do,
    cancel_job, cancelled.
  monad_unfold.
  destruct (job t) as [h|]; simpl;
    rewrite He, Hty; simpl; rewrite Hst;
    rewrite (proj2 (Z.ltb_lt _ _) Hlt); simpl; rewrite Hj, Hdo; reflexivity.
Qed.

(** X15. A one-shot task whose [start_time] is in the future is not run by
    its registration: when the package takes the job, [add_task] returns
    true, no work-unit is invoked, and the task stays enabled with
    [next_run = start_time] and a job on the job list. *)
Theorem future_one_shot_waits (task : Task) s w (st : Z) j :
  tasks s !! task_id task = None ->
  enabled task = true ->
  schedule_type task = "once" ->
  start_time task = Some st ->
  now w < st ->
  job_attr "seconds" (every (st - now w)) = Some j ->
  job_do_ok j = true ->
  (add_task task (s, w)).1 = Returned true /\
  calls (add_task task (s, w)).2.2 = calls w /\
  exists t',
    tasks (add_task task (s, w)).2.1 !! task_id task = Some t' /\
    enabled t' = true /\ next_run t' = Some st /\ run_count t' = run_count task /\
    exists h, job t' = Some h /\ h ∈ jobs (add_task task (s, w)).2.2.
Proof.
  intros Hfresh He Hty Hst Hlt Hj Hdo.
  destruct (add_task_fresh task s w Hfresh) as (b & t' & w' & Hs & _ & ->).
  rewrite (_schedule_task_once_later task w st j He Hty Hst Hlt Hj Hdo) in Hs.
  injection Hs as <- <- <-. cbn [fst snd].
  split; [reflexivity|]. split.
  - simpl. rewrite calls_saved. simpl. unfold cancelled. now destruct (job task).
  - eexists. split; [apply lookup_with_task|]. simpl. repeat split; [exact He|].
    exists (fresh w). split; [reflexivity|].
    rewrite jobs_saved. simpl. apply elem_of_app. right. apply list_elem_of_here.
Qed.

(** *** Cron tasks *)

(** X16. A cron expression that does not have five fields is not
    scheduled: [_schedule_task] returns false and logs the expression, no
    job is made (the old one, if any, is cancelled) and [next_run] is
    kept. *)
Theorem cron_needs_five_fields (t : Task) (w : world) (c : string) :
  enabled t = true ->
  schedule_type t = "cron" ->
  cron t = Some c ->
  length (split c) <> 5%nat ->
  _schedule_task (t, w) =
    (Returned false,
     (set_job None t,
      add_log "ERROR" ("Invalid cron expression: " ++ c) (cancelled t w))).
Proof.
  intros He Hty Hc Hlen.
  unfold _schedule_task, schedule_cron, cancel_job, cancelled. monad_unfold.
  destruct (job t) as [h|] eqn:Hj; simpl; rewrite He, Hty; simpl; rewrite Hc.
  - destruct (split c) as [|? [|? [|? [|? [|? [|? ?]]]]]];
      first [now contradiction Hlen | reflexivity].
  - destruct (split c) as [|? [|? [|? [|? [|? [|? ?]]]]]];
      first [ now contradiction Hlen
            | unfold set_job; simpl; rewrite <- Hj; now destruct t ].
Qed.

(** X17. The [next_run] of a cron task that [_schedule_task] has
    scheduled comes from the minute, hour, day and month fields alone, not
    from the day of the week: it is the clock with these fields replaced
    when that is after the clock, and one day later than that otherwise. *)
Theorem cron_next_run_ignores_weekday (t : Task) (w : world) (c : string)
    (minute hour day month day_of_week : string) t' w' :
  enabled t = true ->
  schedule_type t = "cron" ->
  cron t = Some c ->
  split c = [minute; hour; day; month; day_of_week] ->
  _schedule_task (t, w) = (Returned true, (t', w')) ->
  exists next,
    cron_next_run (now w) minute hour day month = Some next /\
    next_run t' = Some next.
Proof.
  intros He Hty Hc Hsplit H.
  unfold _schedule_task, schedule_cron, scheduled, building, job_do,
    cancel_job, cron_field in H.
  revert H. monad_unfold.
  unfold cron_next_run.
  destruct (job t) as [h|]; simpl; rewrite He, Hty; simpl;
    rewrite Hc, Hsplit; simpl.
  all: repeat match goal with
       | |- context [match ?x with _ => _ end] =>
           lazymatch x with
           | context [match _ with _ => _ end] => fail
           | _ => destruct x eqn:?; simpl; try discriminate
           end
       end.
  all: intros [= <- <-]; simpl; eexists; split; reflexivity.
Qed.

(** *** Records *)

Lemma bind_returned {S A B} (m : M S A) (f : A -> M S B) s b s' :
  (m ≫= f) s = (Returned b, s') ->
  exists a s1, m s = (Returned a, s1) /\ f a s1 = (Returned b, s').
Proof.
  unfold mbind, M_bind. destruct (m s) as [[a|e] s1]; [eauto | discriminate].
Qed.

Lemma getitem_returned {S} (data : pydict) (k : string) (s s' : S) v :
  getitem data k s = (Returned v, s') -> data !! k = Some v /\ s' = s.
Proof.
  unfold getitem, expect. destruct (data !! k); [|discriminate].
  now intros [= -> ->].
Qed.

Lemma as_str_returned {S} (k : string) v (s s' : S) x :
  as_str k v s = (Returned x, s') -> v = PyStr x /\ s' = s.
Proof. destruct v; try discriminate. now intros [= -> ->]. Qed.

Lemma as_int_returned {S} (k : string) v (s s' : S) x :
  as_int k v s = (Returned x, s') -> v = PyInt x /\ s' = s.
Proof. destruct v; try discriminate. now intros [= -> ->]. Qed.

Lemma as_bool_returned {S} (k : string) v (s s' : S) x :
  as_bool k v s = (Returned x, s') -> v = PyBool x /\ s' = s.
Proof. destruct v; try discriminate. now intros [= -> ->]. Qed.

Lemma as_opt_str_returned {S} (k : string) v (s s' : S) x :
  as_opt_str k v s = (Returned x, s') -> s' = s.
Proof. destruct v; try discriminate; now intros [= _ ->]. Qed.

Lemma as_opt_int_returned {S} (k : string) v (s s' : S) x :
  as_opt_int k v s = (Returned x, s') -> s' = s.
Proof. destruct v; try discriminate; now intros [= _ ->]. Qed.

Lemma parse_iso_or_none_returned {S} (k : string) v (s s' : S) x :
  parse_iso_or_none k v s = (Returned x, s') -> s' = s.
Proof.
  unfold parse_iso_or_none. destruct (truthy v); [|now intros [= _ ->]].
  destruct v; try discriminate. monad_unfold.
  destruct (fromisoformat s0); [|discriminate]. now intros [= _ ->].
Qed.

(** X18. [Task.from_dict] returns a task only from a record that has all
    the twelve keys: with one missing, it raises.  The task that it returns
    has the [task_id], [enabled] and [run_count] of the record, the
    work-unit that was passed, and no job. *)
Theorem from_dict_needs_every_key {S} (data : pydict) (f : WorkUnit)
    (s s' : S) (t : Task) :
  from_dict data f s = (Returned t, s') ->
  Forall (fun k => is_Some (data !! k))
    ["task_id"; "name"; "schedule_type"; "interval"; "cron"; "start_time";
     "end_time"; "max_runs"; "enabled"; "run_count"; "last_run"; "next_run"] /\
  data !! "task_id" = Some (PyStr (task_id t)) /\
  data !! "enabled" = Some (PyBool (enabled t)) /\
  data !! "run_count" = Some (PyInt (run_count t)) /\
  function t = f /\ job t = None.
Proof.
  unfold from_dict. intros H.
  repeat match type of H with
         | (_ ≫= _) _ = (Returned _, _) =>
             let E := fresh "E" in
             apply bind_returned in H as (? & ? & E & H)
         end.
  repeat match goal with
         | E : getitem _ _ _ = (Returned _, _) |- _ =>
             apply getitem_returned in E as [? ->]
         | E : as_str _ _ _ = (Returned _, _) |- _ =>
             apply as_str_returned in E as [-> ->]
         | E : as_int _ _ _ = (Returned _, _) |- _ =>
             apply as_int_returned in E as [-> ->]
         | E : as_bool _ _ _ = (Returned _, _) |- _ =>
             apply as_bool_returned in E as [-> ->]
         | E : as_opt_str _ _ _ = (Returned _, _) |- _ =>
             apply as_opt_str_returned in E as ->
         | E : as_opt_int _ _ _ = (Returned _, _) |- _ =>
             apply as_opt_int_returned in E as ->
         | E : parse_iso_or_none _ _ _ = (Returned _, _) |- _ =>
             apply parse_iso_or_none_returned in E as ->
         end.
  injection H as <- <-. simpl.
  repeat split; try assumption.
  repeat (constructor; [eauto|]). constructor.
Qed.

(** *** Loading, whatever the file holds *)

Lemma same_tasks_refl s : same_tasks s s.
Proof.
  split; [reflexivity|]. intros k.
  destruct (tasks s !! k); [apply same_config_refl | exact I].
Qed.

Lemma same_tasks_trans s1 s2 s3 :
  same_tasks s1 s2 -> same_tasks s2 s3 -> same_tasks s1 s3.
Proof.
  intros [Hr1 H1] [Hr2 H2]. split; [congruence|]. intros k.
  specialize (H1 k). specialize (H2 k).
  destruct (tasks s1 !! k), (tasks s2 !! k), (tasks s3 !! k);
    try tauto. eapply same_config_trans; eassumption.
Qed.

Lemma tidy_ret {A} (a : A) : tidy (mret a).
Proof. intros s w r s' w' [= <- <- <-]. split; [apply same_tasks_refl | auto]. Qed.

Lemma tidy_raise {A} (e : exn) : tidy (raise e : SchedM A).
Proof. intros s w r s' w' [= <- <- <-]. split; [apply same_tasks_refl | auto]. Qed.

Lemma tidy_bind {A B} (m : SchedM A) (f : A -> SchedM B) :
  tidy m -> (forall a, tidy (f a)) -> tidy (m ≫= f).
Proof.
  intros Hm Hf s w r s' w'. unfold mbind, M_bind.
  destruct (m (s, w)) as [[a|e] [s1 w1]] eqn:E.
  - intros E2. destruct (Hm _ _ _ _ _ E) as [H1 ->].
    destruct (Hf a _ _ _ _ _ E2) as [H2 ->].
    split; [eapply same_tasks_trans; eassumption | reflexivity].
  - intros [= <- <- <-]. eapply Hm, E.
Qed.

Lemma tidy_this : tidy this.
Proof. intros s w r s' w' [= <- <- <-]. split; [apply same_tasks_refl | auto]. Qed.

Lemma tidy_getitem (data : pydict) (k : string) : tidy (getitem data k).
Proof.
  unfold getitem, expect. destruct (data !! k); [apply tidy_ret | apply tidy_raise].
Qed.

Lemma tidy_as_bool (k : string) v : tidy (as_bool k v).
Proof. destruct v; first [apply tidy_ret | apply tidy_raise]. Qed.

Lemma tidy_as_int (k : string) v : tidy (as_int k v).
Proof. destruct v; first [apply tidy_ret | apply tidy_raise]. Qed.

Lemma tidy_parse_iso_or_none (k : string) v : tidy (parse_iso_or_none k v).
Proof.
  unfold parse_iso_or_none. destruct (truthy v); [|apply tidy_ret].
  destruct v; try apply tidy_raise.
  apply tidy_bind; [|intros; apply tidy_ret].
  unfold expect. destruct (fromisoformat s); [apply tidy_ret | apply tidy_raise].
Qed.

(** An assignment to a field of the run-state of a registered task. *)
Lemma tidy_on_task_update (k : string) (f : Task -> Task) :
  (forall t, same_config t (f t)) -> tidy (on_task k (update f)).
Proof.
  intros Hf s w r s' w'. unfold on_task, update. cbn [fst snd].
  destruct (tasks s !! k) as [t|] eqn:Ht.
  - intros [= <- <- <-]. split; [|reflexivity].
    split; [reflexivity|]. intros k'. simpl.
    rewrite lookup_insert. case_decide as E.
    + subst k'. rewrite Ht. apply Hf.
    + destruct (tasks s !! k'); [apply same_config_refl | exact I].
  - intros [= <- <- <-]. split; [apply same_tasks_refl | reflexivity].
Qed.

Lemma tidy_load_record (task_data : pydict) : tidy (load_record task_data).
Proof.
  unfold load_record.
  repeat first
    [ apply tidy_ret | apply tidy_this | apply tidy_getitem
    | apply tidy_as_bool | apply tidy_as_int | apply tidy_parse_iso_or_none
    | apply tidy_on_task_update; intros; now unfold same_config
    | apply tidy_bind; [|intros ?]
    | match goal with |- tidy (match ?x with _ => _ end) => destruct x end ].
Qed.

Lemma tidy_for_each {A} (body : A -> SchedM unit) (l : list A) :
  (forall a, tidy (body a)) -> tidy (for_each l body).
Proof.
  intros Hbody. induction l as [|a l IH]; [apply tidy_ret|].
  simpl. apply tidy_bind; [apply Hbody | intros; apply IH].
Qed.

Lemma load_tasks_keeps_the_registry_aux s w :
  exists s' w',
    _load_tasks (s, w) = (Returned tt, (s', w')) /\
    same_tasks s s' /\
    (w' = w \/ exists lvl msg, w' = add_log lvl msg w).
Proof.
  unfold _load_tasks. sched_unfold.
  destruct (tasks_json w) as [tasks_data|].
  2: { exists s, w. split; [reflexivity|]. split; [apply same_tasks_refl | auto]. }
  unfold open_config. sched_unfold.
  destruct (disk_ok w).
  2: { do 2 eexists. split; [reflexivity|].
       split; [apply same_tasks_refl | eauto]. }
  destruct (for_each tasks_data load_record (s, w)) as [[[]|e] [s1 w1]] eqn:E;
    destruct (tidy_for_each load_record tasks_data tidy_load_record _ _ _ _ _ E)
      as [Hs ->];
    do 2 eexists; (split; [reflexivity|]); split; eauto.
Qed.

(** X19. [_load_tasks] never raises, whatever [tasks.json] holds and
    whether it can be opened or not, and it neither adds nor removes a
    task: the same ids are registered afterwards, with the same
    configurations.  The world is as before but for at most one record of
    the logger. *)
Theorem load_tasks_keeps_the_registry s w :
  exists s' w',
    _load_tasks (s, w) = (Returned tt, (s', w')) /\
    same_tasks s s' /\
    (w' = w \/ exists lvl msg, w' = add_log lvl msg w).
Proof. apply load_tasks_keeps_the_registry_aux. Qed.

(** X20. A new scheduler has no task and is not running, whatever
    [tasks.json] holds: the file is read, every record in it is skipped,
    and the file is left as it was. *)
Theorem new_scheduler_is_empty (w : world) :
  tasks (__init__ w).2.1 = ∅ /\
  running (__init__ w).2.1 = false /\
  get_tasks (__init__ w).2.1 = [] /\
  tasks_json (__init__ w).2.2 = tasks_json w.
Proof.
  unfold __init__, mbind, M_bind.
  destruct (load_tasks_keeps_the_registry_aux (mkScheduler ∅ false) w)
    as (s' & w' & -> & [Hrun Hs] & Hw).
  unfold slogger. cbn [fst snd].
  assert (Hempty : tasks s' = ∅).
  { apply map_eq. intros k. specialize (Hs k). simpl in Hs.
    rewrite lookup_empty in *. now destruct (tasks s' !! k). }
  split; [exact Hempty|]. split; [exact Hrun|]. split.
  - unfold get_tasks. rewrite Hempty. now rewrite map_to_list_empty.
  - destruct Hw as [->|(lvl & msg & ->)]; reflexivity.
Qed.

(** *** Starting and stopping *)

Lemma running_on_task {A} (k : string) (m : TaskM A) s w :
  running (on_task k m (s, w)).2.1 = running s.
Proof.
  unfold on_task. cbn [fst snd]. destruct (tasks s !! k) as [t|]; [|reflexivity].
  now destruct (m (t, w)) as [r [t' w']].
Qed.

Lemma running_schedule_all (ks : list string) s w :
  running (for_each ks schedule_registered (s, w)).2.1 = running s.
Proof.
  revert s w. induction ks as [|k ks IH]; intros s w; [reflexivity|].
  simpl. unfold mbind at 1, M_bind at 1. unfold schedule_registered at 1.
  unfold mbind at 1, M_bind at 1.
  pose proof (running_on_task k _schedule_task s w) as H.
  destruct (on_task k _schedule_task (s, w)) as [[b|e] [s1 w1]]; simpl in *.
  - now rewrite IH.
  - exact H.
Qed.

Lemma start_when_running s w :
  running s = true ->
  start (s, w) =
    (Returned tt, (s, add_log "WARNING" "Scheduler is already running" w)).
Proof. intros Hr. unfold start. sched_unfold. now rewrite Hr. Qed.

Lemma stop_when_not_running s w :
  running s = false ->
  stop (s, w) =
    (Returned tt, (s, add_log "WARNING" "Scheduler is not running" w)).
Proof. intros Hr. unfold stop. sched_unfold. now rewrite Hr. Qed.

(** X21. [start] leaves the scheduler running and [stop] leaves it not
    running; a second [start], or a second [stop], at any later time, does
    nothing but log a warning: no task is scheduled again and nothing is
    saved. *)
Theorem start_and_stop_twice s w w2 :
  (running (start (s, w)).2.1 = true /\
   start ((start (s, w)).2.1, w2) =
     (Returned tt,
      ((start (s, w)).2.1, add_log "WARNING" "Scheduler is already running" w2)))
  /\
  (running (stop (s, w)).2.1 = false /\
   stop ((stop (s, w)).2.1, w2) =
     (Returned tt,
      ((stop (s, w)).2.1, add_log "WARNING" "Scheduler is not running" w2))).
Proof.
  assert (Hstart : running (start (s, w)).2.1 = true).
  { unfold start.
    cbv beta iota zeta delta [mbind M_bind mret M_ret this assign_running slogger].
    cbn [fst snd]. destruct (running s) eqn:Hr; cbn [fst snd]; [exact Hr|].
    match goal with
    | |- context [for_each ?ks schedule_registered ?st] =>
        pose proof (running_schedule_all ks (set_running true s) w) as H;
        destruct (for_each ks schedule_registered st) as [[[]|e] [s1 w1]]
    end; exact H. }
  assert (Hstop : running (stop (s, w)).2.1 = false).
  { unfold stop. sched_unfold. destruct (running s) eqn:Hr; simpl.
    - now rewrite _save_tasks_eq.
    - exact Hr. }
  split; split; try assumption.
  - now apply start_when_running.
  - now apply stop_when_not_running.
Qed.

(** *** Ids *)

Lemma keys_ok_stable :
  stable (fun _ => True) (fun _ => True) (fun st => keys_ok st.1).
Proof.
  split; simpl.
  - intros s w k t t' w' Hkeys Ht (Hc & _).
    eapply keys_ok_with_task; eauto. apply Hc.
  - auto.
  - intros s w task Hkeys _ _. now apply keys_ok_insert.
  - intros s w k Hkeys _. now apply keys_ok_delete.
  - intros s w b Hkeys. exact Hkeys.
Qed.

Lemma every_op_ok (ops : list Op) :
  Forall (op_ok (fun _ => True) (fun _ => True)) ops.
Proof. apply Forall_forall. intros op _. now destruct op. Qed.

(** X22. Whatever is done with a scheduler since it was made, no operation
    raises and every task of the registry is stored under its own
    [task_id]: [get_task(id)] is a task whose [task_id] is [id], or
    nothing. *)
Theorem tasks_are_under_their_ids (ops : list Op) (w : world) :
  (exec_all ops (__init__ w).2).1 = Returned tt /\
  forall tid t,
    get_task (exec_all ops (__init__ w).2).2.1 tid = Some t -> task_id t = tid.
Proof.
  destruct (__init__ w) as [r [s0 w0]] eqn:Hinit.
  assert (Hkeys : keys_ok s0).
  { unfold __init__, mbind, M_bind in Hinit.
    destruct (load_tasks_keeps_the_registry_aux (mkScheduler ∅ false) w)
      as (s' & w' & E & [_ Hs] & _).
    rewrite E in Hinit. unfold slogger in Hinit. cbn [fst snd] in Hinit.
    injection Hinit as _ <- _. intros k t Ht.
    specialize (Hs k). simpl in Hs. rewrite lookup_empty, Ht in Hs.
    contradiction. }
  cbn [snd].
  destruct (exec_all_step _ _ ops s0 w0 (every_op_ok ops)) as (st' & -> & Hstep).
  split; [reflexivity|].
  apply (sched_step_stable _ _ _ _ _ keys_ok_stable Hstep Hkeys).
Qed.

(** *** The callers *)

Lemma to_dict_in_scheduled (s : TaskScheduler) (k : string) (t : Task) :
  tasks s !! k = Some t -> to_dict t ∈ get_scheduled_tasks s.
Proof.
  intros Ht. unfold get_scheduled_tasks, get_tasks.
  apply list_elem_of_fmap_2.
  apply list_elem_of_fmap. exists (k, t). split; [reflexivity|].
  now apply elem_of_map_to_list.
Qed.

(** X23. [schedule_task] of the agent with a new id returns true, and
    [get_scheduled_tasks] then lists one more record, among them one with
    the id, the name, the schedule type and the interval that were given;
    with an id that is taken it returns false and the list is as
    before. *)
Theorem scheduled_task_is_listed (tid name : string) (f : WorkUnit)
    (ty : string) (iv : Z) cr st en mr s w :
  (tasks s !! tid = None ->
   (schedule_task tid name f ty iv cr st en mr (s, w)).1 = Returned true /\
   length (get_scheduled_tasks
             (schedule_task tid name f ty iv cr st en mr (s, w)).2.1) =
     S (length (get_scheduled_tasks s)) /\
   exists d,
     d ∈ get_scheduled_tasks
           (schedule_task tid name f ty iv cr st en mr (s, w)).2.1 /\
     d !! "task_id" = Some (PyStr tid) /\
     d !! "name" = Some (PyStr name) /\
     d !! "schedule_type" = Some (PyStr ty) /\
     d !! "interval" = Some (PyInt iv)) /\
  (is_Some (tasks s !! tid) ->
   (schedule_task tid name f ty iv cr st en mr (s, w)).1 = Returned false /\
   get_scheduled_tasks
     (schedule_task tid name f ty iv cr st en mr (s, w)).2.1 =
     get_scheduled_tasks s).
Proof.
  unfold schedule_task.
  set (task := Task_init tid name f ty iv cr st en mr true).
  split.
  - intros Hfresh.
    destruct (add_task_fresh task s w Hfresh)
      as (b & t' & w' & _ & (Hc & _) & ->).
    cbn [fst snd]. split; [reflexivity|]. split.
    + unfold get_scheduled_tasks, get_tasks, with_task. simpl.
      rewrite !length_fmap, !length_map_to_list.
      now apply map_size_insert_None.
    + exists (to_dict t'). split.
      * apply to_dict_in_scheduled with (k := tid). apply lookup_with_task.
      * destruct Hc as (Hid & Hname & _ & Hty & Hiv & _).
        subst task. simpl in Hid, Hname, Hty, Hiv.
        repeat split; apply to_dict_entries; simpl;
          rewrite ?Hid, ?Hname, ?Hty, ?Hiv; tauto.
  - intros Hin. unfold add_task. sched_unfold.
    rewrite bool_decide_eq_true_2 by exact Hin. simpl. auto.
Qed.

(** X24. [delete_task] of the API answers with the id and [success] when
    the task was registered, and the task is then out of the registry; when
    it was not, it raises the [HTTPException] 404 and the scheduler is as
    before.  It raises nothing else. *)
Theorem delete_task_answers (tid : string) s w :
  match tasks s !! tid with
  | Some t =>
      (delete_task tid (s, w)).1 =
        Returned (list_to_map [("task_id", PyStr tid); ("success", PyBool true)]) /\
      tasks (delete_task tid (s, w)).2.1 !! tid = None
  | None =>
      (delete_task tid (s, w)).1 =
        Raised (http_exception 404 ("Task " ++ tid ++ " not found")) /\
      (delete_task tid (s, w)).2.1 = s
  end.
Proof.
  unfold delete_task, try_except, mbind, M_bind, slogger. cbn [fst snd].
  destruct (tasks s !! tid) as [t|] eqn:Ht.
  - rewrite (remove_task_registered tid s _ t Ht). simpl.
    split; [reflexivity | apply lookup_delete_eq].
  - assert (E : remove_task tid
                  (s, add_log "INFO" ("Received request to delete task " ++ tid) w)
                = (Returned false,
                   (s, add_log "WARNING" ("Task " ++ tid ++ " does not exist")
                         (add_log "INFO"
                            ("Received request to delete task " ++ tid) w)))).
    { unfold remove_task. sched_unfold. now rewrite Ht. }
    rewrite E. simpl. auto.
Qed.

(** *** Disabled tasks *)

Lemma unknown_id_is_refused_aux (tid : string) s w :
  tasks s !! tid = None ->
  let warned := add_log "WARNING" ("Task " ++ tid ++ " does not exist") w in
  remove_task tid (s, w) = (Returned false, (s, warned)) /\
  enable_task tid (s, w) = (Returned false, (s, warned)) /\
  disable_task tid (s, w) = (Returned false, (s, warned)) /\
  run_task tid (s, w) = (Returned PyNone, (s, warned)).
Proof.
  intros Ht warned. repeat split.
  - unfold remove_task. sched_unfold. now rewrite Ht.
  - unfold enable_task. sched_unfold. now rewrite Ht.
  - unfold disable_task. sched_unfold. now rewrite Ht.
  - now apply run_task_unknown.
Qed.

(** An operation returns. *)
Lemma exec_all_step_one (op : Op) s w :
  exists st', exec op (s, w) = (Returned tt, st').
Proof.
  destruct (exec_step (fun _ => True) (fun _ => True) op s w) as (st' & E & _);
    [now destruct op | eauto].
Qed.


Lemma quiet_of_keeps {A} (m : TaskM A) :
  keeps m ->
  (forall t w r t' w',
     enabled t = false -> m (t, w) = (r, (t', w')) ->
     enabled t' = false /\ calls w' = calls w) ->
  quiet m.
Proof.
  intros Hk Hoff t w r t' w' E.
  destruct (Hk _ _ _ E) as (Hc & _ & _ & Hn).
  split; [exact Hc|]. split; [exact Hn|]. intros He. eapply Hoff; eassumption.
Qed.

Lemma quiet_run : quiet run.
Proof.
  apply quiet_of_keeps; [apply keeps_run|].
  intros t w r t' w' He. rewrite (run_disabled t w He).
  intros [= <- <- <-]. auto.
Qed.

Lemma quiet__schedule_task : quiet _schedule_task.
Proof.
  apply quiet_of_keeps; [apply keeps__schedule_task|].
  intros t w r t' w' He.
  unfold _schedule_task, cancel_job. monad_unfold.
  destruct (job t); simpl; rewrite He; simpl; intros [= <- <- <-]; auto.
Qed.

Lemma quiet_set_enabled_false : quiet (update (set_enabled false)).
Proof.
  apply quiet_of_keeps; [apply keeps_set_enabled|].
  intros t w r t' w' _ [= <- <- <-]. auto.
Qed.

Lemma quiet_set_job j : quiet (update (set_job j)).
Proof.
  apply quiet_of_keeps; [apply keeps_set_job|].
  intros t w r t' w' He [= <- <- <-]. auto.
Qed.

Lemma quiet_cancel_job h : quiet (cancel_job h).
Proof.
  apply quiet_of_keeps; [apply keeps_cancel_job|].
  intros t w r t' w' He [= <- <- <-]. auto.
Qed.

Section Idle.

Variable tid : string.
Variable c : nat.

Lemma idle_world s w w' :
  calls w' = calls w -> idle tid c (s, w) -> idle tid c (s, w').
Proof.
  intros Hcalls (Hkeys & Hcount & Ht). split; [exact Hkeys|].
  split; [|exact Ht]. unfold invocations in *. simpl in *. now rewrite Hcalls.
Qed.

Lemma idle_running s w b : idle tid c (s, w) -> idle tid c (set_running b s, w).
Proof. intros H. exact H. Qed.

(** A task of the registry changes: the task itself by a quiet method, or
    another task by any method. *)
Lemma idle_task (k : string) s w (t t' : Task) w' :
  idle tid c (s, w) ->
  tasks s !! k = Some t ->
  same_config t t' ->
  (exists n, calls w' = (calls w ++ replicate n (task_id t))%list) ->
  (k = tid -> enabled t = false -> enabled t' = false /\ calls w' = calls w) ->
  idle tid c (with_task k t' s, w').
Proof.
  intros (Hkeys & Hcount & t0 & Ht0 & Hoff) Ht Hc (n & Hn) Hsame.
  simpl in *. split; [|split].
  - eapply keys_ok_with_task; eauto. apply Hc.
  - unfold invocations in *. simpl.
    destruct (decide (k = tid)) as [->|Hne].
    + rewrite Ht in Ht0. injection Ht0 as ->.
      destruct (Hsame eq_refl Hoff) as [_ ->]. exact Hcount.
    + rewrite Hn, count_occ_app, Hcount.
      rewrite count_occ_replicate_other; [lia|].
      now rewrite (Hkeys k t Ht).
  - unfold with_task. simpl. rewrite lookup_insert. case_decide as E.
    + subst k. rewrite Ht in Ht0. injection Ht0 as ->.
      exists t'. split; [reflexivity|]. now apply Hsame.
    + eauto.
Qed.

Lemma idle_quiet {A} (k : string) (m : TaskM A) s w t r t' w' :
  quiet m ->
  idle tid c (s, w) ->
  tasks s !! k = Some t ->
  m (t, w) = (r, (t', w')) ->
  idle tid c (with_task k t' s, w').
Proof.
  intros Hq Hidle Ht E. destruct (Hq _ _ _ _ _ E) as (Hc & Hn & Hoff).
  eapply idle_task; eauto.
Qed.

Lemma idle_other {A} (k : string) (m : TaskM A) s w t r t' w' :
  k <> tid ->
  keeps m ->
  idle tid c (s, w) ->
  tasks s !! k = Some t ->
  m (t, w) = (r, (t', w')) ->
  idle tid c (with_task k t' s, w').
Proof.
  intros Hne Hk Hidle Ht E. destruct (Hk _ _ _ E) as (Hc & _ & _ & Hn).
  eapply idle_task; eauto. intros ->. contradiction.
Qed.

Lemma idle_saved s w lvl msg :
  idle tid c (s, w) -> idle tid c (s, add_log lvl msg (saved s w)).
Proof. apply idle_world. simpl. apply calls_saved. Qed.

Lemma idle_add_task (task : Task) s w :
  idle tid c (s, w) -> idle tid c (add_task task (s, w)).2.
Proof.
  intros Hidle. destruct (tasks s !! task_id task) as [t|] eqn:Ht.
  - replace (add_task task (s, w)).2
      with (s, add_log "WARNING" ("Task " ++ task_id task ++ " already exists") w).
    + revert Hidle. now apply idle_world.
    + unfold add_task. sched_unfold.
      rewrite bool_decide_eq_true_2 by (rewrite Ht; eauto). reflexivity.
  - destruct (add_task_fresh task s w Ht) as (b & t' & w' & Hs & _ & ->).
    cbn [snd]. apply idle_saved.
    rewrite <- (with_task_twice (task_id task) task t' s).
    assert (Hne : task_id task <> tid).
    { destruct Hidle as (_ & _ & t0 & Ht0 & _). simpl in Ht0.
      intros E. rewrite E in Ht. congruence. }
    apply (idle_other (task_id task) _schedule_task _ w task (Returned b) t' w'
             Hne keeps__schedule_task); [|apply lookup_with_task | exact Hs].
    destruct Hidle as (Hkeys & Hcount & t0 & Ht0 & Hoff). simpl in *.
    split; [now apply keys_ok_insert|]. split; [exact Hcount|].
    exists t0. split; [|exact Hoff]. unfold with_task. simpl.
    now rewrite lookup_insert_ne.
Qed.

Lemma idle_remove_task (k : string) s w :
  k <> tid -> idle tid c (s, w) -> idle tid c (remove_task k (s, w)).2.
Proof.
  intros Hne Hidle. destruct (tasks s !! k) as [t|] eqn:Ht.
  - rewrite (remove_task_registered k s w t Ht). cbn [snd].
    apply idle_saved.
    assert (Hc : calls (cancelled t w) = calls w)
      by (unfold cancelled; now destruct (job t)).
    apply (idle_world _ w _ Hc).
    destruct Hidle as (Hkeys & Hcount & t0 & Ht0 & Hoff). simpl in *.
    split; [now apply keys_ok_delete|]. split; [exact Hcount|].
    exists t0. split; [|exact Hoff]. simpl. now rewrite lookup_delete_ne.
  - destruct (unknown_id_is_refused_aux k s w Ht) as (-> & _).
    cbn [snd]. revert Hidle. now apply idle_world.
Qed.

Lemma idle_enable_task (k : string) s w :
  k <> tid -> idle tid c (s, w) -> idle tid c (enable_task k (s, w)).2.
Proof.
  intros Hne Hidle. destruct (tasks s !! k) as [t|] eqn:Ht.
  - destruct (enable_task_registered k s w t Ht) as (b & t' & w' & Hs & ->).
    cbn [snd]. apply idle_saved.
    rewrite <- (with_task_twice k (set_enabled true t) t' s).
    apply (idle_other k _schedule_task _ w (set_enabled true t) (Returned b)
             t' w' Hne keeps__schedule_task);
      [|apply lookup_with_task | exact Hs].
    exact (idle_other k (update (set_enabled true)) s w t (Returned tt) _ _
             Hne (keeps_set_enabled true) Hidle Ht eq_refl).
  - destruct (unknown_id_is_refused_aux k s w Ht) as (_ & -> & _).
    cbn [snd]. revert Hidle. now apply idle_world.
Qed.

Lemma idle_disable_task (k : string) s w :
  idle tid c (s, w) -> idle tid c (disable_task k (s, w)).2.
Proof.
  intros Hidle. destruct (tasks s !! k) as [t|] eqn:Ht.
  - rewrite (disable_task_eq k s w t Ht). cbn [snd]. apply idle_saved.
    assert (Hc : calls (cancelled t w) = calls w)
      by (unfold cancelled; now destruct (job t)).
    apply (idle_world _ w _ Hc).
    rewrite <- (with_task_twice k (set_enabled false t)).
    apply (idle_quiet k (update (set_job None)) _ w (set_enabled false t)
             (Returned tt) _ _ (quiet_set_job None));
      [|apply lookup_with_task | reflexivity].
    exact (idle_quiet k (update (set_enabled false)) s w t (Returned tt) _ _
             quiet_set_enabled_false Hidle Ht eq_refl).
  - destruct (unknown_id_is_refused_aux k s w Ht) as (_ & _ & -> & _).
    cbn [snd]. revert Hidle. now apply idle_world.
Qed.

Lemma idle_run_task (k : string) s w :
  idle tid c (s, w) -> idle tid c (run_task k (s, w)).2.
Proof.
  intros Hidle. destruct (tasks s !! k) as [t|] eqn:Ht.
  - destruct (run_never_raises t w) as (v & [t' w'] & Hr).
    rewrite (run_task_registered k s w t _ _ _ Ht Hr). cbn [snd].
    apply (idle_world _ w'); [apply calls_saved|].
    exact (idle_quiet k run s w t (Returned v) t' w' quiet_run Hidle Ht Hr).
  - rewrite (run_task_unknown k s w Ht). cbn [snd].
    revert Hidle. now apply idle_world.
Qed.

Lemma idle_run_job (k : string) s w :
  idle tid c (s, w) -> idle tid c (run_job k (s, w)).2.
Proof.
  intros Hidle. unfold run_job. sched_unfold.
  destruct (tasks s !! k) as [t|] eqn:Ht; [|exact Hidle].
  destruct (job t) as [h|]; [|exact Hidle].
  destruct (bool_decide (h ∈ jobs w)); [|exact Hidle].
  destruct (run_never_raises t w) as (v & [t' w'] & Hr).
  rewrite (on_task_eq k run s w t _ _ _ Ht Hr). cbn [snd].
  exact (idle_quiet k run s w t (Returned v) t' w' quiet_run Hidle Ht Hr).
Qed.

Lemma idle_schedule_registered (k : string) s w :
  idle tid c (s, w) -> idle tid c (schedule_registered k (s, w)).2.
Proof.
  intros Hidle. unfold schedule_registered, on_task. sched_unfold.
  destruct (tasks s !! k) as [t|] eqn:Ht; [|exact Hidle].
  destruct (_schedule_task (t, w)) as [[b|e] [t' w']] eqn:Hs; cbn [snd];
    exact (idle_quiet k _schedule_task s w t _ t' w' quiet__schedule_task
             Hidle Ht Hs).
Qed.

Lemma idle_for_each {A} (body : A -> SchedM unit) (l : list A) :
  (forall a s w, idle tid c (s, w) -> idle tid c (body a (s, w)).2) ->
  forall s w, idle tid c (s, w) -> idle tid c (for_each l body (s, w)).2.
Proof.
  intros Hbody. induction l as [|a l IH]; intros s w Hidle; [exact Hidle|].
  simpl. unfold mbind, M_bind.
  pose proof (Hbody a s w Hidle) as H1.
  destruct (body a (s, w)) as [[[]|e] [s1 w1]]; [|exact H1].
  now apply IH.
Qed.

Lemma idle_exec (op : Op) s w :
  lets_sleep tid op -> idle tid c (s, w) -> idle tid c (exec op (s, w)).2.
Proof.
  intros Hop Hidle.
  destruct op as [task|k|k|k|k| | |due]; simpl in *; unfold mbind, M_bind.
  - pose proof (idle_add_task task s w Hidle) as H.
    now destruct (add_task task (s, w)) as [[b|e] st'].
  - pose proof (idle_remove_task k s w Hop Hidle) as H.
    now destruct (remove_task k (s, w)) as [[b|e] st'].
  - pose proof (idle_enable_task k s w Hop Hidle) as H.
    now destruct (enable_task k (s, w)) as [[b|e] st'].
  - pose proof (idle_disable_task k s w Hidle) as H.
    now destruct (disable_task k (s, w)) as [[b|e] st'].
  - pose proof (idle_run_task k s w Hidle) as H.
    now destruct (run_task k (s, w)) as [[b|e] st'].
  - unfold start.
    cbv beta iota zeta delta [mbind M_bind mret M_ret this assign_running slogger].
    cbn [fst snd]. destruct (running s); cbn [fst snd];
      [revert Hidle; now apply idle_world|].
    match goal with
    | |- context [for_each ?ks schedule_registered ?st] =>
        pose proof (idle_for_each schedule_registered ks
                      idle_schedule_registered (set_running true s) w
                      (idle_running s w true Hidle)) as H;
        destruct (for_each ks schedule_registered st) as [[[]|e] [s1 w1]]
    end; cbn [fst snd] in *; [|exact H].
    revert H. now apply idle_world.
  - unfold stop. sched_unfold. destruct (running s); simpl.
    + rewrite _save_tasks_eq. simpl.
      apply (idle_saved (set_running false s) w). exact Hidle.
    + revert Hidle. now apply idle_world.
  - unfold _run_scheduler_turn, try_except, mbind, M_bind, this. cbn [fst snd].
    destruct (running s); [|exact Hidle].
    pose proof (idle_for_each run_job due idle_run_job s w Hidle) as H.
    destruct (for_each due run_job (s, w)) as [[[]|e] [s1 w1]];
      cbn [fst snd] in *; revert H; now apply idle_world.
Qed.

Lemma idle_exec_all (ops : list Op) :
  Forall (lets_sleep tid) ops ->
  forall s w, idle tid c (s, w) -> idle tid c (exec_all ops (s, w)).2.
Proof.
  unfold exec_all. induction 1 as [|op ops Hop Hops IH]; intros s w Hidle;
    [exact Hidle|].
  simpl. unfold mbind, M_bind.
  pose proof (idle_exec op s w Hop Hidle) as H1.
  destruct (exec_all_step_one op s w) as ([s1 w1] & E).
  rewrite E in *. now apply IH.
Qed.

End Idle.

(** X25. A disabled task stays silent until it is enabled: whatever
    operations follow, among them [run_task] on the task, [start] and the
    turns of the background loop, but not [enable_task] or [remove_task] on
    the task, its work-unit is never invoked and it stays disabled. *)
Theorem disabled_task_is_silent (ops : list Op) s w (tid : string) (t : Task) :
  keys_ok s ->
  tasks s !! tid = Some t ->
  enabled t = false ->
  Forall (lets_sleep tid) ops ->
  invocations tid (exec_all ops (s, w)).2.2 = invocations tid w /\
  exists t',
    tasks (exec_all ops (s, w)).2.1 !! tid = Some t' /\ enabled t' = false.
Proof.
  intros Hkeys Ht Hoff Hops.
  assert (Hidle : idle tid (invocations tid w) (s, w)).
  { split; [exact Hkeys|]. split; [reflexivity|]. eauto. }
  destruct (idle_exec_all tid _ ops Hops s w Hidle)
    as (_ & Hcount & t' & Ht' & Hoff').
  split; [exact Hcount|]. eauto.
Qed.

End MoreProperties.

(** ** The reference implementations keep the promises of [datetime] *)

Lemma stamp_of_bits_bits (p : positive) : stamp_of_bits (stamp_bits p) = p.
Proof. induction p as [p IH|p IH|]; simpl; now rewrite ?IH. Qed.

Lemma stamp_datetime_laws : DatetimeLaws stamp_datetime.
Proof.
  split.
  - intros [|p|p]; simpl; [reflexivity| |]; now rewrite stamp_of_bits_bits.
  - intros [|p|p]; discriminate.
Qed.

(** ** The properties on examples *)

Lemma run_error_keeps_state_witness :
  within_limits (every_minute failing true) quiet_world = true /\
  (run (every_minute failing true, quiet_world)).1 = Returned PyNone /\
  (run (every_minute failing true, quiet_world)).2.1 = every_minute failing true.
Proof.
  split; [reflexivity|].
  destruct (run_error_keeps_state (every_minute failing true) quiet_world
              (Exn "RuntimeError" "boom") 905000000)
    as (H1 & _ & _ & _ & _ & H2); [reflexivity | reflexivity |].
  split; [exact H1 | exact H2].
Defined.

(** C1 fails on the code: [run_task] on a registered task that is disabled
    and within its limits does not invoke the work-unit; it returns
    [None], not the 42 of the work-unit. *)
Lemma run_task_skips_disabled_task :
  tasks (holding (every_minute answer false)) !! "t1" =
    Some (every_minute answer false) /\
  within_limits (every_minute answer true) quiet_world = true /\
  (ref_run_task "t1" (holding (every_minute answer false), quiet_world)).1 =
    Returned PyNone /\
  calls (ref_run_task "t1" (holding (every_minute answer false), quiet_world)).2.2 =
    [].
Proof. vm_compute. repeat split. Qed.

Lemma run_task_fires_within_limits_witness :
  calls (ref_run_task "t1" (holding (every_minute answer true), quiet_world)).2.2 =
    ["t1"] /\
  calls (ref_run_task "t1" (holding (every_minute answer false), quiet_world)).2.2 =
    [].
Proof.
  split.
  - exact (proj1 (run_task_fires_within_limits (D := stamp_datetime) "t1"
                    (holding (every_minute answer true)) quiet_world
                    (every_minute answer true) eq_refl)).
  - exact (proj1 (run_task_fires_within_limits (D := stamp_datetime) "t1"
                    (holding (every_minute answer false)) quiet_world
                    (every_minute answer false) eq_refl)).
Defined.

(** C2 fails on the code: the work-unit raises, and [run_task] returns
    [None] to its caller. *)
Lemma run_task_returns_on_error :
  function (every_minute failing true) (now quiet_world) (calls quiet_world) =
    (Raised (Exn "RuntimeError" "boom"), 905000000) /\
  (ref_run_task "t1" (holding (every_minute failing true), quiet_world)).1 =
    Returned PyNone.
Proof. vm_compute. split; reflexivity. Qed.

Lemma work_unit_error_is_caught_witness :
  (_run_scheduler_turn ["t1"] (started (every_minute failing true))).1 =
    Returned tt /\
  (ref_run_task "t1" (started (every_minute failing true))).1 =
    Returned PyNone /\
  In ("ERROR", "Error running task t1 (demo): boom")
    (logs (ref_run_task "t1" (started (every_minute failing true))).2.2).
Proof.
  destruct (work_unit_error_is_caught (D := stamp_datetime) "t1"
              (started (every_minute failing true)).1
              (started (every_minute failing true)).2
              (set_next_run (Some 960000000)
                 (set_job (Some 1%nat) (every_minute failing true)))
              (Exn "RuntimeError" "boom") 905000000 1%nat)
    as ((H1 & _) & (H2 & H3) & _).
  - vm_compute. reflexivity.
  - reflexivity.
  - reflexivity.
  - vm_compute. apply list_elem_of_here.
  - reflexivity.
  - reflexivity.
  - split; [exact H1|]. split; [exact H2 | exact H3].
Defined.

Lemma add_task_duplicate_witness :
  (ref_add_task (every_minute failing false)
     (registered (every_minute answer true))).1 = Returned false /\
  length (get_tasks
            (ref_add_task (every_minute failing false)
               (registered (every_minute answer true))).2.1) = 1%nat.
Proof.
  destruct (add_task_duplicate (D := stamp_datetime) (L := lenient_schedule)
              (every_minute failing false)
              (registered (every_minute answer true)).1
              (registered (every_minute answer true)).2)
    as (H1 & _ & _ & H2).
  - vm_compute. eexists. reflexivity.
  - split; [exact H1|]. etransitivity; [exact H2|]. vm_compute. reflexivity.
Defined.

(** C3 fails on the code: after [disable_task] the interval task is
    disabled and still has the [next_run] that its registration gave it. *)
Lemma disable_task_leaves_next_run :
  (ref_disable_task "t1" (registered (every_minute answer true))).1 =
    Returned true /\
  (fun t => (schedule_type t, enabled t, next_run t)) <$>
    tasks (ref_disable_task "t1" (registered (every_minute answer true))).2.1
      !! "t1" =
    Some ("interval", false, Some 960000000).
Proof. vm_compute. split; reflexivity. Qed.

Lemma disable_task_keeps_history_witness :
  (ref_disable_task "t1" (registered (every_minute answer true))).1 =
    Returned true /\
  exists t',
    tasks (ref_disable_task "t1" (registered (every_minute answer true))).2.1
      !! "t1" = Some t' /\
    enabled t' = false /\ job t' = None /\
    run_count t' = 0 /\ last_run t' = None /\ next_run t' = Some 960000000.
Proof.
  destruct (disable_task_keeps_history (D := stamp_datetime) "t1"
              (registered (every_minute answer true)).1
              (registered (every_minute answer true)).2
              (set_next_run (Some 960000000)
                 (set_job (Some 0%nat) (every_minute answer true))))
    as (H1 & t' & H2 & H3 & H4 & _ & H5 & H6 & H7).
  - vm_compute. reflexivity.
  - split; [exact H1|]. exists t'. repeat split; assumption.
Defined.

(** C5 fails on the code: a cron expression with a day of the month and a
    day of the week is registered: [add_task] returns true, the task is in
    the registry and its job is on the job list of the package. *)
Lemma add_task_takes_conflicting_cron :
  cron cron_both = Some "0 9 1 * 1" /\
  (ref_add_task cron_both (empty_scheduler, quiet_world)).1 = Returned true /\
  (fun t => (cron t, job t)) <$>
    tasks (ref_add_task cron_both (empty_scheduler, quiet_world)).2.1 !! "t1" =
    Some (Some "0 9 1 * 1", Some 0%nat) /\
  jobs (ref_add_task cron_both (empty_scheduler, quiet_world)).2.2 = [0%nat].
Proof. vm_compute. repeat split. Qed.

Lemma add_task_accepts_every_cron_witness :
  (ref_add_task cron_both (empty_scheduler, quiet_world)).1 = Returned true /\
  exists t',
    tasks (ref_add_task cron_both (empty_scheduler, quiet_world)).2.1 !! "t1" =
      Some t' /\
    same_config cron_both t'.
Proof.
  apply (add_task_accepts_every_cron (D := stamp_datetime)
           (L := lenient_schedule) cron_both empty_scheduler quiet_world);
    reflexivity.
Defined.

(** C6 fails on the code: the run that brings [run_count] to [max_runs]
    leaves the task enabled. *)
Lemma run_reaching_cap_leaves_enabled :
  max_runs once_capped = Some 1 /\
  run_count (run (once_capped, quiet_world)).2.1 = 1 /\
  enabled (run (once_capped, quiet_world)).2.1 = true.
Proof. vm_compute. repeat split. Qed.

Lemma keys_ok_holding (t : Task) : keys_ok (holding t).
Proof.
  intros k t'. unfold holding. simpl.
  rewrite lookup_singleton_Some. now intros [<- <-].
Qed.

Lemma registry_ok_empty (w : world) : registry_ok (empty_scheduler, w).
Proof. split; intros k t; simpl; now rewrite lookup_empty. Qed.

Lemma max_runs_is_a_cap_witness :
  caps_ok
    (ref_exec_all
       [OpAdd once_capped; OpStart; OpRunTask "t1"; OpLoopTurn ["t1"];
        OpEnable "t1"; OpStop]
       (empty_scheduler, quiet_world)).2.1 /\
  invocations "t1"
    (ref_exec_all [OpStart; OpRunTask "t1"; OpEnable "t1"; OpLoopTurn ["t1"]]
       (holding worn_out, quiet_world)).2.2 = 0%nat /\
  enabled (run (worn_out, quiet_world)).2.1 = false.
Proof.
  destruct (max_runs_is_a_cap (D := stamp_datetime) (L := lenient_schedule))
    as (Hcap & Hspent & Hoff).
  split; [|split].
  - apply (Hcap _ empty_scheduler quiet_world (registry_ok_empty quiet_world)).
    repeat constructor.
    intros m Hm. injection Hm as <-. vm_compute. discriminate.
  - apply (Hspent [OpStart; OpRunTask "t1"; OpEnable "t1"; OpLoopTurn ["t1"]]
             (holding worn_out) quiet_world "t1" worn_out
             (keys_ok_holding worn_out)).
    + reflexivity.
    + reflexivity.
    + repeat constructor; discriminate.
  - apply (Hoff worn_out quiet_world). reflexivity.
Defined.


Lemma persistence_round_trip_witness :
  (exists t',
     from_dict (D := stamp_datetime) (to_dict (D := stamp_datetime) veteran)
       failing tt = (Returned t', tt) /\
     function t' = failing /\ run_count t' = 3 /\
     last_run t' = Some 100000000 /\ next_run t' = Some 160000000 /\
     enabled t' = true) /\
  to_dict (D := stamp_datetime) veteran !! "function" = None.
Proof.
  destruct (persistence_round_trip (D := stamp_datetime)
              (HD := stamp_datetime_laws) veteran failing)
    as ((t' & H1 & H2 & H3 & H4 & H5 & H6) & Hkey & _).
  split; [|exact Hkey].
  exists t'. split; [apply H1|]. repeat split; assumption.
Defined.

(** C9, at the failing input.  [tasks.json] holds the record of task
    [t1] with three runs, as [_save_tasks] wrote it, and the scheduler that
    starts on it has no task: [__init__] empties the registry before it
    calls [_load_tasks], so the record is skipped and its run-state is
    restored nowhere.  When the owner then registers [t1] again, the task
    starts from [run_count = 0] without a [last_run], and the save of
    [add_task] writes that over the record: the three runs are lost. *)
Lemma init_restores_nothing :
  tasks_json world_with_file = Some [to_dict (D := stamp_datetime) veteran] /\
  to_dict (D := stamp_datetime) veteran !! "task_id" = Some (PyStr "t1") /\
  to_dict (D := stamp_datetime) veteran !! "run_count" = Some (PyInt 3) /\
  (__init__ (D := stamp_datetime) world_with_file).1 = Returned tt /\
  get_task (__init__ (D := stamp_datetime) world_with_file).2.1 "t1" = None /\
  get_tasks (__init__ (D := stamp_datetime) world_with_file).2.1 = [] /\
  (let again :=
     ref_add_task (every_minute answer true)
       (__init__ (D := stamp_datetime) world_with_file).2 in
   again.1 = Returned true /\
   option_map run_count (get_task again.2.1 "t1") = Some 0 /\
   option_map last_run (get_task again.2.1 "t1") = Some None /\
   option_map (map (fun d : pydict => d !! "run_count"))
     (tasks_json again.2.2) = Some [Some (PyInt 0)]).
Proof. vm_compute. repeat split. Qed.

(** The restore of [_load_tasks], on a registry that holds [t1]. *)
Lemma load_tasks_restores_registered_witness :
  (_load_tasks (D := stamp_datetime)
     (holding (every_minute failing false), world_with_file)).1 = Returned tt /\
  (exists t',
     tasks (_load_tasks (D := stamp_datetime)
              (holding (every_minute failing false), world_with_file)).2.1
       !! "t1" = Some t' /\
     enabled t' = true /\ run_count t' = 3 /\
     last_run t' = Some 100000000 /\ next_run t' = Some 160000000 /\
     function t' = failing) /\
  tasks (_load_tasks (D := stamp_datetime)
           (holding (every_minute failing false), world_with_file)).2.1
    !! "t2" = None.
Proof.
  destruct (load_tasks_restores_registered (D := stamp_datetime)
              (HD := stamp_datetime_laws) [veteran]
              (holding (every_minute failing false)) world_with_file)
    as (H1 & H2 & H3).
  - reflexivity.
  - reflexivity.
  - repeat constructor. apply not_elem_of_nil.
  - split; [exact H1|]. split.
    + destruct (H2 veteran (every_minute failing false))
        as (t' & Ht' & He & Hrc & Hl & Hn & Hc).
      * apply list_elem_of_here.
      * reflexivity.
      * exists t'. repeat split; try assumption.
        destruct Hc as (_ & _ & Hf & _). exact Hf.
    + apply H3. reflexivity.
Defined.

(** ** More properties on examples *)

Lemma remove_task_removes_witness :
  (ref_remove_task "t1" (registered (every_minute answer true))).1 =
    Returned true /\
  get_task (ref_remove_task "t1" (registered (every_minute answer true))).2.1
    "t1" = None /\
  0%nat ∉ jobs (ref_remove_task "t1" (registered (every_minute answer true))).2.2.
Proof.
  destruct (remove_task_removes (D := stamp_datetime) "t1"
              (registered (every_minute answer true)).1
              (registered (every_minute answer true)).2
              (set_next_run (Some 960000000)
                 (set_job (Some 0%nat) (every_minute answer true))))
    as (H1 & H2 & _ & _ & H3 & _).
  - vm_compute. reflexivity.
  - split; [exact H1|]. split; [exact H2|]. apply (H3 0%nat). reflexivity.
Defined.

Lemma unknown_id_is_refused_witness :
  (ref_remove_task "t9" (registered (every_minute answer true))).1 =
    Returned false /\
  (ref_run_task "t9" (registered (every_minute answer true))).1 =
    Returned PyNone /\
  (ref_run_task "t9" (registered (every_minute answer true))).2.1 =
    (registered (every_minute answer true)).1.
Proof.
  destruct (unknown_id_is_refused (D := stamp_datetime) (L := lenient_schedule)
              "t9" (registered (every_minute answer true)).1
              (registered (every_minute answer true)).2)
    as (H1 & _ & _ & H4).
  - vm_compute. reflexivity.
  - split; [exact (f_equal fst H1)|].
    split; [exact (f_equal fst H4) | exact (f_equal (fun r => r.2.1) H4)].
Defined.

Lemma add_task_registers_witness :
  (ref_add_task sleeper (registered (every_minute answer true))).1 =
    Returned true /\
  length (get_tasks
            (ref_add_task sleeper (registered (every_minute answer true))).2.1) =
    2%nat.
Proof.
  destruct (add_task_registers (D := stamp_datetime) (L := lenient_schedule)
              sleeper (registered (every_minute answer true)).1
              (registered (every_minute answer true)).2)
    as (H1 & _ & _ & H2).
  - vm_compute. reflexivity.
  - split; [exact H1|]. etransitivity; [exact H2|]. vm_compute. reflexivity.
Defined.

Lemma remove_task_undoes_add_task_witness :
  tasks (ref_remove_task "t2"
           ((ref_add_task sleeper (registered (every_minute answer true))).2.1,
            ten_oclock)).2.1 =
    tasks (registered (every_minute answer true)).1.
Proof.
  apply (remove_task_undoes_add_task (D := stamp_datetime)
           (L := lenient_schedule) sleeper
           (registered (every_minute answer true)).1
           (registered (every_minute answer true)).2 ten_oclock).
  vm_compute. reflexivity.
Defined.

Lemma mutations_are_persisted_witness :
  file_current (D := stamp_datetime)
    (ref_add_task sleeper (empty_scheduler, quiet_world)).2 /\
  file_current (D := stamp_datetime)
    (ref_run_task "t1" (holding (every_minute answer true), quiet_world)).2.
Proof.
  destruct (mutations_are_persisted (D := stamp_datetime)
              (L := lenient_schedule) empty_scheduler quiet_world eq_refl)
    as (Hadd & _).
  destruct (mutations_are_persisted (D := stamp_datetime)
              (L := lenient_schedule) (holding (every_minute answer true))
              quiet_world eq_refl)
    as (_ & Hreg & _).
  split.
  - apply (Hadd sleeper). reflexivity.
  - apply (Hreg "t1"). vm_compute. eexists. reflexivity.
Defined.

Lemma save_failure_is_only_logged_witness :
  (ref_add_task sleeper (empty_scheduler, broken_disk)).1 = Returned true /\
  tasks_json (ref_add_task sleeper (empty_scheduler, broken_disk)).2.2 = None /\
  exists msg,
    In ("ERROR", "Error saving tasks: " ++ msg)
      (logs (ref_add_task sleeper (empty_scheduler, broken_disk)).2.2).
Proof.
  destruct (save_failure_is_only_logged (D := stamp_datetime)
              (L := lenient_schedule) empty_scheduler broken_disk eq_refl)
    as (Hadd & _).
  destruct (Hadd sleeper eq_refl) as (H1 & _ & H2 & H3).
  split; [exact H1|]. split; [exact H2 | exact H3].
Defined.

Lemma enable_task_restarts_interval_witness :
  (ref_enable_task "t1" (holding veteran, ten_oclock)).1 = Returned true /\
  exists t',
    tasks (ref_enable_task "t1" (holding veteran, ten_oclock)).2.1 !! "t1" =
      Some t' /\
    next_run t' = Some (36000000000 + 60000000) /\
    run_count t' = 3 /\ last_run t' = Some 100000000.
Proof.
  destruct (enable_task_restarts_interval (D := stamp_datetime)
              (L := lenient_schedule) "t1" (holding veteran) ten_oclock
              veteran tt)
    as (H1 & _ & t' & Ht' & _ & Hn & Hrc & Hl & _);
    [reflexivity | reflexivity | reflexivity | reflexivity |].
  split; [exact H1|]. exists t'. repeat split; assumption.
Defined.

Lemma disable_then_enable_keeps_history_witness :
  exists t',
    tasks (ref_enable_task "t1"
             ((ref_disable_task "t1" (holding veteran, quiet_world)).2.1,
              ten_oclock)).2.1 !! "t1" = Some t' /\
    enabled t' = true /\ run_count t' = 3 /\
    next_run t' = Some (36000000000 + 60000000).
Proof.
  destruct (disable_then_enable_keeps_history (D := stamp_datetime)
              (L := lenient_schedule) "t1" (holding veteran) quiet_world
              ten_oclock veteran tt)
    as (t' & Ht' & He & Hrc & _ & Hn);
    [reflexivity | reflexivity | reflexivity | reflexivity |].
  exists t'. repeat split; assumption.
Defined.

Lemma end_time_is_inclusive_witness :
  calls (run (until_quarter_past, quiet_world)).2.2 = ["t1"] /\
  calls (run (until_quarter_past, ten_oclock)).2.2 = [] /\
  enabled (run (until_quarter_past, ten_oclock)).2.1 = false.
Proof.
  destruct (end_time_is_inclusive until_quarter_past quiet_world 900000000)
    as (H1 & _); [reflexivity | reflexivity | reflexivity |].
  destruct (end_time_is_inclusive until_quarter_past ten_oclock 900000000)
    as (_ & H2); [reflexivity | reflexivity | reflexivity |].
  split; [apply H1; simpl; lia|].
  destruct H2 as (_ & Hc & Ht); [simpl; lia|].
  split; [exact Hc|]. now rewrite Ht.
Defined.

Lemma run_task_counts_the_run_witness :
  (ref_run_task "t1" (holding veteran, quiet_world)).1 = Returned (PyInt 42) /\
  exists t',
    tasks (ref_run_task "t1" (holding veteran, quiet_world)).2.1 !! "t1" =
      Some t' /\
    run_count t' = 3 + 1 /\ last_run t' = Some 905000000.
Proof.
  destruct (run_task_counts_the_run (D := stamp_datetime) "t1" (holding veteran)
              quiet_world veteran (PyInt 42) 905000000)
    as (H1 & (t' & Ht' & Hrc & Hl & _) & _);
    [reflexivity | reflexivity | reflexivity |].
  split; [exact H1|]. exists t'. repeat split; assumption.
Defined.

Lemma cron_firing_keeps_next_run_witness :
  next_run (run (set_next_run (Some 32400000000) cron_daily, ten_oclock)).2.1 =
    Some 32400000000.
Proof.
  apply (cron_firing_keeps_next_run (set_next_run (Some 32400000000) cron_daily)
           ten_oclock).
  reflexivity.
Defined.

Lemma past_one_shot_runs_at_registration_witness :
  (ref_add_task (one_shot answer (Some 0)) (empty_scheduler, quiet_world)).1 =
    Returned true /\
  calls (ref_add_task (one_shot answer (Some 0))
           (empty_scheduler, quiet_world)).2.2 = ["t1"] /\
  exists t',
    tasks (ref_add_task (one_shot answer (Some 0))
             (empty_scheduler, quiet_world)).2.1 !! "t1" = Some t' /\
    enabled t' = false /\ next_run t' = None.
Proof.
  destruct (past_one_shot_runs_at_registration (D := stamp_datetime)
              (L := lenient_schedule) (one_shot answer (Some 0))
              empty_scheduler quiet_world)
    as (H1 & H2 & t' & Ht' & He & Hn & _);
    [reflexivity | reflexivity | reflexivity | reflexivity | simpl; lia |].
  split; [exact H1|]. split; [exact H2|].
  exists t'. repeat split; assumption.
Defined.

Lemma enable_task_reruns_one_shot_witness :
  (ref_enable_task "t1"
     (holding (set_enabled false (one_shot answer None)), ten_oclock)).1 =
    Returned true /\
  calls (ref_enable_task "t1"
           (holding (set_enabled false (one_shot answer None)),
            ten_oclock)).2.2 = ["t1"].
Proof.
  destruct (enable_task_reruns_one_shot (D := stamp_datetime)
              (L := lenient_schedule) "t1"
              (holding (set_enabled false (one_shot answer None))) ten_oclock
              (set_enabled false (one_shot answer None)))
    as (H1 & H2 & _);
    [reflexivity | reflexivity | reflexivity | reflexivity | reflexivity
    | reflexivity | exact I |].
  split; [exact H1 | exact H2].
Defined.

Lemma future_one_shot_waits_witness :
  (ref_add_task (one_shot answer (Some 3600000000))
     (empty_scheduler, quiet_world)).1 = Returned true /\
  calls (ref_add_task (one_shot answer (Some 3600000000))
           (empty_scheduler, quiet_world)).2.2 = [] /\
  exists t',
    tasks (ref_add_task (one_shot answer (Some 3600000000))
             (empty_scheduler, quiet_world)).2.1 !! "t1" = Some t' /\
    enabled t' = true /\ next_run t' = Some 3600000000.
Proof.
  destruct (future_one_shot_waits (D := stamp_datetime)
              (L := lenient_schedule) (one_shot answer (Some 3600000000))
              empty_scheduler quiet_world 3600000000 tt)
    as (H1 & H2 & t' & Ht' & He & Hn & _);
    [reflexivity | reflexivity | reflexivity | reflexivity | simpl; lia
    | reflexivity | reflexivity |].
  split; [exact H1|]. split; [exact H2|].
  exists t'. repeat split; assumption.
Defined.

Lemma cron_needs_five_fields_witness :
  (ref_schedule_task cron_short quiet_world).1 = Returned false /\
  logs (ref_schedule_task cron_short quiet_world).2.2 =
    [("ERROR", "Invalid cron expression: 0 9 * *")].
Proof.
  pose proof (cron_needs_five_fields (D := stamp_datetime)
                (L := lenient_schedule) cron_short quiet_world "0 9 * *"
                eq_refl eq_refl eq_refl) as H.
  assert (Hlen : length (split "0 9 * *") <> 5%nat)
    by (vm_compute; discriminate).
  split.
  - exact (f_equal fst (H Hlen)).
  - exact (f_equal (fun r => logs r.2.2) (H Hlen)).
Defined.

Lemma cron_next_run_ignores_weekday_witness :
  next_run (ref_schedule_task cron_daily ten_oclock).2.1 =
    Some (32400000000 + 86400000000).
Proof.
  destruct (cron_next_run_ignores_weekday (D := stamp_datetime)
              (L := lenient_schedule) cron_daily ten_oclock "0 9 * * *"
              "0" "9" "*" "*" "*"
              (ref_schedule_task cron_daily ten_oclock).2.1
              (ref_schedule_task cron_daily ten_oclock).2.2)
    as (next & Hnext & Hrun);
    [reflexivity | reflexivity | reflexivity | vm_compute; reflexivity
    | vm_compute; reflexivity |].
  vm_compute in Hnext. injection Hnext as <-. exact Hrun.
Defined.

Lemma from_dict_needs_every_key_witness :
  to_dict (D := stamp_datetime) veteran !! "run_count" = Some (PyInt 3) /\
  to_dict (D := stamp_datetime) veteran !! "enabled" = Some (PyBool true).
Proof.
  destruct (from_dict_needs_every_key (D := stamp_datetime)
              (to_dict (D := stamp_datetime) veteran) failing tt tt
              (mkTask "t1" "demo" failing "interval" 60 None None None None
                 true 3 (Some 100000000) (Some 160000000) None))
    as (_ & _ & He & Hrc & _).
  - vm_compute. reflexivity.
  - split; [exact Hrc | exact He].
Defined.

Lemma disabled_task_is_silent_witness :
  invocations "t1"
    (ref_exec_all
       [OpStart; OpRunTask "t1"; OpLoopTurn ["t1"]; OpEnable "t2";
        OpDisable "t1"; OpStop]
       (holding (every_minute answer false), quiet_world)).2.2 = 0%nat.
Proof.
  destruct (disabled_task_is_silent (D := stamp_datetime)
              (L := lenient_schedule)
              [OpStart; OpRunTask "t1"; OpLoopTurn ["t1"]; OpEnable "t2";
               OpDisable "t1"; OpStop]
              (holding (every_minute answer false)) quiet_world "t1"
              (every_minute answer false))
    as (H & _).
  - apply keys_ok_holding.
  - reflexivity.
  - reflexivity.
  - repeat (constructor; try exact I). discriminate.
  - exact H.
Defined.
